(** * Retail analysis scripts: a shallow embedding

    The repository holds two scripts.

    - [01_data_analysis_with_sql_and_python/analysis.py] normalises the
      online-retail dataset with pandas, loads it once into a PostgreSQL
      table through psycopg2 and runs a file of SQL statements.
    - [02_sales_data_transformation_and_aggregation/pipeline.py] reads the
      CSV with Spark and computes three aggregates.

    Both scripts are thin layers over libraries.  The functions of the
    scripts are embedded as they are written; the libraries they call are
    modelled next to them, each model saying what it covers. *)

From Stdlib Require Import ZArith QArith List String Ascii Bool Lia DecimalString.
From Stdlib Require Import SpecFloat Sorting.Sorted Sorting.Permutation.
Import ListNotations.
Open Scope string_scope.

(** ** Python strings *)

Module PyStr.

(** [str.isspace] on the ASCII range: TAB..CR, FS..US and the space. *)
Definition isspace (a : ascii) : bool :=
  let n := nat_of_ascii a in
  ((9 <=? n) && (n <=? 13) || (28 <=? n) && (n <=? 31) || (n =? 32))%nat.

(** [s.split(sep)] for a separator of one character. *)
Fixpoint split (sep : ascii) (s : string) : list string :=
  match s with
  | EmptyString => [EmptyString]
  | String a rest =>
      if Ascii.eqb a sep then EmptyString :: split sep rest
      else match split sep rest with
           | [] => [String a EmptyString]
           | piece :: pieces => String a piece :: pieces
           end
  end.

(** [sep.join(pieces)]. *)
Fixpoint join (sep : ascii) (pieces : list string) : string :=
  match pieces with
  | [] => EmptyString
  | [piece] => piece
  | piece :: more => piece ++ String sep (join sep more)
  end.

Fixpoint lstrip (s : string) : string :=
  match s with
  | EmptyString => EmptyString
  | String a rest => if isspace a then lstrip rest else s
  end.

Fixpoint rstrip (s : string) : string :=
  match s with
  | EmptyString => EmptyString
  | String a rest =>
      match rstrip rest with
      | EmptyString => if isspace a then EmptyString else String a EmptyString
      | kept => String a kept
      end
  end.

(** [s.strip()]. *)
Definition strip (s : string) : string := rstrip (lstrip s).

(** Truth value of a string: [if s:]. *)
Definition truthy (s : string) : bool :=
  match s with EmptyString => false | String _ _ => true end.

Fixpoint contains (a : ascii) (s : string) : bool :=
  match s with
  | EmptyString => false
  | String b rest => Ascii.eqb a b || contains a rest
  end.



(** [str(n)] for an integer. *)
Definition str_int (n : Z) : string := NilZero.string_of_int (Z.to_int n).

Definition isdigit (a : ascii) : bool :=
  let n := nat_of_ascii a in ((48 <=? n) && (n <=? 57))%nat.

Definition digit_value (a : ascii) : Z := Z.of_nat (nat_of_ascii a) - 48.

(** The number written by a run of decimal digits, most significant
    first, continuing from [acc]. *)
Fixpoint digits_value (acc : Z) (s : string) : Z :=
  match s with
  | EmptyString => acc
  | String a rest => digits_value (10 * acc + digit_value a) rest
  end.

Fixpoint all_chars (p : ascii -> bool) (s : string) : bool :=
  match s with
  | EmptyString => true
  | String a rest => p a && all_chars p rest
  end.


End PyStr.

(** ** Exceptions, the world and the effect monad *)

(** An instance of [psycopg2.Error]: the subclass raised and the server's
    message ([pgerror]). *)
Record PgError := mkPgError { pg_class : string; pg_message : string }.

Inductive Exn :=
| Psycopg2Error (e : PgError)
| UnboundLocalError (var : string)
| AttributeError (msg : string)
| FileNotFoundError (path : string)
| ValueError (msg : string)
| TypeError (msg : string).

(** [isinstance(e, NameError)]: [UnboundLocalError] is a subclass of
    [NameError]. *)
Definition isinstance_NameError (e : Exn) : bool :=
  match e with UnboundLocalError _ => true | _ => false end.

(** [isinstance(e, psycopg2.Error)]. *)
Definition isinstance_psycopg2_Error (e : Exn) : bool :=
  match e with Psycopg2Error _ => true | _ => false end.

(** [str(e)]. *)
Definition exn_str (e : Exn) : string :=
  match e with
  | Psycopg2Error pe => pg_message pe
  | UnboundLocalError var =>
      "cannot access local variable '" ++ var
        ++ "' where it is not associated with a value"
  | AttributeError msg => msg
  | FileNotFoundError path =>
      "[Errno 2] No such file or directory: '" ++ path ++ "'"
  | ValueError msg => msg
  | TypeError msg => msg
  end.

Definition Config := list (string * string).
Definition Row := list string.

(** What a cursor holds after a statement that returns rows: the column
    names of [cursor.description] and the rows. *)
Definition ResultSet := (list string * list Row)%type.

(** The part of psycopg2 and of the server behind it that the script
    relies on.  [DB] is the state of the server together with the session
    of the connection.  Every operation returns the state it leaves, also
    when it fails. *)
Class Driver := {
  DB : Type;
  (** [psycopg2.connect] applied to the configuration *)
  drv_connect : Config -> DB -> DB * option Exn;
  (** [conn.cursor()] *)
  drv_cursor : DB -> option PgError;
  (** [cur.execute(query)]: an error, or the result set if the statement
      has one *)
  drv_execute : DB -> string -> DB * (PgError + option ResultSet);
  (** [conn.commit()] *)
  drv_commit : DB -> DB * option PgError;
  (** [cur.copy_expert(sql, file)], the file given by its text *)
  drv_copy_expert : DB -> string -> string -> DB * option PgError
}.

(** The calls made on the driver, in order. *)
Inductive Call :=
| CConnect
| CCursor
| CExecute (query : string)
| CCommit
| CRollback
| CCopyExpert (query : string) (data : string)
| CClose.

Inductive Connection := connection.

(** A cursor is a client-side object: it keeps the result of its last
    successful [execute]. *)
Record Cursor := mkCursor { cur_result : option ResultSet }.

Inductive Res (A : Type) :=
| Return (a : A)
| Raise (e : Exn).
Arguments Return {A} a.
Arguments Raise {A} e.

Section Script.

Context {D : Driver}.

Record World := mkWorld {
  db : DB;
  stdout : list string;
  files : list (string * string);
  calls : list Call
}.

Definition M (A : Type) := World -> Res A * World.

Definition ret {A} (a : A) : M A := fun w => (Return a, w).
Definition raise {A} (e : Exn) : M A := fun w => (Raise e, w).
Definition bind {A B} (m : M A) (k : A -> M B) : M B :=
  fun w => match m w with
           | (Return a, w') => k a w'
           | (Raise e, w') => (Raise e, w')
           end.

Definition print (line : string) : M unit :=
  fun w => (Return tt, mkWorld (db w) (stdout w ++ [line]) (files w) (calls w)).

Definition record (c : Call) (w : World) (d : DB) : World :=
  mkWorld d (stdout w) (files w) (calls w ++ [c]).

(** [try: m  except psycopg2.Error as e: ...]: the caught error is handed
    to the caller as a value; any other exception keeps propagating. *)
Definition attempt {A} (m : M A) : M (A + PgError) :=
  fun w => match m w with
           | (Return a, w') => (Return (inl a), w')
           | (Raise (Psycopg2Error pe), w') => (Return (inr pe), w')
           | (Raise e, w') => (Raise e, w')
           end.

(** [try: m  except Exception as e: ...]. *)
Definition attempt_any {A} (m : M A) : M (A + Exn) :=
  fun w => match m w with
           | (Return a, w') => (Return (inl a), w')
           | (Raise e, w') => (Return (inr e), w')
           end.

(** [try: m  finally: cleanup]. *)
Definition finally {A} (m : M A) (cleanup : M unit) : M A :=
  fun w => match m w with
           | (r, w') => match cleanup w' with
                        | (Return _, w'') => (r, w'')
                        | (Raise e, w'') => (Raise e, w'')
                        end
           end.

End Script.

Declare Scope script_scope.
Delimit Scope script_scope with script.
Notation "x <- m ;; k" := (bind m (fun x => k))
  (at level 61, m at next level, right associativity) : script_scope.
Notation "m ;; k" := (bind m (fun _ => k))
  (at level 61, right associativity) : script_scope.

Local Open Scope script_scope.

(** ** psycopg2 objects over a driver *)

Section Psycopg2.

Context {D : Driver}.

Definition none_has_no_attribute (name : string) : Exn :=
  AttributeError ("'NoneType' object has no attribute '" ++ name ++ "'").

Definition psycopg2_connect (config : Config) : M Connection :=
  fun w =>
    let (d, failure) := drv_connect config (db w) in
    let w' := record CConnect w d in
    match failure with
    | None => (Return connection, w')
    | Some e => (Raise e, w')
    end.

(** [conn.cursor()]; [conn] may be [None]. *)
Definition conn_cursor (conn : option Connection) : M Cursor :=
  match conn with
  | None => raise (none_has_no_attribute "cursor")
  | Some _ =>
      fun w =>
        let w' := record CCursor w (db w) in
        match drv_cursor (db w) with
        | None => (Return (mkCursor None), w')
        | Some pe => (Raise (Psycopg2Error pe), w')
        end
  end.

(** [conn.commit()]. *)
Definition conn_commit (conn : option Connection) : M unit :=
  match conn with
  | None => raise (none_has_no_attribute "commit")
  | Some _ =>
      fun w =>
        let (d, failure) := drv_commit (db w) in
        let w' := record CCommit w d in
        match failure with
        | None => (Return tt, w')
        | Some pe => (Raise (Psycopg2Error pe), w')
        end
  end.

(** [cur.execute(query)]: the cursor forgets its previous result and keeps
    the new one. *)
Definition cur_execute (cur : Cursor) (query : string) : M Cursor :=
  fun w =>
    let (d, outcome) := drv_execute (db w) query in
    let w' := record (CExecute query) w d in
    match outcome with
    | inl pe => (Raise (Psycopg2Error pe), w')
    | inr result => (Return (mkCursor result), w')
    end.

Definition no_results_to_fetch : Exn :=
  Psycopg2Error (mkPgError "ProgrammingError" "no results to fetch").

(** [cur.fetchone()]: the next row, [None] when there is none, an error
    when the cursor holds no result set. *)
Definition cur_fetchone (cur : Cursor) : M (option Row) :=
  match cur_result cur with
  | None => raise no_results_to_fetch
  | Some (_, rows) => ret (hd_error rows)
  end.

(** [cur.fetchall()]. *)
Definition cur_fetchall (cur : Cursor) : M (list Row) :=
  match cur_result cur with
  | None => raise no_results_to_fetch
  | Some (_, rows) => ret rows
  end.

(** [cur.description]. *)
Definition cur_description (cur : Cursor) : option (list string) :=
  option_map fst (cur_result cur).

(** [cur.copy_expert(sql=query, file=f)]. *)
Definition cur_copy_expert (cur : Cursor) (query data : string) : M unit :=
  fun w =>
    let (d, failure) := drv_copy_expert (db w) query data in
    let w' := record (CCopyExpert query data) w d in
    match failure with
    | None => (Return tt, w')
    | Some pe => (Raise (Psycopg2Error pe), w')
    end.

(** [cur.close()]. *)
Definition cur_close (cur : Cursor) : M unit :=
  fun w => (Return tt, record CClose w (db w)).

Fixpoint lookup_file (path : string) (fs : list (string * string)) : option string :=
  match fs with
  | [] => None
  | (p, text) :: more => if String.eqb p path then Some text else lookup_file path more
  end.

(** [open(path, 'r')] followed by reading the whole file. *)
Definition open_read (path : string) : M string :=
  fun w => match lookup_file path (files w) with
           | Some text => (Return text, w)
           | None => (Raise (FileNotFoundError path), w)
           end.

End Psycopg2.

(** ** analysis.py: the database steps *)

Section Analysis.

Context {D : Driver}.

(** [connect(config)] *)
Definition connect (config : Config) : M (option Connection) :=
  r <- attempt_any (psycopg2_connect config) ;;
  match r with
  | inl conn =>
      print "Connected to the PostgreSQL server." ;;
      ret (Some conn)
  | inr error =>
      print ("Error: " ++ exn_str error) ;;
      ret None
  end.

Definition an_error_occurred (e : PgError) : M unit :=
  print ("An error occurred: " ++ pg_message e).

(** [execute_query(conn, query, fetch_result=False)].  The first step is
    the [try] statement; it yields the binding of the local [cur] when
    the statement is left, [None] when [cur] was never assigned. *)
Definition execute_query (conn : option Connection) (query : string)
    (fetch_result : bool) : M (option Row) :=
  cur <- match conn with
         | Some _ =>
             r <- attempt (conn_cursor conn) ;;
             match r with
             | inr e => an_error_occurred e ;; ret None
             | inl cur =>
                 r <- attempt (cur_execute cur query) ;;
                 match r with
                 | inr e => an_error_occurred e ;; ret (Some cur)
                 | inl cur =>
                     r <- attempt (conn_commit conn) ;;
                     match r with
                     | inr e => an_error_occurred e ;; ret (Some cur)
                     | inl _ => ret (Some cur)
                     end
                 end
             end
         | None =>
             print "Connection to PostgreSQL failed." ;;
             ret None
         end ;;
  if fetch_result then
    match cur with
    | Some cur => cur_fetchone cur
    | None => raise (UnboundLocalError "cur")
    end
  else ret None.

Definition create_schema_query (table_schema : string) : string :=
  "CREATE SCHEMA IF NOT EXISTS " ++ table_schema.

(** [create_schema_if_not_exists(conn, table_schema)] *)
Definition create_schema_if_not_exists (conn : option Connection)
    (table_schema : string) : M unit :=
  let query := create_schema_query table_schema in
  execute_query conn query false ;;
  print ("Schema " ++ table_schema ++ " created successfully or already exists!").

Definition create_table_query (table_schema table_name : string) : string :=
  "
        CREATE TABLE IF NOT EXISTS " ++ table_schema ++ "." ++ table_name ++ " (
            InvoiceNo VARCHAR,
            StockCode VARCHAR,
            Description TEXT,
            Quantity INTEGER,
            InvoiceDate TIMESTAMP,
            UnitPrice FLOAT,
            CustomerID VARCHAR,
            Country VARCHAR
        )
    ".

(** [create_table_if_not_exists(conn, table_schema, table_name)] *)
Definition create_table_if_not_exists (conn : option Connection)
    (table_schema table_name : string) : M unit :=
  let query := create_table_query table_schema table_name in
  execute_query conn query false ;;
  print ("Table " ++ table_name ++ " created successfully or already exists!").

Definition test_query (table_schema table_name : string) : string :=
  "SELECT 1 FROM " ++ table_schema ++ "." ++ table_name.

Definition copy_query (table_schema table_name : string) : string :=
  "
                    COPY " ++ table_schema ++ "." ++ table_name ++ " FROM stdin WITH CSV HEADER
                    DELIMITER as ','
                ".

(** [copy_data_from_csv_to_table(conn, table_schema, table_name, file_path)] *)
Definition copy_data_from_csv_to_table (conn : option Connection)
    (table_schema table_name file_path : string) : M unit :=
  test_result <- execute_query conn (test_query table_schema table_name) true ;;
  match test_result with
  | None =>
      let query := copy_query table_schema table_name in
      f <- open_read file_path ;;
      cur <- conn_cursor conn ;;
      cur_copy_expert cur query f ;;
      conn_commit conn ;;
      cur_close cur ;;
      print ("Data imported successfully into table '" ++ table_name ++ "'!")
  | Some _ =>
      print ("Table " ++ table_name ++ " already has data")
  end.

(** The body of the [for] loop of [execute_sql_file_and_fetch_results],
    over the pieces still to visit. *)
Fixpoint for_query_in (cur : Cursor) (queries : list string)
    (query_results : list ResultSet) : M (list ResultSet) :=
  match queries with
  | [] => ret query_results
  | query :: queries =>
      let query := PyStr.strip query in
      if PyStr.truthy query then
        cur <- cur_execute cur query ;;
        match cur_description cur with
        | Some (column :: columns) =>
            result <- cur_fetchall cur ;;
            for_query_in cur queries (query_results ++ [(column :: columns, result)])
        | _ => for_query_in cur queries query_results
        end
      else for_query_in cur queries query_results
  end.

(** [execute_sql_file_and_fetch_results(conn, file_path)] *)
Definition execute_sql_file_and_fetch_results (conn : option Connection)
    (file_path : string) : M (list ResultSet) :=
  sql_script <- open_read file_path ;;
  let query_results := [] in
  cur <- conn_cursor conn ;;
  finally
    (let queries := PyStr.split ";" sql_script in
     for_query_in cur queries query_results)
    (cur_close cur).

End Analysis.

(** ** A small PostgreSQL

    A server that understands the statements [analysis.py] sends, and the
    integer division used in the examples of SQL files.  It keeps the
    committed data and the data of the open transaction apart: a failed
    statement aborts the transaction, later statements are refused until
    the transaction ends, and ending an aborted transaction discards its
    work.  Rows are kept as the CSV lines they were copied from; a line is
    accepted when it has as many fields as the table has columns (the
    conversion of fields to the column types is not modelled). *)

Module Pg.

Record Table := mkTable {
  t_schema : string;
  t_name : string;
  t_columns : list (string * string);
  t_rows : list string
}.

Record Data := mkData {
  schemas : list string;
  tables : list Table
}.

Record State := mkState {
  password : string;
  committed : Data;
  working : Data;
  aborted : bool
}.

Inductive Stmt :=
| CreateSchema (s : string)
| CreateTable (s t : string) (columns : list (string * string))
| SelectOneFrom (s t : string)
| SelectDiv (a b : Z)
| CopyFromStdin (s t : string).

(** *** Reading a statement *)

Definition is_punct (a : ascii) : bool := PyStr.contains a "(),./;'".

Definition word_char (a : ascii) : bool :=
  negb (PyStr.isspace a) && negb (is_punct a).

Definition flush (word : string) (toks : list string) : list string :=
  match word with EmptyString => toks | _ => word :: toks end.

(** The word that starts the text, if any, and the tokens after it. *)
Fixpoint scan (s : string) : string * list string :=
  match s with
  | EmptyString => (EmptyString, [])
  | String a rest =>
      let (word, toks) := scan rest in
      if PyStr.isspace a then (EmptyString, flush word toks)
      else if is_punct a then (EmptyString, String a EmptyString :: flush word toks)
      else (String a word, toks)
  end.

Definition tokenize (s : string) : list string :=
  let (word, toks) := scan s in flush word toks.

(** The tokens left after the keywords [kws]. *)
Fixpoint after (kws toks : list string) : option (list string) :=
  match kws, toks with
  | [], _ => Some toks
  | kw :: kws, tok :: toks => if String.eqb kw tok then after kws toks else None
  | _ :: _, [] => None
  end.

Definition is_word (tok : string) : bool :=
  PyStr.truthy tok && PyStr.all_chars word_char tok.

Definition is_number (tok : string) : bool :=
  PyStr.truthy tok && PyStr.all_chars PyStr.isdigit tok.

(** Column declarations [name type, ..., name type )]. *)
Fixpoint parse_columns (toks : list string) : option (list (string * string)) :=
  match toks with
  | name :: type :: sep :: rest =>
      if is_word name && is_word type then
        if String.eqb sep "," then
          option_map (cons (name, type)) (parse_columns rest)
        else if String.eqb sep ")" then
          match rest with [] => Some [(name, type)] | _ => None end
        else None
      else None
  | _ => None
  end.

Definition qualified (toks : list string) : option (string * string * list string) :=
  match toks with
  | s :: dot :: t :: rest =>
      if is_word s && String.eqb dot "." && is_word t then Some (s, t, rest) else None
  | _ => None
  end.

Definition parse_create_schema (toks : list string) : option Stmt :=
  match after ["CREATE"; "SCHEMA"; "IF"; "NOT"; "EXISTS"] toks with
  | Some [s] => if is_word s then Some (CreateSchema s) else None
  | _ => None
  end.

Definition parse_create_table (toks : list string) : option Stmt :=
  match after ["CREATE"; "TABLE"; "IF"; "NOT"; "EXISTS"] toks with
  | Some rest =>
      match qualified rest with
      | Some (s, t, paren :: decls) =>
          if String.eqb paren "(" then option_map (CreateTable s t) (parse_columns decls)
          else None
      | _ => None
      end
  | None => None
  end.

Definition parse_select_one (toks : list string) : option Stmt :=
  match after ["SELECT"; "1"; "FROM"] toks with
  | Some rest =>
      match qualified rest with
      | Some (s, t, []) => Some (SelectOneFrom s t)
      | _ => None
      end
  | None => None
  end.

Definition parse_select_div (toks : list string) : option Stmt :=
  match after ["SELECT"] toks with
  | Some [a; slash; b] =>
      if is_number a && String.eqb slash "/" && is_number b
      then Some (SelectDiv (PyStr.digits_value 0 a) (PyStr.digits_value 0 b))
      else None
  | _ => None
  end.

Definition parse_copy (toks : list string) : option Stmt :=
  match after ["COPY"] toks with
  | Some rest =>
      match qualified rest with
      | Some (s, t, options) =>
          match after ["FROM"; "stdin"; "WITH"; "CSV"; "HEADER"; "DELIMITER"; "as";
                       "'"; ","; "'"] options with
          | Some [] => Some (CopyFromStdin s t)
          | _ => None
          end
      | None => None
      end
  | None => None
  end.

Definition first_of {A} (x y : option A) : option A :=
  match x with Some _ => x | None => y end.

Definition parse (query : string) : option Stmt :=
  let toks := tokenize query in
  first_of (parse_create_schema toks)
    (first_of (parse_create_table toks)
       (first_of (parse_select_one toks)
          (first_of (parse_select_div toks) (parse_copy toks)))).

(** *** Running a statement *)

Definition dquote : string := String (ascii_of_nat 34) EmptyString.
Definition newline : ascii := ascii_of_nat 10.

Definition in_failed_transaction : PgError :=
  mkPgError "InFailedSqlTransaction"
    "current transaction is aborted, commands ignored until end of transaction block".

Definition syntax_error (query : string) : PgError :=
  mkPgError "SyntaxError" ("syntax error" ++ String newline ("LINE 1: " ++ query)).

Definition undefined_table (s t : string) : PgError :=
  mkPgError "UndefinedTable"
    ("relation " ++ dquote ++ s ++ "." ++ t ++ dquote ++ " does not exist").

Definition invalid_schema_name (s : string) : PgError :=
  mkPgError "InvalidSchemaName" ("schema " ++ dquote ++ s ++ dquote ++ " does not exist").

Definition division_by_zero : PgError :=
  mkPgError "DivisionByZero" "division by zero".

Definition copy_needs_copy_expert : PgError :=
  mkPgError "ProgrammingError" "can't execute COPY FROM: use the copy_from() method instead".

Definition not_a_copy : PgError :=
  mkPgError "ProgrammingError" "copy_expert cannot be used with this kind of query".

Definition bad_copy_file_format : PgError :=
  mkPgError "BadCopyFileFormat" "wrong number of fields in a line of the file".

Definition authentication_failed : PgError :=
  mkPgError "OperationalError" "password authentication failed".

Definition is_table (s t : string) (tb : Table) : bool :=
  String.eqb (t_schema tb) s && String.eqb (t_name tb) t.

Definition find_table (s t : string) (d : Data) : option Table :=
  find (is_table s t) (tables d).

Definition has_schema (s : string) (d : Data) : bool :=
  existsb (String.eqb s) (schemas d).

Definition add_rows (s t : string) (rows : list string) (d : Data) : Data :=
  mkData (schemas d)
    (map (fun tb =>
            if is_table s t tb
            then mkTable (t_schema tb) (t_name tb) (t_columns tb) (t_rows tb ++ rows)
            else tb)
       (tables d)).

Definition abort (st : State) : State :=
  mkState (password st) (committed st) (working st) true.

Definition with_working (st : State) (d : Data) : State :=
  mkState (password st) (committed st) d (aborted st).

Definition run (st : State) (stmt : Stmt) : State * (PgError + option ResultSet) :=
  let d := working st in
  match stmt with
  | CreateSchema s =>
      if has_schema s d then (st, inr None)
      else (with_working st (mkData (schemas d ++ [s]) (tables d)), inr None)
  | CreateTable s t columns =>
      if has_schema s d then
        match find_table s t d with
        | Some _ => (st, inr None)
        | None =>
            (with_working st (mkData (schemas d) (tables d ++ [mkTable s t columns []])),
             inr None)
        end
      else (abort st, inl (invalid_schema_name s))
  | SelectOneFrom s t =>
      match find_table s t d with
      | Some tb => (st, inr (Some (["?column?"], map (fun _ => ["1"]) (t_rows tb))))
      | None => (abort st, inl (undefined_table s t))
      end
  | SelectDiv a b =>
      if (b =? 0)%Z then (abort st, inl division_by_zero)
      else (st, inr (Some (["?column?"], [[PyStr.str_int (Z.quot a b)]])))
  | CopyFromStdin _ _ => (abort st, inl copy_needs_copy_expert)
  end.

Definition execute (st : State) (query : string) : State * (PgError + option ResultSet) :=
  if aborted st then (st, inl in_failed_transaction)
  else match parse query with
       | Some stmt => run st stmt
       | None => (abort st, inl (syntax_error query))
       end.

(** The data lines of a CSV text read with [HEADER]: the first line is
    skipped, and so is the empty piece after a final newline. *)
Fixpoint drop_final_empty (lines : list string) : list string :=
  match lines with
  | [] => []
  | [EmptyString] => []
  | line :: more => line :: drop_final_empty more
  end.

Definition data_lines (text : string) : list string :=
  drop_final_empty (tl (PyStr.split newline text)).

(** Fields of a CSV line: commas outside double quotes separate. *)
Fixpoint count_fields (quoted : bool) (line : string) : nat :=
  match line with
  | EmptyString => 1
  | String a rest =>
      if Ascii.eqb a (ascii_of_nat 34) then count_fields (negb quoted) rest
      else if Ascii.eqb a "," && negb quoted then S (count_fields false rest)
      else count_fields quoted rest
  end.

Definition accepts (tb : Table) (line : string) : bool :=
  Nat.eqb (count_fields false line) (List.length (t_columns tb)).

Definition copy_expert (st : State) (query data : string) : State * option PgError :=
  if aborted st then (st, Some in_failed_transaction)
  else match parse query with
       | Some (CopyFromStdin s t) =>
           match find_table s t (working st) with
           | Some tb =>
               let rows := data_lines data in
               if forallb (accepts tb) rows
               then (with_working st (add_rows s t rows (working st)), None)
               else (abort st, Some bad_copy_file_format)
           | None => (abort st, Some (undefined_table s t))
           end
       | Some _ => (abort st, Some not_a_copy)
       | None => (abort st, Some (syntax_error query))
       end.

(** Ending the transaction: its work is kept, unless it was aborted. *)
Definition commit (st : State) : State * option PgError :=
  if aborted st
  then (mkState (password st) (committed st) (committed st) false, None)
  else (mkState (password st) (working st) (working st) false, None).

Fixpoint lookup (key : string) (config : Config) : option string :=
  match config with
  | [] => None
  | (k, v) :: more => if String.eqb k key then Some v else lookup key more
  end.

(** A new session sees the committed data. *)
Definition open_session (config : Config) (st : State) : State * option Exn :=
  match lookup "password" config with
  | Some p =>
      if String.eqb p (password st)
      then (mkState (password st) (committed st) (committed st) false, None)
      else (st, Some (Psycopg2Error authentication_failed))
  | None => (st, Some (Psycopg2Error authentication_failed))
  end.

Definition driver : Driver := {|
  DB := State;
  drv_connect := open_session;
  drv_cursor := fun _ => None;
  drv_execute := execute;
  drv_commit := commit;
  drv_copy_expert := copy_expert
|}.

(** The kinds of column types.  [FLOAT] without a precision is
    [double precision], a binary floating-point type; [DECIMAL] and
    [NUMERIC] are the exact decimal types. *)
Inductive SqlKind := KString | KText | KInteger | KTimestamp | KFloat | KDecimal.

Definition sql_kind (type : string) : option SqlKind :=
  if String.eqb type "VARCHAR" then Some KString
  else if String.eqb type "TEXT" then Some KText
  else if String.eqb type "INTEGER" then Some KInteger
  else if String.eqb type "TIMESTAMP" then Some KTimestamp
  else if String.eqb type "FLOAT" then Some KFloat
  else if String.eqb type "DECIMAL" then Some KDecimal
  else if String.eqb type "NUMERIC" then Some KDecimal
  else None.

(** The declared columns of a table, each with the kind of its type. *)
Definition column_kinds (tb : Table) : list (string * option SqlKind) :=
  map (fun c => (fst c, sql_kind (snd c))) (t_columns tb).

Definition column_kind (name : string) (tb : Table) : option SqlKind :=
  match find (fun c => String.eqb (fst c) name) (t_columns tb) with
  | Some c => sql_kind (snd c)
  | None => None
  end.

(** The session after a commit in a healthy transaction. *)
Definition settled (st : State) : State :=
  mkState (password st) (working st) (working st) false.

(** The rows of a table as the open transaction sees them. *)
Definition rows_of (s t : string) (st : State) : list string :=
  match find_table s t (working st) with
  | Some tb => t_rows tb
  | None => []
  end.

End Pg.

(** The calls that move data into a table. *)
Definition is_transfer (c : Call) : bool :=
  match c with CCopyExpert _ _ => true | _ => false end.

Definition transfers (cs : list Call) : nat := List.length (filter is_transfer cs).

(** ** The batch runner in the words of the specification *)

(** The Statement Batch of a script: the text split on [;], each fragment
    trimmed, empty fragments dropped. *)
Definition statement_batch_of (pieces : list string) : list string :=
  filter PyStr.truthy (map PyStr.strip pieces).

Definition statement_batch (script : string) : list string :=
  statement_batch_of (PyStr.split ";" script).

(** The state of the server after the statements [stmts] ran in order, when
    all of them succeed. *)
Fixpoint drv_run {D : Driver} (d : DB) (stmts : list string) : option DB :=
  match stmts with
  | [] => Some d
  | q :: stmts =>
      match drv_execute d q with
      | (d', inr _) => drv_run d' stmts
      | (_, inl _) => None
      end
  end.


(** ** Worlds used in examples *)

Module Example.

Definition canonical_columns : list (string * string) :=
  [("InvoiceNo", "VARCHAR"); ("StockCode", "VARCHAR"); ("Description", "TEXT");
   ("Quantity", "INTEGER"); ("InvoiceDate", "TIMESTAMP"); ("UnitPrice", "FLOAT");
   ("CustomerID", "VARCHAR"); ("Country", "VARCHAR")].

Definition header : string :=
  "InvoiceNo,StockCode,Description,Quantity,InvoiceDate,UnitPrice,CustomerID,Country".

Definition line1 : string :=
  "536365,85123A,WHITE HANGING HEART T-LIGHT HOLDER,6,2010-12-01 08:26:00,2.55,17850,United Kingdom".

Definition line2 : string :=
  "536365,71053,WHITE METAL LANTERN,6,2010-12-01 08:26:00,3.39,17850,United Kingdom".

Definition nl : string := String Pg.newline EmptyString.

(** A dataset of two records, one of a single record, one with the
    header only, and one whose only record lacks fields. *)
Definition two_rows : string := header ++ nl ++ line1 ++ nl ++ line2 ++ nl.
Definition one_row : string := header ++ nl ++ line1 ++ nl.
Definition header_only : string := header ++ nl.

Definition no_data : Pg.Data := Pg.mkData [] [].

Definition schema_only : Pg.Data := Pg.mkData ["retail"] [].

Definition empty_table : Pg.Data :=
  Pg.mkData ["retail"] [Pg.mkTable "retail" "online_retail" canonical_columns []].

Definition loaded_table : Pg.Data :=
  Pg.mkData ["retail"] [Pg.mkTable "retail" "online_retail" canonical_columns [line1]].

(** A server holding [data], with an open session in a healthy
    transaction. *)
Definition server (data : Pg.Data) : Pg.State := Pg.mkState "secret" data data false.

Definition world (data : Pg.Data) (fs : list (string * string)) : @World Pg.driver :=
  @mkWorld Pg.driver (server data) [] fs [].



(** The tokens of the options of the COPY statement and of the column
    list of the CREATE TABLE statement. *)
Definition copy_options : list string :=
  ["FROM"; "stdin"; "WITH"; "CSV"; "HEADER"; "DELIMITER"; "as"; "'"; ","; "'"]%string.

Definition column_tokens : list string :=
  ["("; "InvoiceNo"; "VARCHAR"; ","; "StockCode"; "VARCHAR"; ",";
   "Description"; "TEXT"; ","; "Quantity"; "INTEGER"; ",";
   "InvoiceDate"; "TIMESTAMP"; ","; "UnitPrice"; "FLOAT"; ",";
   "CustomerID"; "VARCHAR"; ","; "Country"; "VARCHAR"; ")"]%string.

End Example.

(** The loader called twice in a row. *)
Definition load_twice (conn : option Connection)
    (table_schema table_name file_path : string) : @M Pg.driver unit :=
  (copy_data_from_csv_to_table conn table_schema table_name file_path ;;
   copy_data_from_csv_to_table conn table_schema table_name file_path)%script.

(** ** Binary64 numbers

    pandas keeps CustomerID in a float64 column and Spark reads UnitPrice as
    a double.  Both are IEEE 754 binary64 numbers, modelled by the
    reference implementation [SpecFloat] of the standard library with 53
    bits of precision.  Texts of doubles follow [Double.toString] of Java
    (JDK 19 and later): the decimal with the fewest digits, but at least
    two, that rounds to the double, and among those the nearest one. *)

Module Float64.
Local Open Scope Z_scope.

Definition prec : Z := 53.
Definition emax : Z := 1024.

Definition double := spec_float.

Definition add : double -> double -> double := SFadd prec emax.
Definition mul : double -> double -> double := SFmul prec emax.
Definition div : double -> double -> double := SFdiv prec emax.
Definition zero : double := S754_zero false.

(** The double nearest to an integer. *)
Definition of_Z (n : Z) : double := binary_normalize prec emax n 0 false.

(** The double nearest to [n / 10^k], for [n] and [10^k] below [2^53]. *)
Definition of_decimal (n : Z) (k : Z) : double := div (of_Z n) (of_Z (10 ^ k)).

(** *** The shortest decimal of a positive double [m * 2^e] *)

Section Shortest.
Variables (m : positive) (e : Z).

(** Everything is measured in units of [2^(e-2)]: the value is [4m],
    the upper end of the rounding interval [4m+2], the lower end
    [4m-2], or [4m-1] just above a power of two. *)
Definition value4 : Z := 4 * Zpos m.
Definition upper4 : Z := 4 * Zpos m + 2.
Definition lower4 : Z :=
  if (Zpos m =? 2 ^ 52) && (-1074 <? e) then 4 * Zpos m - 1 else 4 * Zpos m - 2.

(** [c * 10^q] and [b * 2^(e-2)] brought to a common integer scale. *)
Definition dec_side (c q : Z) : Z := c * 10 ^ Z.max q 0 * 2 ^ Z.max (2 - e) 0.
Definition bin_side (b q : Z) : Z := b * 2 ^ Z.max (e - 2) 0 * 10 ^ Z.max (- q) 0.

(** The decimals that round to the double: the ends count when the
    mantissa is even. *)
Definition rounds_here (c q : Z) : bool :=
  if Z.even (Zpos m)
  then (bin_side lower4 q <=? dec_side c q) && (dec_side c q <=? bin_side upper4 q)
  else (bin_side lower4 q <? dec_side c q) && (dec_side c q <? bin_side upper4 q).

Definition distance (c q : Z) : Z := Z.abs (dec_side c q - bin_side value4 q).

(** [floor(log10 x)]. *)
Definition pow10_below (k : Z) : bool := dec_side 1 k <=? bin_side value4 k.
Definition magnitude : Z :=
  let k0 := (Z.log2 (Zpos m) + e) * 30103 / 100000 in
  if pow10_below (k0 + 1) then k0 + 1
  else if pow10_below k0 then k0 else k0 - 1.

(** The decimal with [n] digits nearest to the double among those that
    round to it, if there is one. *)
Definition candidate (n : Z) : option (Z * Z) :=
  let q := magnitude - n + 1 in
  let lo := bin_side value4 q / dec_side 1 q in
  let hi := lo + 1 in
  match rounds_here lo q, rounds_here hi q with
  | true, true =>
      match distance lo q ?= distance hi q with
      | Lt => Some (lo, q)
      | Gt => Some (hi, q)
      | Eq => if Z.even lo then Some (lo, q) else Some (hi, q)
      end
  | true, false => Some (lo, q)
  | false, true => Some (hi, q)
  | false, false => None
  end.

Fixpoint search (fuel : nat) (n : Z) : Z * Z :=
  match fuel with
  | O => (Zpos m, e)
  | S fuel =>
      match candidate n with
      | Some _ =>
          match candidate (Z.max n 2) with
          | Some d => d
          | None => (Zpos m, e)
          end
      | None => search fuel (n + 1)
      end
  end.

(** [(c, q)] with the decimal [c * 10^q]. *)
Definition shortest : Z * Z := search 17 1.
End Shortest.

Fixpoint strip_zeros (fuel : nat) (c q : Z) : Z * Z :=
  match fuel with
  | O => (c, q)
  | S fuel => if (c mod 10 =? 0) && negb (c =? 0) then strip_zeros fuel (c / 10) (q + 1) else (c, q)
  end.

Definition digits (c : Z) : string := NilZero.string_of_int (Z.to_int c).

Fixpoint zeros (n : nat) : string :=
  match n with O => EmptyString | S n => String "0" (zeros n) end.

Definition or_zero (s : string) : string :=
  match s with EmptyString => "0" | _ => s end.

(** [Double.toString] of a positive decimal [c * 10^q]. *)
Definition format_decimal (c q : Z) : string :=
  let (c, q) := strip_zeros 20 c q in
  let ds := digits c in
  let len := Z.of_nat (String.length ds) in
  let E := len + q - 1 in
  if (-3 <=? E) && (E <? 7) then
    if 0 <=? E then
      let int_digits := Z.to_nat (E + 1) in
      (substring 0 int_digits (ds ++ zeros (int_digits - String.length ds)))
        ++ "." ++ or_zero (substring int_digits (String.length ds - int_digits) ds)
    else "0." ++ zeros (Z.to_nat (- E - 1)) ++ ds
  else
    substring 0 1 ds ++ "." ++ or_zero (substring 1 (String.length ds - 1) ds)
      ++ "E" ++ NilZero.string_of_int (Z.to_int E).

(** [Double.toString]. *)
Definition to_string (x : double) : string :=
  match x with
  | S754_nan => "NaN"
  | S754_infinity false => "Infinity"
  | S754_infinity true => "-Infinity"
  | S754_zero false => "0.0"
  | S754_zero true => "-0.0"
  | S754_finite s m e =>
      let (c, q) := shortest m e in
      (if s then "-" else "") ++ format_decimal c q
  end.



(** [c * 10^k] rounded to an integer, halves away from zero, for
    [0 <= c]. *)
Definition round_half_up (c k : Z) : Z :=
  if 0 <=? k then c * 10 ^ k else (c + 10 ^ (- k) / 2) / 10 ^ (- k).

(** The cast of a double to [decimal(precision, scale)] in Spark with
    ANSI mode off: the text of the double read as a decimal, rounded
    half up to the scale; null (nothing) for NaN, the infinities and a
    value with more digits than the precision.  The result is the
    unscaled integer. *)
Definition to_decimal (precision scale : Z) (x : double) : option Z :=
  match x with
  | S754_nan | S754_infinity _ => None
  | S754_zero _ => Some 0
  | S754_finite s m e =>
      let (c, q) := shortest m e in
      let unscaled := round_half_up c (q + scale) in
      if unscaled <? 10 ^ precision
      then Some (if s then - unscaled else unscaled)
      else None
  end.

(** The rational value of a finite double. *)
Definition exact (x : double) : Q :=
  match x with
  | S754_finite s m e =>
      let magnitude :=
        if 0 <=? e then inject_Z (Zpos m * 2 ^ e)
        else Qmake (Zpos m) (Z.to_pos (2 ^ (- e))) in
      if s then Qopp magnitude else magnitude
  | _ => 0%Q
  end.

End Float64.

(** A [decimal(p, 2)] value is kept as its unscaled integer, the number of
    hundredths.  [str] of the Python [Decimal] Spark hands back. *)
Definition decimal2_str (unscaled : Z) : string :=
  let magnitude := Z.abs unscaled in
  let cents := (magnitude mod 100)%Z in
  (if (unscaled <? 0)%Z then "-" else "")
    ++ PyStr.str_int (magnitude / 100)%Z ++ "."
    ++ (if (cents <? 10)%Z then "0" else "") ++ PyStr.str_int cents.

(** ** Dates and times *)

Module Calendar.
Local Open Scope Z_scope.

Record Timestamp := mkTimestamp {
  year : Z; month : Z; day : Z; hour : Z; minute : Z; second : Z
}.

Definition is_leap (y : Z) : bool :=
  (y mod 4 =? 0) && (negb (y mod 100 =? 0) || (y mod 400 =? 0)).

Definition days_in_month (y m : Z) : Z :=
  if m =? 2 then (if is_leap y then 29 else 28)
  else if (m =? 4) || (m =? 6) || (m =? 9) || (m =? 11) then 30
  else 31.

(** A date of the proleptic Gregorian calendar, years 1 to 9999. *)
Definition valid_date (y m d : Z) : bool :=
  (1 <=? y) && (y <=? 9999) && (1 <=? m) && (m <=? 12)
  && (1 <=? d) && (d <=? days_in_month y m).

Definition valid_time (h mi s : Z) : bool :=
  (0 <=? h) && (h <=? 23) && (0 <=? mi) && (mi <=? 59) && (0 <=? s) && (s <=? 59).

Definition valid (t : Timestamp) : bool :=
  valid_date (year t) (month t) (day t) && valid_time (hour t) (minute t) (second t).

(** The whole minutes of a timestamp, as a number that grows with time. *)
Definition minutes_key (t : Timestamp) : Z :=
  ((((year t * 100 + month t) * 100 + day t) * 100 + hour t) * 100 + minute t).

Fixpoint zeros (n : nat) : string :=
  match n with O => EmptyString | S n => String "0" (zeros n) end.

(** A number written with at least [width] digits. *)
Definition pad (width : nat) (n : Z) : string :=
  let ds := PyStr.str_int n in
  (zeros (width - String.length ds) ++ ds)%string.

End Calendar.

(** ** Regular expressions with backtracking

    The matches of an expression at the start of a text, in the order in
    which the [re] module of Python tries them; the first one is the
    match that [re.match] reports. *)

Module Regex.

Inductive Re :=
| Empty
| Lit (a : ascii)
| Range (lo hi : ascii)
| Digit
| Spaces
| Seq (r1 r2 : Re)
| Alt (r1 r2 : Re)
| Group (name : string) (r : Re).

Definition Captures := list (string * string).

Definition in_range (lo hi a : ascii) : bool :=
  (nat_of_ascii lo <=? nat_of_ascii a)%nat && (nat_of_ascii a <=? nat_of_ascii hi)%nat.

(** The texts left after one or more whitespace characters, the longest
    run first. *)
Fixpoint after_spaces (s : string) : list string :=
  match s with
  | EmptyString => []
  | String a rest => if PyStr.isspace a then (after_spaces rest ++ [rest])%list else []
  end.

Definition one_char (p : ascii -> bool) (s : string) : list (Captures * string) :=
  match s with
  | EmptyString => []
  | String a rest => if p a then [([], rest)] else []
  end.

Fixpoint run (r : Re) (s : string) : list (Captures * string) :=
  match r with
  | Empty => [([], s)]
  | Lit a => one_char (Ascii.eqb a) s
  | Range lo hi => one_char (in_range lo hi) s
  | Digit => one_char PyStr.isdigit s
  | Spaces => map (fun rest => ([], rest)) (after_spaces s)
  | Seq r1 r2 =>
      flat_map (fun '(caps1, rest1) =>
                  map (fun '(caps2, rest2) => ((caps1 ++ caps2)%list, rest2)) (run r2 rest1))
        (run r1 s)
  | Alt r1 r2 => (run r1 s ++ run r2 s)%list
  | Group name r1 =>
      map (fun '(caps, rest) =>
             ((name, substring 0 (String.length s - String.length rest) s) :: caps,
              rest))
        (run r1 s)
  end.

(** [re.match]: the captures and the text left by the first match. *)
Definition re_match (r : Re) (s : string) : option (Captures * string) :=
  hd_error (run r s).

(** What an expression denotes: the texts it matches, each with the
    texts of its groups. *)
Inductive matches : Re -> string -> Captures -> Prop :=
| matches_empty : matches Empty EmptyString []
| matches_lit a : matches (Lit a) (String a EmptyString) []
| matches_range lo hi a :
    in_range lo hi a = true -> matches (Range lo hi) (String a EmptyString) []
| matches_digit a :
    PyStr.isdigit a = true -> matches Digit (String a EmptyString) []
| matches_spaces s :
    s <> EmptyString -> PyStr.all_chars PyStr.isspace s = true -> matches Spaces s []
| matches_seq r1 r2 s1 s2 c1 c2 :
    matches r1 s1 c1 -> matches r2 s2 c2 ->
    matches (Seq r1 r2) (s1 ++ s2) (c1 ++ c2)%list
| matches_alt_left r1 r2 s c : matches r1 s c -> matches (Alt r1 r2) s c
| matches_alt_right r1 r2 s c : matches r2 s c -> matches (Alt r1 r2) s c
| matches_group name r s c : matches r s c -> matches (Group name r) s ((name, s) :: c).

Fixpoint capture (name : string) (caps : Captures) : option string :=
  match caps with
  | [] => None
  | (n, text) :: more => if String.eqb n name then Some text else capture name more
  end.

End Regex.

(** ** pandas: the normaliser of analysis.py *)

Module Pandas.
Import Calendar Regex.

(** A value of an [object] column: a string, an integer, or the missing
    value NaN. *)
Inductive Obj := OStr (s : string) | OInt (n : Z) | ONaN.


(** The expression of a directive of [strptime]. *)
Definition directive (d : ascii) : option Re :=
  if Ascii.eqb d "m" then
    Some (Alt (Seq (Lit "1") (Range "0" "2"))
            (Alt (Seq (Lit "0") (Range "1" "9")) (Range "1" "9")))
  else if Ascii.eqb d "d" then
    Some (Alt (Seq (Lit "3") (Range "0" "1"))
            (Alt (Seq (Range "1" "2") Digit)
               (Alt (Seq (Lit "0") (Range "1" "9"))
                  (Alt (Range "1" "9") (Seq (Lit " ") (Range "1" "9"))))))
  else if Ascii.eqb d "Y" then
    Some (Seq Digit (Seq Digit (Seq Digit Digit)))
  else if Ascii.eqb d "H" then
    Some (Alt (Seq (Lit "2") (Range "0" "3"))
            (Alt (Seq (Range "0" "1") Digit) Digit))
  else if Ascii.eqb d "M" then
    Some (Alt (Seq (Range "0" "5") Digit) Digit)
  else if Ascii.eqb d "S" then
    Some (Alt (Seq (Lit "6") (Range "0" "1"))
            (Alt (Seq (Range "0" "5") Digit) Digit))
  else None.

(** The expression of a format: a directive becomes a named group, a run
    of whitespace becomes [\s+], any other character stands for
    itself.  [spaced] tells that the character before was whitespace. *)
Fixpoint pattern (spaced : bool) (fmt : string) : option Re :=
  match fmt with
  | EmptyString => Some Empty
  | String a rest =>
      if Ascii.eqb a "%" then
        match rest with
        | String d rest' =>
            match directive d, pattern false rest' with
            | Some r, Some k => Some (Seq (Group (String d EmptyString) r) k)
            | _, _ => None
            end
        | EmptyString => None
        end
      else if PyStr.isspace a then
        if spaced then pattern true rest
        else option_map (Seq Spaces) (pattern true rest)
      else option_map (Seq (Lit a)) (pattern false rest)
  end.

(** [int(text)] for a text of digits with optional blanks around. *)
Definition int_of (text : string) : Z := PyStr.digits_value 0 (PyStr.strip text).

Definition field (name : string) (default : Z) (caps : Captures) : Z :=
  match capture name caps with
  | Some text => int_of text
  | None => default
  end.

Definition dquote : string := String (ascii_of_nat 34) EmptyString.

Definition does_not_match (val fmt : string) : Exn :=
  ValueError ("time data " ++ dquote ++ val ++ dquote ++ " doesn't match format "
                ++ dquote ++ fmt ++ dquote).

Definition unconverted_data (val fmt : string) : Exn :=
  ValueError ("unconverted data remains when parsing with format "
                ++ dquote ++ fmt ++ dquote ++ ": " ++ dquote ++ val ++ dquote).

Definition day_out_of_range : Exn := ValueError "day is out of range for month".

Definition out_of_bounds (val : string) : Exn :=
  ValueError ("Out of bounds nanosecond timestamp: " ++ val).

(** The timestamps pandas holds with nanosecond resolution lie between
    1677-09-21 00:12:43.145224193 and 2262-04-11 23:47:16.854775807. *)
Definition in_bounds (t : Timestamp) : bool :=
  ((16770921_0013 <=? minutes_key t) && (minutes_key t <=? 22620411_2347))%Z.

(** The expression of the format of the invoice dates. *)
Definition invoice_date_regex : Re :=
  Eval vm_compute in
    match pattern false "%m/%d/%Y %H:%M" with Some r => r | None => Empty end.

(** One text parsed under a format, as [pandas.to_datetime] does with
    exact matching. *)
Definition strptime (val fmt : string) : Res Timestamp :=
  match pattern false fmt with
  | None => Raise (ValueError ("bad directive in format " ++ fmt))
  | Some format_regex =>
      match re_match format_regex val with
      | None => Raise (does_not_match val fmt)
      | Some (found, rest) =>
          if PyStr.truthy rest then Raise (unconverted_data val fmt)
          else
            let t := mkTimestamp (field "Y" 1900 found) (field "m" 1 found)
                       (field "d" 1 found) (field "H" 0 found)
                       (field "M" 0 found) (field "S" 0 found) in
            if negb (valid_date (year t) (month t) (day t)) then Raise day_out_of_range
            else if negb (in_bounds t) then Raise (out_of_bounds val)
            else Return t
      end
  end.




(** A function applied to the elements of a column in order; the first
    exception ends it. *)
Fixpoint traverse {A B} (f : A -> Res B) (xs : list A) : Res (list B) :=
  match xs with
  | [] => Return []
  | x :: xs =>
      match f x with
      | Raise e => Raise e
      | Return y =>
          match traverse f xs with
          | Raise e => Raise e
          | Return ys => Return (y :: ys)
          end
      end
  end.





(** [series.fillna(0)] on a float64 column: NaN is the missing value. *)
Definition fillna_0 (series : list Float64.double) : list Float64.double :=
  map (fun x => match x with S754_nan => Float64.zero | _ => x end) series.





(** The dataset as [fetch_ucirepo] hands it over, column by column. *)
Record RawFrame := mkRawFrame {
  raw_InvoiceNo : list Obj;
  raw_StockCode : list Obj;
  raw_Description : list Obj;
  raw_Quantity : list Z;
  raw_InvoiceDate : list Obj;
  raw_UnitPrice : list Float64.double;
  raw_CustomerID : list Float64.double;
  raw_Country : list Obj
}.

Record Frame := mkFrame {
  InvoiceNo : list string;
  StockCode : list string;
  Description : list Obj;
  Quantity : list Z;
  InvoiceDate : list (option string);
  UnitPrice : list Float64.double;
  CustomerID : list string;
  Country : list string
}.


(** *** Example data *)


(** A text of the form month/day/year hour:minute: its six parts, the
    numbers they stand for, and the ranges of a date and of a time of
    day on the 24-hour clock. *)
Definition month_day_year_hour_minute (s : string) (t : Timestamp) : Prop :=
  exists mo d y gap h mi,
    s = mo ++ "/" ++ d ++ "/" ++ y ++ gap ++ h ++ ":" ++ mi
    /\ gap <> EmptyString /\ PyStr.all_chars PyStr.isspace gap = true
    /\ String.length y = 4%nat
    /\ month t = int_of mo /\ day t = int_of d /\ year t = int_of y
    /\ hour t = int_of h /\ minute t = int_of mi /\ second t = 0%Z
    /\ (1 <= month t <= 12)%Z
    /\ (1 <= day t <= days_in_month (year t) (month t))%Z
    /\ (0 <= hour t <= 23)%Z /\ (0 <= minute t <= 59)%Z.

(** Texts of two digits and of four digits. *)
Definition two_digits (s : string) : bool :=
  match s with
  | String a (String b EmptyString) => PyStr.isdigit a && PyStr.isdigit b
  | _ => false
  end.

Definition four_digits (s : string) : bool :=
  match s with
  | String a (String b (String c (String d EmptyString))) =>
      PyStr.isdigit a && PyStr.isdigit b && PyStr.isdigit c && PyStr.isdigit d
  | _ => false
  end.

(** The form [dddd-dd-dd dd:dd:dd] of a text. *)
Definition is_canonical_text (s : string) : bool :=
  match list_ascii_of_string s with
  | [y1; y2; y3; y4; s1; m1; m2; s2; d1; d2; s3; h1; h2; s4; n1; n2; s5; c1; c2] =>
      forallb PyStr.isdigit [y1; y2; y3; y4; m1; m2; d1; d2; h1; h2; n1; n2; c1; c2]
      && Ascii.eqb s1 "-" && Ascii.eqb s2 "-" && Ascii.eqb s3 " "
      && Ascii.eqb s4 ":" && Ascii.eqb s5 ":"
  | _ => false
  end.

(** The text [YYYY-MM-DD HH:MM:SS] of a timestamp. *)
Definition canonical_text (t : Timestamp) : string :=
  pad 4 (year t) ++ "-" ++ pad 2 (month t) ++ "-" ++ pad 2 (day t) ++ " "
    ++ pad 2 (hour t) ++ ":" ++ pad 2 (minute t) ++ ":" ++ pad 2 (second t).

End Pandas.

(** ** Spark: pipeline.py

    A DataFrame is the list of its rows, evaluated at once and in one
    partition: rows are visited in their order, groups come out in the
    order in which their keys first appear, and sorting keeps the order of
    rows with equal keys.  Spark promises none of these orders; they are
    one of the outcomes it allows.  ANSI mode is off, as it is by default
    before Spark 4: a failed conversion gives null. *)

Module Spark.
Import Calendar.
Local Open Scope Z_scope.

(** A value of a column whose type [inferSchema] chose. *)
Inductive Cell :=
| CInt (n : Z)
| CDouble (x : Float64.double)
| CString (s : string)
| CTimestamp (t : Timestamp).

Inductive ColType := TInt | TDouble | TString | TTimestamp.

(** *** Datetime patterns *)

Inductive Item := Letters (a : ascii) (count : nat) | Literal (a : ascii).

Definition is_letter (a : ascii) : bool :=
  let n := nat_of_ascii a in
  ((65 <=? n) && (n <=? 90) || (97 <=? n) && (n <=? 122))%nat.

(** A pattern cut into runs of one letter and single other characters. *)
Fixpoint compile (fmt : string) : list Item :=
  match fmt with
  | EmptyString => []
  | String a rest =>
      if is_letter a then
        match compile rest with
        | Letters b n :: items =>
            if Ascii.eqb a b then Letters a (S n) :: items
            else Letters a 1 :: Letters b n :: items
        | items => Letters a 1 :: items
        end
      else Literal a :: compile rest
  end.

(** The digits at the start of a text, at most [limit] of them. *)
Fixpoint take_digits (limit : nat) (s : string) : string * string :=
  match limit, s with
  | S limit, String a rest =>
      if PyStr.isdigit a then
        let (ds, rest') := take_digits limit rest in (String a ds, rest')
      else (EmptyString, s)
  | _, _ => (EmptyString, s)
  end.

(** The fewest and the most digits of a numeric field: a single letter
    takes any number of digits, [yyyy] exactly four, a repeated letter
    exactly as many as it has letters. *)
Definition widths (a : ascii) (count : nat) : nat * nat :=
  if (count =? 1)%nat then (1%nat, 19%nat) else (count, count).

Definition set_field (a : ascii) (v : Z) (t : Timestamp) : option Timestamp :=
  if Ascii.eqb a "M" then Some (mkTimestamp (year t) v (day t) (hour t) (minute t) (second t))
  else if Ascii.eqb a "d" then Some (mkTimestamp (year t) (month t) v (hour t) (minute t) (second t))
  else if Ascii.eqb a "y" then Some (mkTimestamp v (month t) (day t) (hour t) (minute t) (second t))
  else if Ascii.eqb a "H" then Some (mkTimestamp (year t) (month t) (day t) v (minute t) (second t))
  else if Ascii.eqb a "m" then Some (mkTimestamp (year t) (month t) (day t) (hour t) v (second t))
  else if Ascii.eqb a "s" then Some (mkTimestamp (year t) (month t) (day t) (hour t) (minute t) v)
  else None.

Fixpoint parse_items (items : list Item) (s : string) (t : Timestamp) : option Timestamp :=
  match items with
  | [] => if PyStr.truthy s then None else Some t
  | Literal a :: items =>
      match s with
      | String b rest => if Ascii.eqb a b then parse_items items rest t else None
      | EmptyString => None
      end
  | Letters a count :: items =>
      let (least, most) := widths a count in
      let (ds, rest) := take_digits most s in
      if (least <=? String.length ds)%nat then
        match set_field a (PyStr.digits_value 0 ds) t with
        | Some t' => parse_items items rest t'
        | None => None
        end
      else None
  end.

(** A text read under a pattern; every field must be in its range and
    the date must exist. *)
Definition parse_timestamp (fmt s : string) : option Timestamp :=
  match parse_items (compile fmt) s (mkTimestamp 1970 1 1 0 0 0) with
  | Some t => if valid t then Some t else None
  | None => None
  end.

(** [col.cast('string')]. *)
Definition cast_string (c : Cell) : string :=
  match c with
  | CInt n => PyStr.str_int n
  | CDouble x => Float64.to_string x
  | CString s => s
  | CTimestamp t =>
      (pad 4 (year t) ++ "-" ++ pad 2 (month t) ++ "-" ++ pad 2 (day t) ++ " "
         ++ pad 2 (hour t) ++ ":" ++ pad 2 (minute t) ++ ":" ++ pad 2 (second t))%string
  end.

(** [F.to_timestamp(col, fmt)]: a timestamp stays, any other value is
    read as text under the pattern and is null when that fails. *)
Definition to_timestamp (fmt : string) (c : option Cell) : option Timestamp :=
  match c with
  | None => None
  | Some (CTimestamp t) => Some t
  | Some c => parse_timestamp fmt (cast_string c)
  end.

(** [df.fillna({column: 0})]: nulls of a numeric column become the zero
    of its type; a column of another type is left alone. *)
Definition fillna_0 (type : ColType) (c : option Cell) : option Cell :=
  match c, type with
  | None, TInt => Some (CInt 0)
  | None, TDouble => Some (CDouble Float64.zero)
  | _, _ => c
  end.

(** A row of the CSV file as [spark.read.csv] with [inferSchema] gives
    it. *)
Record RawRow := mkRawRow {
  raw_InvoiceNo : option string;
  raw_StockCode : option string;
  raw_Description : option string;
  raw_Quantity : option Z;
  raw_InvoiceDate : option Cell;
  raw_UnitPrice : option Float64.double;
  raw_CustomerID : option Cell;
  raw_Country : option string
}.

Record RawFrame := mkRawFrame {
  customer_id_type : ColType;
  raw_rows : list RawRow
}.

Record Row := mkRow {
  InvoiceNo : option string;
  StockCode : option string;
  Description : option string;
  Quantity : option Z;
  InvoiceDate : option Timestamp;
  UnitPrice : option Float64.double;
  CustomerID : option string;
  Country : option string
}.

Definition DataFrame := list Row.

(** [read_csv_file(spark, file_path)], from the file read on. *)
Definition read_csv_file (file : RawFrame) : DataFrame :=
  let df := map (fun r => mkRawRow (raw_InvoiceNo r) (raw_StockCode r)
                            (raw_Description r) (raw_Quantity r) (raw_InvoiceDate r)
                            (raw_UnitPrice r)
                            (fillna_0 (customer_id_type file) (raw_CustomerID r))
                            (raw_Country r))
              (raw_rows file) in
  map (fun r => mkRow (raw_InvoiceNo r) (raw_StockCode r) (raw_Description r)
                  (raw_Quantity r)
                  (to_timestamp "M/d/yyyy H:mm" (raw_InvoiceDate r))
                  (raw_UnitPrice r)
                  (option_map cast_string (raw_CustomerID r))
                  (raw_Country r))
    df.

(** *** Grouping and aggregation *)

Section GroupBy.
Context {K V : Type} (eqb : K -> K -> bool).

(** A row put into the group of its key; a new key opens a group at
    the end. *)
Fixpoint group_insert (k : K) (v : V) (groups : list (K * list V)) : list (K * list V) :=
  match groups with
  | [] => [(k, [v])]
  | (k', vs) :: more =>
      if eqb k' k then (k', (vs ++ [v])%list) :: more
      else (k', vs) :: group_insert k v more
  end.

Definition group_by (key : V -> K) (rows : list V) : list (K * list V) :=
  fold_left (fun groups v => group_insert (key v) v groups) rows [].

(** The first group with a key. *)
Fixpoint group_of (k : K) (groups : list (K * list V)) : option (list V) :=
  match groups with
  | [] => None
  | (k', vs) :: more => if eqb k' k then Some vs else group_of k more
  end.

(** The rows that have the key [k], in their order. *)
Definition rows_with (key : V -> K) (k : K) (rows : list V) : list V :=
  filter (fun v => eqb (key v) k) rows.
End GroupBy.

Definition option_eqb {A} (eqb : A -> A -> bool) (x y : option A) : bool :=
  match x, y with
  | Some a, Some b => eqb a b
  | None, None => true
  | _, _ => false
  end.

(** [Quantity * UnitPrice]: the integer becomes a double; null when a
    factor is null. *)
Definition line_total (r : Row) : option Float64.double :=
  match Quantity r, UnitPrice r with
  | Some q, Some p => Some (Float64.mul (Float64.of_Z q) p)
  | _, _ => None
  end.

(** [F.sum] of doubles: nulls are skipped, the others are added to zero
    one after the other; null when there is nothing to add. *)
Definition sum_step (acc : option Float64.double) (x : option Float64.double)
  : option Float64.double :=
  match x with
  | None => acc
  | Some v =>
      Some (Float64.add (match acc with Some a => a | None => Float64.zero end) v)
  end.

Definition sum (xs : list (option Float64.double)) : option Float64.double :=
  fold_left sum_step xs None.

(** [.cast('decimal(26,2)')]. *)
Definition cast_decimal_26_2 (x : option Float64.double) : option Z :=
  match x with
  | Some v => Float64.to_decimal 26 2 v
  | None => None
  end.

Definition sales (rows : list Row) : option Z :=
  cast_decimal_26_2 (sum (map line_total rows)).

(** The value of [df.groupBy().agg(...)]: one row for the whole
    DataFrame, also when it is empty. *)
Definition total_sales (df : DataFrame) : option Z :=
  match group_by (fun _ _ => true) (fun _ => tt) df with
  | [] => sales []
  | (_, rows) :: _ => sales rows
  end.

(** [str] of a value collected from a decimal column. *)
Definition py_str (v : option Z) : string :=
  match v with
  | Some unscaled => decimal2_str unscaled
  | None => "None"
  end.

(** [calculate_total_sales(df)]: the line it prints. *)
Definition calculate_total_sales (df : DataFrame) : string :=
  ("Total sales in the period: $" ++ py_str (total_sales df))%string.

Definition Date := (Z * Z * Z)%type.

(** [F.to_date(col)] of a timestamp. *)
Definition to_date (t : option Timestamp) : option Date :=
  option_map (fun t => (year t, month t, day t)) t.

Definition date_eqb (d1 d2 : Date) : bool :=
  let '(y1, m1, d1) := d1 in
  let '(y2, m2, d2) := d2 in
  (y1 =? y2) && (m1 =? m2) && (d1 =? d2).

(** [F.countDistinct]: every value that is not null is put into a set,
    the count is the size of the set. *)
Definition add_distinct (seen : list string) (x : option string) : list string :=
  match x with
  | None => seen
  | Some v => if existsb (String.eqb v) seen then seen else (seen ++ [v])%list
  end.

Definition count_distinct (xs : list (option string)) : Z :=
  Z.of_nat (List.length (fold_left add_distinct xs [])).

(** [calculate_transaction_per_day(df)]: the DataFrame it returns. *)
Definition calculate_transaction_per_day (df : DataFrame) : list (option Date * Z) :=
  map (fun '(date, rows) => (date, count_distinct (map InvoiceNo rows)))
    (group_by (option_eqb date_eqb) (fun r => to_date (InvoiceDate r)) df).

(** Descending order of a decimal column: nulls come last. *)
Definition desc_le (a b : option Z) : bool :=
  match a, b with
  | Some x, Some y => y <=? x
  | Some _, None => true
  | None, Some _ => false
  | None, None => true
  end.

Section OrderBy.
Context {K : Type}.

Fixpoint insert_desc (x : K * option Z) (sorted : list (K * option Z))
  : list (K * option Z) :=
  match sorted with
  | [] => [x]
  | y :: more =>
      if desc_le (snd y) (snd x) then y :: insert_desc x more
      else x :: sorted
  end.

(** [df.orderBy(F.col(...).desc())]. *)
Definition order_by_desc (rows : list (K * option Z)) : list (K * option Z) :=
  fold_left (fun sorted x => insert_desc x sorted) rows [].
End OrderBy.

(** The aggregate of [calculate_top_10_products] before ordering. *)
Definition sales_by_product (df : DataFrame) : list (option string * option Z) :=
  map (fun '(code, rows) => (code, sales rows))
    (group_by (option_eqb String.eqb) StockCode df).

(** [calculate_top_10_products(df)]: the DataFrame it returns. *)
Definition calculate_top_10_products (df : DataFrame) : list (option string * option Z) :=
  let df := sales_by_product df in
  firstn 10 (order_by_desc df).


(** *** The aggregates in the words of the specification *)


Definition rows_of_day (date : option Date) (df : DataFrame) : list Row :=
  rows_with (option_eqb date_eqb) (fun r => to_date (InvoiceDate r)) date df.




(** *** Example data *)

Definition line (invoice code : string) (quantity : Z) (price : Float64.double)
    (stamp : Timestamp) : Row :=
  mkRow (Some invoice) (Some code) None (Some quantity) (Some stamp) (Some price)
    (Some "17850"%string) (Some "United Kingdom"%string).

Definition morning : Timestamp := mkTimestamp 2010 12 1 8 26 0.
Definition later : Timestamp := mkTimestamp 2010 12 1 8 34 0.

(** The records ("A", 2, 3.00), ("A", 1, 3.00), ("B", 5, 1.00). *)
Definition three_lines : DataFrame :=
  [line "536365" "A" 2 (Float64.of_Z 3) morning;
   line "536365" "A" 1 (Float64.of_Z 3) morning;
   line "536366" "B" 5 (Float64.of_Z 1) later].


(** A raw row with the given invoice date and customer id. *)
Definition raw_line (date customer : option Cell) : RawRow :=
  mkRawRow (Some "536365"%string) (Some "85123A"%string) None (Some 6)
    date (Some (Float64.of_decimal 255 2)) customer (Some "United Kingdom"%string).

(** Two line items of one invoice on one day. *)
Definition one_invoice_two_lines : DataFrame :=
  [line "536365" "85123A" 6 (Float64.of_decimal 255 2) morning;
   line "536365" "71053" 6 (Float64.of_decimal 339 2) later].

End Spark.

(** ** analysis.py: the run of the database steps *)

(** What a run of statements returns to the batch runner: the column names
    and the rows of every statement that has a result set, in the order of
    the statements.  A statement without a result set gives no entry. *)
Fixpoint batch_results {D : Driver} (d : DB) (stmts : list string) : list ResultSet :=
  match stmts with
  | [] => []
  | q :: stmts =>
      match drv_execute d q with
      | (d', inr (Some (column :: columns, rows))) =>
          (column :: columns, rows) :: batch_results d' stmts
      | (d', inr _) => batch_results d' stmts
      | (_, inl _) => []
      end
  end.

Section Main.

Context {D : Driver}.

Definition csv_file_path : string := "data.csv".
Definition table_schema : string := "retail".
Definition table_name : string := "online_retail".
Definition sql_file_path : string := "sql_queries.sql".

(** The two steps of [main] that make sure the schema and the table
    exist. *)
Definition ensure_schema_and_table (conn : option Connection)
    (table_schema table_name : string) : M unit :=
  create_schema_if_not_exists conn table_schema ;;
  create_table_if_not_exists conn table_schema table_name.

(** The steps of [main] that work on the database, from [connect] to the
    run of the SQL file: the dataset file is written before them, the
    configuration is read before them, and the charts are drawn after
    them. *)
Definition main_database_steps (config : Config) : M (list ResultSet) :=
  conn <- connect config ;;
  create_schema_if_not_exists conn table_schema ;;
  create_table_if_not_exists conn table_schema table_name ;;
  copy_data_from_csv_to_table conn table_schema table_name csv_file_path ;;
  query_results <- execute_sql_file_and_fetch_results conn sql_file_path ;;
  ret query_results.

End Main.

(** ** The helpers of both scripts: configuration, JDBC, charts

    These functions touch no database.  They raise exceptions of the
    built-in classes; a dictionary is the list of its items in the order
    in which the keys were inserted. *)

Module Py.

Inductive Error :=
| Exception (msg : string)
| KeyError (key : string)
| IndexError (msg : string)
| ValueError (msg : string)
| TypeError (msg : string)
| ConfigParserError (msg : string).

Inductive Result (A : Type) :=
| Ok (a : A)
| Raised (e : Error).
Arguments Ok {A} a.
Arguments Raised {A} e.

Definition bind {A B} (r : Result A) (k : A -> Result B) : Result B :=
  match r with
  | Ok a => k a
  | Raised e => Raised e
  end.

(** A comprehension: the function applied to the elements in order; the
    first exception ends it. *)
Fixpoint traverse {A B} (f : A -> Result B) (xs : list A) : Result (list B) :=
  match xs with
  | [] => Ok []
  | x :: xs =>
      bind (f x) (fun y => bind (traverse f xs) (fun ys => Ok (y :: ys)))
  end.

(** [d.get(key)], nothing standing for a missing key. *)
Fixpoint dict_get {V} (key : string) (d : list (string * V)) : option V :=
  match d with
  | [] => None
  | (k, v) :: more => if String.eqb k key then Some v else dict_get key more
  end.

(** [d[key] = v]: the value of a key that is there is replaced in its
    place, a new key goes to the end. *)
Fixpoint dict_set {V} (key : string) (v : V) (d : list (string * V))
  : list (string * V) :=
  match d with
  | [] => [(key, v)]
  | (k, x) :: more =>
      if String.eqb k key then (k, v) :: more else (k, x) :: dict_set key v more
  end.

(** [d[key]]. *)
Definition getitem {V} (d : list (string * V)) (key : string) : Result V :=
  match dict_get key d with
  | Some v => Ok v
  | None => Raised (KeyError key)
  end.

(** [l[i]] for an index that is not negative. *)
Definition index {A} (l : list A) (i : nat) : Result A :=
  match nth_error l i with
  | Some x => Ok x
  | None => Raised (IndexError "list index out of range")
  end.

(** [range(n)]. *)
Definition range (n : nat) : list nat := seq 0 n.

(** [x < y] on floats; false when one of them is NaN. *)
Definition lt (x y : Float64.double) : bool := SFltb x y.

(** The place of a double in the order of [lt]: a triple, compared from
    the left. *)
Definition rank (x : Float64.double) : Z * Z * Z :=
  match x with
  | S754_infinity true => (-2, 0, 0)%Z
  | S754_finite true m e => (-1, - e, - Zpos m)%Z
  | S754_zero _ => (0, 0, 0)%Z
  | S754_finite false m e => (1, e, Zpos m)%Z
  | S754_infinity false => (2, 0, 0)%Z
  | S754_nan => (3, 0, 0)%Z
  end.

Definition rank_lt (a b : Z * Z * Z) : Prop :=
  let '(a1, a2, a3) := a in
  let '(b1, b2, b3) := b in
  (a1 < b1 \/ (a1 = b1 /\ (a2 < b2 \/ (a2 = b2 /\ a3 < b3))))%Z.

(** An item with its key may stand before another one in a stable
    descending order: its key is not less, and with equal keys it came
    first. *)
Definition keeps_order (p q : nat * Float64.double) : Prop :=
  lt (snd p) (snd q) = false /\ (lt (snd q) (snd p) = false -> (fst p < fst q)%nat).

(** One step of a stable sort in descending order of the keys: [x]
    stood before all of [sorted] and goes behind the items whose key is
    greater than its own. *)
Fixpoint insert_reverse {A} (x : A * Float64.double)
    (sorted : list (A * Float64.double)) : list (A * Float64.double) :=
  match sorted with
  | [] => [x]
  | y :: more =>
      if lt (snd x) (snd y) then y :: insert_reverse x more else x :: sorted
  end.

(** [sorted(xs, key=key, reverse=True)] for float keys: the keys are
    computed first, one for each item in order; the items come out in
    descending order of their keys, items with equal keys in their
    original order.  The order Python gives to keys that cannot be
    compared (NaN) depends on how it merges and is not modelled. *)
Definition sorted_reverse {A} (key : A -> Result Float64.double) (xs : list A)
  : Result (list A) :=
  bind (traverse key xs) (fun keys =>
  Ok (map fst (fold_right insert_reverse [] (combine xs keys)))).

End Py.

Declare Scope py_scope.
Delimit Scope py_scope with py.
Notation "x <- m ;; k" := (Py.bind m (fun x => k))
  (at level 61, m at next level, right associativity) : py_scope.

(** ** pipeline.py: the JDBC writer *)

Section Jdbc.

Import Py.
Local Open Scope py_scope.

(** [create_connection_string(hostname, port, database)] *)
Definition create_connection_string (hostname port database : string) : string :=
  "jdbc:postgresql://" ++ hostname ++ ":" ++ port ++ "/" ++ database.

(** The call [df.write.jdbc(url=..., table=..., mode=..., properties=...)]. *)
Inductive WriterCall (DataFrame : Type) :=
| jdbc (df : DataFrame) (url table mode : string) (properties : Config).
Arguments jdbc {DataFrame} df url table mode properties.

(** [write_to_postgres(df, config, table_name, mode='overwrite')]: the
    call it makes on the writer of the DataFrame. *)
Definition write_to_postgres {DataFrame : Type} (df : DataFrame) (config : Config)
    (table_name : string) (mode : string) : Result (WriterCall DataFrame) :=
  user <- getitem config "user" ;;
  password <- getitem config "password" ;;
  let properties :=
    [("user", user); ("password", password); ("driver", "org.postgresql.Driver")] in
  host <- getitem config "host" ;;
  port <- getitem config "port" ;;
  database <- getitem config "database" ;;
  let url := create_connection_string host port database in
  Ok (jdbc df url table_name mode properties).

(** The keys of the configuration that [write_to_postgres] reads, in the
    order in which it reads them. *)
Definition keys_read : list string := ["user"; "password"; "host"; "port"; "database"].

End Jdbc.

Arguments jdbc {DataFrame} df url table mode properties.

(** ** Both scripts: the configuration file *)

(** The part of [configparser.ConfigParser] that [load_config] relies on.
    The grammar of the files and the interpolation of values stay with the
    library; what is fixed is that a parser that has read nothing has no
    section. *)
Class ConfigParser := {
  Parser : Type;
  (** [ConfigParser()] *)
  new_parser : Parser;
  (** [parser.read(filename)] for a file that can be opened, given by its
      text *)
  parser_read : Parser -> string -> Py.Result Parser;
  (** [parser.has_section(section)] *)
  parser_has_section : Parser -> string -> bool;
  (** [parser.items(section)] *)
  parser_items : Parser -> string -> Py.Result (list (string * string));
  new_parser_has_no_section :
    forall section, parser_has_section new_parser section = false
}.

Section LoadConfig.

Import Py.
Local Open Scope py_scope.
Context {P : ConfigParser}.

Definition section_not_found (section filename : string) : Error :=
  Exception ("Section " ++ section ++ " not found in the " ++ filename ++ " file").

(** [load_config(filename, section)] over the files [fs].  [parser.read]
    skips a file that it cannot open. *)
Definition load_config (fs : list (string * string)) (filename section : string)
  : Result Config :=
  let parser := new_parser in
  parser <- match lookup_file filename fs with
            | Some text => parser_read parser text
            | None => Ok parser
            end ;;
  let config := [] in
  if parser_has_section parser section then
    params <- parser_items parser section ;;
    Ok (fold_left (fun config param => dict_set (fst param) (snd param) config)
          params config)
  else Raised (section_not_found section filename).

End LoadConfig.

(** ** pipeline.py: [main] from the file read on *)

Section PipelineMain.

Import Py.
Local Open Scope py_scope.
Context {P : ConfigParser}.

(** [main()] of pipeline.py over the files [fs], with the CSV file as
    Spark read it: the line that [calculate_total_sales] prints, and the
    call on the JDBC writer or the exception that ends the run.  The
    tables that [show()] prints are left out. *)
Definition pipeline_main (fs : list (string * string)) (file : Spark.RawFrame)
  : list string * Result (WriterCall Spark.DataFrame) :=
  let db_table_name := "sales" in
  let df := Spark.read_csv_file file in
  let printed := [Spark.calculate_total_sales df] in
  let per_day := Spark.calculate_transaction_per_day df in
  let top_10 := Spark.calculate_top_10_products df in
  (printed,
   config <- load_config fs "database.ini" "postgresql" ;;
   write_to_postgres df config db_table_name "overwrite").

End PipelineMain.

(** A reader of the plainest configuration files, for examples: lines
    [[section]] and [key = value], blank lines between them, no defaults,
    no comments, no interpolation. *)
Module PlainIni.
Import Py.

Definition Sections := list (string * list (string * string)).

Fixpoint before_char (c : ascii) (s : string) : option (string * string) :=
  match s with
  | EmptyString => None
  | String a rest =>
      if Ascii.eqb a c then Some (EmptyString, rest)
      else match before_char c rest with
           | Some (found, rest') => Some (String a found, rest')
           | None => None
           end
  end.

(** The name in a line [[name]]. *)
Definition header (line : string) : option string :=
  match line with
  | String "[" rest =>
      match before_char "]" rest with
      | Some (name, EmptyString) => Some name
      | _ => None
      end
  | _ => None
  end.

Fixpoint add_option (section key value : string) (sections : Sections) : Sections :=
  match sections with
  | [] => []
  | (name, options) :: more =>
      if String.eqb name section then (name, dict_set key value options) :: more
      else (name, options) :: add_option section key value more
  end.

Fixpoint read_lines (current : option string) (lines : list string)
    (sections : Sections) : Result Sections :=
  match lines with
  | [] => Ok sections
  | line :: lines =>
      let line := PyStr.strip line in
      if negb (PyStr.truthy line) then read_lines current lines sections
      else match header line with
           | Some name =>
               match dict_get name sections with
               | Some _ => Raised (ConfigParserError ("section already exists: " ++ name))
               | None => read_lines (Some name) lines (sections ++ [(name, [])])%list
               end
           | None =>
               match current, before_char "=" line with
               | Some section, Some (key, value) =>
                   read_lines current lines
                     (add_option section (PyStr.strip key) (PyStr.strip value) sections)
               | None, _ =>
                   Raised (ConfigParserError "file contains no section headers")
               | _, None =>
                   Raised (ConfigParserError ("source contains parsing errors: " ++ line))
               end
           end
  end.

Definition items (sections : Sections) (section : string)
  : Result (list (string * string)) :=
  match dict_get section sections with
  | Some options => Ok options
  | None => Raised (ConfigParserError ("no section: " ++ section))
  end.

Definition has_section (sections : Sections) (section : string) : bool :=
  match dict_get section sections with Some _ => true | None => false end.

#[export] Instance parser : ConfigParser := {|
  Parser := Sections;
  new_parser := [];
  parser_read := fun sections text =>
                   read_lines None (PyStr.split (ascii_of_nat 10) text) sections;
  parser_has_section := has_section;
  parser_items := items;
  new_parser_has_no_section := fun _ => eq_refl
|}.

Definition database_ini : string :=
  "[postgresql]" ++ Example.nl ++ "host = localhost" ++ Example.nl
    ++ "port = 5432" ++ Example.nl ++ "database = retail" ++ Example.nl
    ++ "user = analyst" ++ Example.nl ++ "password = secret" ++ Example.nl.

End PlainIni.

(** ** analysis.py: the data of the charts *)

Section Charts.

Import Py.
Local Open Scope py_scope.

(** The values of a result row, and [float] applied to one of them. *)
Context {Value : Type} (float : Value -> Result Float64.double).

Fixpoint zip_with {A B C} (f : A -> B -> C) (xs : list A) (ys : list B) : list C :=
  match xs, ys with
  | x :: xs, y :: ys => f x y :: zip_with f xs ys
  | _, _ => []
  end.

(** [zip] applied to the unpacked records: the columns of the rows, as many as the shortest row
    has values; nothing when there is no row. *)
Fixpoint zip_star (records : list (list Value)) : list (list Value) :=
  match records with
  | [] => []
  | record :: records =>
      match records with
      | [] => map (fun v => [v]) record
      | _ => zip_with cons record (zip_star records)
      end
  end.

Definition not_enough_values (got : nat) : Error :=
  ValueError ("not enough values to unpack (expected 2, got "
                ++ NilZero.string_of_uint (Nat.to_uint got) ++ ")").

Definition too_many_values : Error :=
  ValueError "too many values to unpack (expected 2)".

(** [prepare_result(query_result)] *)
Definition prepare_result (query_result : list string * list (list Value))
  : Result (list Value * list Float64.double) :=
  let (headers, records) := query_result in
  match zip_star records with
  | [id; amounts] =>
      amount <- traverse float amounts ;;
      Ok (id, amount)
  | [] => Raised (not_enough_values 0)
  | [_] => Raised (not_enough_values 1)
  | _ => Raised too_many_values
  end.

Definition top_n : nat := 10.

(** The part of [generate_visualizations] that picks what the second
    figure shows, from the stock codes and the orders that
    [prepare_result] returned: the indices of the orders in descending
    order, the first [top_n] of them, and the stock codes and orders at
    these indices. *)
Definition top_of_orders (stock_codes : list Value) (total_orders : list Float64.double)
  : Result (list Value * list Float64.double) :=
  by_orders <- sorted_reverse (index total_orders)
                 (range (List.length total_orders)) ;;
  let top_indices := firstn top_n by_orders in
  top_stock_codes <- traverse (index stock_codes) top_indices ;;
  top_total_orders <- traverse (index total_orders) top_indices ;;
  Ok (top_stock_codes, top_total_orders).

(** The index [i] may stand before the index [j] in the order of the
    chart: its orders are not fewer, and with equal orders it is the
    smaller index. *)
Definition stands_before (total_orders : list Float64.double) (i j : nat) : Prop :=
  exists x y,
    nth_error total_orders i = Some x /\ nth_error total_orders j = Some y
    /\ lt x y = false /\ (lt y x = false -> (i < j)%nat).

End Charts.

(** ** analysis.py: the dataset file

    [create_csv_file] hands the frame to [DataFrame.to_csv], which writes
    through the [csv] module of Python: fields separated by commas, a
    field in double quotes when it holds a comma, a double quote or the
    line feed that ends the lines, a double quote inside it doubled.
    Lines end with a line feed, as they do on POSIX systems. *)

Module PyFloat.
Local Open Scope Z_scope.

(** The shortest decimal that rounds to the positive double [m * 2^e],
    the nearest one if there are several. *)
Fixpoint search (m : positive) (e : Z) (fuel : nat) (n : Z) : Z * Z :=
  match fuel with
  | O => (Zpos m, e)
  | S fuel =>
      match Float64.candidate m e n with
      | Some d => d
      | None => search m e fuel (n + 1)
      end
  end.

Definition shortest (m : positive) (e : Z) : Z * Z := search m e 17 1.

Definition exponent_digits (n : Z) : string :=
  (if n <? 10 then "0" else "") ++ PyStr.str_int n.

(** The text of the decimal [c * 10^q]: plain digits when the decimal
    point falls in or near them, with an exponent otherwise. *)
Definition format (c q : Z) : string :=
  let (c, q) := Float64.strip_zeros 20 c q in
  let ds := Float64.digits c in
  let len := Z.of_nat (String.length ds) in
  let decpt := len + q in
  if (-4 <? decpt) && (decpt <=? 16) then
    if decpt <=? 0 then "0." ++ Float64.zeros (Z.to_nat (- decpt)) ++ ds
    else if len <=? decpt then ds ++ Float64.zeros (Z.to_nat (decpt - len)) ++ ".0"
    else substring 0 (Z.to_nat decpt) ds ++ "."
           ++ substring (Z.to_nat decpt) (String.length ds - Z.to_nat decpt) ds
  else
    substring 0 1 ds
      ++ (if 1 <? len then "." ++ substring 1 (String.length ds - 1) ds else "")
      ++ "e" ++ (if decpt - 1 <? 0 then "-" else "+")
      ++ exponent_digits (Z.abs (decpt - 1)).

(** [repr(x)], which is also the text numpy gives a float64. *)
Definition repr (x : Float64.double) : string :=
  match x with
  | S754_nan => "nan"
  | S754_infinity false => "inf"
  | S754_infinity true => "-inf"
  | S754_zero false => "0.0"
  | S754_zero true => "-0.0"
  | S754_finite s m e =>
      let (c, q) := shortest m e in
      (if s then "-" else "") ++ format c q
  end.

End PyFloat.

Module Csv.

Definition double_quote : ascii := ascii_of_nat 34.
Definition line_feed : ascii := ascii_of_nat 10.

(** The characters that make the writer quote a field. *)
Definition special (a : ascii) : bool :=
  Ascii.eqb a "," || Ascii.eqb a double_quote || Ascii.eqb a line_feed.

Fixpoint needs_quotes (field : string) : bool :=
  match field with
  | EmptyString => false
  | String a rest => special a || needs_quotes rest
  end.

Fixpoint doubled (field : string) : string :=
  match field with
  | EmptyString => EmptyString
  | String a rest =>
      if Ascii.eqb a double_quote then String a (String a (doubled rest))
      else String a (doubled rest)
  end.

(** A field as the writer puts it down. *)
Definition write_field (field : string) : string :=
  if needs_quotes field
  then String double_quote (doubled field ++ String double_quote EmptyString)
  else field.

(** [writer.writerow(fields)] without the end of the line.  A row of one
    empty field is written as two double quotes. *)
Definition write_row (fields : list string) : string :=
  match fields with
  | [EmptyString] => String double_quote (String double_quote EmptyString)
  | _ => PyStr.join "," (map write_field fields)
  end.

Fixpoint write_rows (rows : list (list string)) : string :=
  match rows with
  | [] => EmptyString
  | row :: rows => write_row row ++ String line_feed (write_rows rows)
  end.

(** A text without a line feed and without a carriage return. *)
Definition one_line (field : string) : bool :=
  negb (PyStr.contains line_feed field)
  && negb (PyStr.contains (ascii_of_nat 13) field).

End Csv.

Section DatasetFile.

Import Pandas.

(** The texts of the values of a row of the normalised frame, as
    [to_csv] writes them: a missing value is written as nothing. *)
Definition text_of_obj (v : Obj) : string :=
  match v with
  | OStr s => s
  | OInt n => PyStr.str_int n
  | ONaN => EmptyString
  end.

Definition text_of_float (x : Float64.double) : string :=
  match x with
  | S754_nan => EmptyString
  | _ => PyFloat.repr x
  end.

Definition text_of_date (v : option string) : string :=
  match v with
  | Some s => s
  | None => EmptyString
  end.

(** The rows of a frame; its columns have one length. *)
Definition frame_rows (df : Frame) : list (list string) :=
  map (fun '(invoice_no, (stock_code, (description, (quantity, (invoice_date,
              (unit_price, (customer_id, country))))))) =>
         [invoice_no; stock_code; text_of_obj description; PyStr.str_int quantity;
          text_of_date invoice_date; text_of_float unit_price; customer_id; country])
    (combine (InvoiceNo df) (combine (StockCode df) (combine (Description df)
       (combine (Quantity df) (combine (InvoiceDate df) (combine (UnitPrice df)
          (combine (CustomerID df) (Country df)))))))).

Definition column_names : list string :=
  ["InvoiceNo"; "StockCode"; "Description"; "Quantity"; "InvoiceDate"; "UnitPrice";
   "CustomerID"; "Country"].

(** [df.to_csv(index=False)]: the header and the rows. *)
Definition to_csv (df : Frame) : string :=
  Csv.write_rows (column_names :: frame_rows df).

Context {D : Driver}.





End DatasetFile.

(** * Properties of analysis.py *)

(** ** Facts about the string operations *)

Module PyStrFacts.
Import PyStr.

Lemma split_nonempty (sep : ascii) (s : string) : split sep s <> [].
Proof.
  induction s as [|a s IH]; simpl; [discriminate|].
  destruct (Ascii.eqb a sep); [discriminate|].
  destruct (split sep s); [congruence | discriminate].
Qed.

(** Joining the pieces gives the text back. *)
Lemma join_split (sep : ascii) (s : string) : join sep (split sep s) = s.
Proof.
  induction s as [|a s IH]; simpl; [reflexivity|].
  destruct (Ascii.eqb a sep) eqn:E.
  - apply Ascii.eqb_eq in E; subst a.
    pose proof (split_nonempty sep s) as NE.
    destruct (split sep s) as [|p ps]; [congruence|].
    simpl in *. now rewrite IH.
  - pose proof (split_nonempty sep s) as NE.
    destruct (split sep s) as [|p ps]; [congruence|].
    destruct ps as [|q qs]; simpl in *; now rewrite <- IH.
Qed.









End PyStrFacts.

(** ** The batch runner *)

Section RunnerFacts.

Local Open Scope list_scope.

Context {D : Driver}.




End RunnerFacts.

Section RunnerClaims.

Local Open Scope list_scope.






End RunnerClaims.

(** ** Errors in the database steps *)

Section ErrorFacts.

Context {D : Driver}.
Local Open Scope list_scope.





End ErrorFacts.

Section ErrorClaims.

Local Open Scope list_scope.

(** C10.  Without a connection ([connect] returned [None]), calling
    [execute_query] with [fetch_result=True], as the probe of the bulk
    loader does, raises [UnboundLocalError] on the local [cur], which is
    a [NameError] and not a psycopg2 error; nothing is sent to the
    server and the loader ends with the same exception. *)
Theorem probe_without_connection (D : Driver) (query table_schema table_name
    file_path : string) (w : World) :
  execute_query None query true w
    = (Raise (UnboundLocalError "cur"),
       mkWorld (db w) (stdout w ++ ["Connection to PostgreSQL failed."%string])
         (files w) (calls w))
  /\ copy_data_from_csv_to_table None table_schema table_name file_path w
    = (Raise (UnboundLocalError "cur"),
       mkWorld (db w) (stdout w ++ ["Connection to PostgreSQL failed."%string])
         (files w) (calls w))
  /\ isinstance_NameError (UnboundLocalError "cur") = true
  /\ isinstance_psycopg2_Error (UnboundLocalError "cur") = false.
Proof. repeat split. Qed.




End ErrorClaims.

(** ** The statements of the loader, as the server reads them *)

Module PgFacts.
Import Pg.

Lemma word_char_inv (a : ascii) :
  word_char a = true -> PyStr.isspace a = false /\ is_punct a = false.
Proof.
  unfold word_char. intros H. apply andb_true_iff in H as [H1 H2].
  split; now apply negb_true_iff.
Qed.

(** A run of word characters joins the word that follows it. *)
Lemma scan_word (s rest : string) :
  PyStr.all_chars word_char s = true ->
  scan (s ++ rest) = ((s ++ fst (scan rest))%string, snd (scan rest)).
Proof.
  induction s as [|a s IH]; simpl; intros H.
  - now destruct (scan rest).
  - apply andb_true_iff in H as [Ha Hs].
    destruct (word_char_inv a Ha) as [-> ->].
    now rewrite (IH Hs).
Qed.

Lemma is_word_inv (s : string) :
  is_word s = true -> s <> EmptyString /\ PyStr.all_chars word_char s = true.
Proof.
  unfold is_word. intros H. apply andb_true_iff in H as [H1 H2].
  split; [|exact H2]. now destruct s.
Qed.

Lemma flush_word (s : string) (toks : list string) :
  s <> EmptyString -> flush s toks = s :: toks.
Proof. destruct s; [congruence | reflexivity]. Qed.

Lemma append_empty (s : string) : (s ++ "")%string = s.
Proof. induction s as [|a s IH]; simpl; [reflexivity | now rewrite IH]. Qed.

(** A qualified name in front of text that starts a new token. *)
Lemma scan_qualified (s t rest : string) :
  is_word s = true -> is_word t = true -> fst (scan rest) = EmptyString ->
  scan (s ++ "." ++ t ++ rest) = (s, "."%string :: t :: snd (scan rest)).
Proof.
  intros Hs Ht Hrest.
  destruct (is_word_inv s Hs) as [Ns As].
  destruct (is_word_inv t Ht) as [Nt At].
  rewrite (scan_word s _ As). simpl.
  rewrite (scan_word t _ At), Hrest. simpl.
  rewrite !append_empty. now rewrite (flush_word t _ Nt).
Qed.

Lemma parse_create_schema_query (s : string) :
  is_word s = true -> parse (create_schema_query s) = Some (CreateSchema s).
Proof.
  intros Hs. destruct (is_word_inv s Hs) as [Ns As].
  unfold parse, tokenize, create_schema_query.
  assert (E : scan ("CREATE SCHEMA IF NOT EXISTS " ++ s)
              = ("CREATE"%string, ["SCHEMA"; "IF"; "NOT"; "EXISTS"; s]%string)).
  { pose proof (scan_word s EmptyString As) as W.
    rewrite append_empty in W. simpl in W. rewrite append_empty in W.
    simpl. rewrite W. simpl. now rewrite (flush_word s _ Ns). }
  rewrite E. simpl. unfold parse_create_schema. simpl. now rewrite Hs.
Qed.

Lemma parse_test_query (s t : string) :
  is_word s = true -> is_word t = true ->
  parse (test_query s t) = Some (SelectOneFrom s t).
Proof.
  intros Hs Ht. destruct (is_word_inv s Hs) as [Ns As].
  unfold parse, tokenize, test_query.
  assert (E : scan ("SELECT 1 FROM " ++ s ++ "." ++ t)
              = ("SELECT"%string, ["1"; "FROM"; s; "."; t]%string)).
  { pose proof (scan_qualified s t EmptyString Hs Ht eq_refl) as Q.
    rewrite append_empty in Q.
    simpl. simpl in Q. rewrite Q. simpl. now rewrite (flush_word s _ Ns). }
  rewrite E. simpl.
  unfold parse_create_schema, parse_create_table, parse_select_one. simpl.
  now rewrite Hs, Ht.
Qed.

Lemma parse_copy_query (s t : string) :
  is_word s = true -> is_word t = true ->
  parse (copy_query s t) = Some (CopyFromStdin s t).
Proof.
  intros Hs Ht. destruct (is_word_inv s Hs) as [Ns As].
  unfold parse, tokenize, copy_query.
  match goal with
  | |- context [scan (?pre ++ s ++ "." ++ t ++ ?post)%string] =>
      assert (E : scan (pre ++ s ++ "." ++ t ++ post)
                  = (EmptyString, "COPY"%string :: s :: "."%string :: t :: Example.copy_options))
  end.
  { match goal with
    | |- context [(s ++ "." ++ t ++ ?post)%string] =>
        pose proof (scan_qualified s t post Hs Ht eq_refl) as Q
    end.
    simpl. simpl in Q. rewrite Q. simpl. now rewrite (flush_word s _ Ns). }
  rewrite E. simpl.
  unfold parse_create_schema, parse_create_table, parse_select_one,
    parse_select_div, parse_copy. simpl.
  now rewrite Hs, Ht.
Qed.

Lemma parse_create_table_query (s t : string) :
  is_word s = true -> is_word t = true ->
  parse (create_table_query s t) = Some (CreateTable s t Example.canonical_columns).
Proof.
  intros Hs Ht. destruct (is_word_inv s Hs) as [Ns As].
  unfold parse, tokenize, create_table_query.
  match goal with
  | |- context [scan (?pre ++ s ++ "." ++ t ++ ?post)%string] =>
      assert (E : scan (pre ++ s ++ "." ++ t ++ post)
                  = (EmptyString,
                     "CREATE"%string :: "TABLE"%string :: "IF"%string
                       :: "NOT"%string :: "EXISTS"%string
                       :: s :: "."%string :: t :: Example.column_tokens))
  end.
  { match goal with
    | |- context [(s ++ "." ++ t ++ ?post)%string] =>
        pose proof (scan_qualified s t post Hs Ht eq_refl) as Q
    end.
    simpl. simpl in Q. rewrite Q. simpl. now rewrite (flush_word s _ Ns). }
  rewrite E. simpl.
  unfold parse_create_schema, parse_create_table. simpl.
  now rewrite Hs, Ht.
Qed.

End PgFacts.

(** ** The loader on the server *)

Module LoaderFacts.
Import Pg.
Local Open Scope list_scope.

Lemma find_table_new (s t : string) (columns : list (string * string))
    (tbs : list Table) :
  find (is_table s t) tbs = None ->
  find (is_table s t) (tbs ++ [mkTable s t columns []])
  = Some (mkTable s t columns []).
Proof.
  induction tbs as [|tb tbs IH]; simpl.
  - intros _. unfold is_table. simpl. now rewrite !String.eqb_refl.
  - destruct (is_table s t tb); [discriminate | exact IH].
Qed.

Lemma find_table_add_rows (s t : string) (rows : list string) (d : Data) (tb : Table) :
  find_table s t d = Some tb ->
  find_table s t (add_rows s t rows d)
  = Some (mkTable (t_schema tb) (t_name tb) (t_columns tb) (t_rows tb ++ rows)).
Proof.
  unfold find_table, add_rows. simpl.
  induction (tables d) as [|tb' tbs IH]; simpl; [discriminate|].
  destruct (is_table s t tb') eqn:E.
  - intros [= ->]. unfold is_table in *. simpl. now rewrite E.
  - rewrite E. exact IH.
Qed.

Lemma transfers_app (cs cs' : list Call) :
  transfers (cs ++ cs') = (transfers cs + transfers cs')%nat.
Proof. unfold transfers. now rewrite filter_app, length_app. Qed.

(** The probe on a live connection in a healthy transaction: one row of
    the table, if it has one. *)
Lemma probe_live (s t : string) (w : @World driver) (tb : Table) :
  is_word s = true -> is_word t = true ->
  aborted (db w) = false ->
  find_table s t (working (db w)) = Some tb ->
  execute_query (D := driver) (Some connection) (test_query s t) true w
  = (Return (hd_error (map (fun _ : string => ["1"%string]) (t_rows tb))),
     @mkWorld driver (settled (db w)) (stdout w) (files w)
       (calls w ++ [CCursor; CExecute (test_query s t); CCommit])).
Proof.
  intros Hs Ht Hlive Htb.
  unfold execute_query, bind, attempt, conn_cursor, cur_execute, conn_commit,
    cur_fetchone, record, ret. simpl.
  unfold execute. rewrite Hlive, (PgFacts.parse_test_query s t Hs Ht). simpl.
  rewrite Htb. simpl. unfold commit. simpl. rewrite Hlive. simpl.
  rewrite <- !app_assoc. reflexivity.
Qed.

(** The probe in an aborted transaction: the statement is refused, the
    error is printed and the fetch fails. *)
Lemma probe_aborted (s t : string) (w : @World driver) :
  aborted (db w) = true ->
  execute_query (D := driver) (Some connection) (test_query s t) true w
  = (Raise no_results_to_fetch,
     @mkWorld driver (db w)
       (stdout w ++ [("An error occurred: " ++ pg_message in_failed_transaction)%string])
       (files w)
       (calls w ++ [CCursor; CExecute (test_query s t)])).
Proof.
  intros Hab.
  unfold execute_query, bind, attempt, conn_cursor, cur_execute, conn_commit,
    cur_fetchone, record, ret, an_error_occurred, print, raise. simpl.
  unfold execute. rewrite Hab. simpl.
  rewrite <- !app_assoc. reflexivity.
Qed.

(** The loader on a live connection, against a table that has a row. *)
Lemma load_into_loaded (s t file_path : string) (w : @World driver) (tb : Table) :
  is_word s = true -> is_word t = true ->
  aborted (db w) = false ->
  find_table s t (working (db w)) = Some tb ->
  t_rows tb <> [] ->
  copy_data_from_csv_to_table (D := driver) (Some connection) s t file_path w
  = (Return tt,
     @mkWorld driver (settled (db w))
       (stdout w ++ [("Table " ++ t ++ " already has data")%string])
       (files w)
       (calls w ++ [CCursor; CExecute (test_query s t); CCommit])).
Proof.
  intros Hs Ht Hlive Htb Hrows.
  unfold copy_data_from_csv_to_table, bind.
  rewrite (probe_live s t w tb Hs Ht Hlive Htb).
  destruct (t_rows tb) as [|row rows]; [congruence|]. reflexivity.
Qed.

(** The loader on a live connection, against an empty table, with a
    dataset the server accepts. *)
Lemma load_into_empty (s t file_path text : string) (w : @World driver) (tb : Table) :
  is_word s = true -> is_word t = true ->
  aborted (db w) = false ->
  find_table s t (working (db w)) = Some tb ->
  t_rows tb = [] ->
  lookup_file file_path (files w) = Some text ->
  forallb (accepts tb) (data_lines text) = true ->
  copy_data_from_csv_to_table (D := driver) (Some connection) s t file_path w
  = (Return tt,
     @mkWorld driver
       (settled (with_working (settled (db w))
                   (add_rows s t (data_lines text) (working (db w)))))
       (stdout w ++ [("Data imported successfully into table '" ++ t ++ "'!")%string])
       (files w)
       (calls w ++ [CCursor; CExecute (test_query s t); CCommit; CCursor;
                    CCopyExpert (copy_query s t) text; CCommit; CClose])).
Proof.
  intros Hs Ht Hlive Htb Hempty Hfile Hok.
  unfold copy_data_from_csv_to_table, bind.
  rewrite (probe_live s t w tb Hs Ht Hlive Htb), Hempty. simpl.
  unfold open_read. simpl. rewrite Hfile.
  unfold conn_cursor, cur_copy_expert, conn_commit, cur_close, print, record.
  simpl. unfold copy_expert. simpl.
  rewrite (PgFacts.parse_copy_query s t Hs Ht), Htb, Hok. simpl.
  rewrite <- !app_assoc. reflexivity.
Qed.

Lemma execute_query_unbound_pg (query : string) (w : @World driver) :
  execute_query (D := driver) None query true w
  = (Raise (UnboundLocalError "cur"),
     @mkWorld driver (db w)
       (stdout w ++ ["Connection to PostgreSQL failed."%string])
       (files w) (calls w)).
Proof. reflexivity. Qed.

End LoaderFacts.

Section LoaderClaims.

Import Pg.
Local Open Scope list_scope.

(** C1, amended.  A call against a table that holds at least one row
    transfers nothing and leaves the rows as they are, whatever the
    dataset file holds and whatever the state of the connection.  Two
    calls against an empty table make exactly one transfer, provided the
    dataset has at least one data line and the server accepts its
    lines: the first call copies the lines, the second finds a row and
    transfers nothing. *)
Theorem idempotent_load (s t file_path : string) (w : @World driver)
    (Hs : is_word s = true) (Ht : is_word t = true) :
  (rows_of s t (db w) <> [] ->
   forall conn,
     transfers (calls (snd (copy_data_from_csv_to_table conn s t file_path w)))
       = transfers (calls w)
     /\ rows_of s t (db (snd (copy_data_from_csv_to_table conn s t file_path w)))
       = rows_of s t (db w))
  /\ (forall tb text,
        aborted (db w) = false ->
        find_table s t (working (db w)) = Some tb ->
        t_rows tb = [] ->
        lookup_file file_path (files w) = Some text ->
        data_lines text <> [] ->
        forallb (accepts tb) (data_lines text) = true ->
        fst (load_twice (Some connection) s t file_path w) = Return tt
        /\ transfers (calls (snd (load_twice (Some connection) s t file_path w)))
           = (transfers (calls w) + 1)%nat
        /\ rows_of s t (db (snd (load_twice (Some connection) s t file_path w)))
           = data_lines text
        /\ last (stdout (snd (load_twice (Some connection) s t file_path w)))
             EmptyString
           = ("Table " ++ t ++ " already has data")%string).
Proof.
  split.
  - intros Hrows [[]|].
    + unfold rows_of in *.
      destruct (find_table s t (working (db w))) as [tb|] eqn:Htb; [|congruence].
      destruct (aborted (db w)) eqn:Hab.
      * unfold copy_data_from_csv_to_table, bind.
        rewrite (LoaderFacts.probe_aborted s t w Hab). simpl.
        rewrite LoaderFacts.transfers_app, Htb. unfold transfers. simpl.
        split; [lia | reflexivity].
      * unfold copy_data_from_csv_to_table, bind.
        rewrite (LoaderFacts.probe_live s t w tb Hs Ht Hab Htb).
        destruct (t_rows tb) as [|row rows] eqn:R; [congruence|]. simpl.
        rewrite LoaderFacts.transfers_app, Htb. unfold transfers. simpl.
        split; [lia | now rewrite R].
    + unfold copy_data_from_csv_to_table, bind.
      rewrite LoaderFacts.execute_query_unbound_pg. simpl. auto.
  - intros tb text Hlive Htb Hempty Hfile Hdata Hok.
    unfold load_twice, bind.
    rewrite (LoaderFacts.load_into_empty s t file_path text w tb
               Hs Ht Hlive Htb Hempty Hfile Hok).
    pose proof (LoaderFacts.find_table_add_rows s t (data_lines text)
                  (working (db w)) tb Htb) as Hadd.
    rewrite Hempty in Hadd. simpl in Hadd.
    erewrite LoaderFacts.load_into_loaded;
      [ | exact Hs | exact Ht | reflexivity | exact Hadd | exact Hdata ].
    simpl. split; [reflexivity|]. split; [|split].
    + rewrite !LoaderFacts.transfers_app. unfold transfers. simpl. lia.
    + unfold rows_of. simpl. now rewrite Hadd.
    + apply last_last.
Qed.

Lemma idempotent_load_witness :
  transfers (calls (snd (load_twice (Some connection) "retail" "online_retail"
                           "data.csv"
                           (Example.world Example.empty_table
                              [("data.csv"%string, Example.two_rows)]))))
    = 1%nat
  /\ transfers (calls (snd (copy_data_from_csv_to_table (D := driver)
                              (Some connection) "retail" "online_retail" "data.csv"
                              (Example.world Example.loaded_table
                                 [("data.csv"%string, Example.two_rows)]))))
    = 0%nat.
Proof.
  split.
  - destruct (idempotent_load "retail" "online_retail" "data.csv"
                (Example.world Example.empty_table
                   [("data.csv"%string, Example.two_rows)])
                eq_refl eq_refl) as [_ Hempty].
    destruct (Hempty (mkTable "retail" "online_retail" Example.canonical_columns [])
                Example.two_rows eq_refl eq_refl eq_refl eq_refl
                ltac:(vm_compute; discriminate) eq_refl)
      as (_ & Hcount & _).
    exact Hcount.
  - destruct (idempotent_load "retail" "online_retail" "data.csv"
                (Example.world Example.loaded_table
                   [("data.csv"%string, Example.two_rows)])
                eq_refl eq_refl) as [Hloaded _].
    destruct (Hloaded ltac:(vm_compute; discriminate) (Some connection))
      as [Hcount _].
    exact Hcount.
Defined.

(** C1 as stated fails for a dataset without data lines: the first call
    copies nothing, so the second call finds no row and transfers
    again. *)
Lemma empty_dataset_is_transferred_twice :
  fst (load_twice (Some connection) "retail" "online_retail" "data.csv"
         (Example.world Example.empty_table
            [("data.csv"%string, Example.header_only)]))
    = Return tt
  /\ transfers (calls (snd (load_twice (Some connection) "retail" "online_retail"
                              "data.csv"
                              (Example.world Example.empty_table
                                 [("data.csv"%string, Example.header_only)]))))
    = 2%nat.
Proof. split; reflexivity. Qed.

(** C9, amended.  On a live connection, in a schema that exists and has
    no table of that name, the ensure-table step creates and commits an
    empty table with the eight columns of the Canonical Record: string
    types for InvoiceNo, StockCode, CustomerID and Country, text for
    Description, integer for Quantity, timestamp for InvoiceDate, and the
    binary floating-point type FLOAT for UnitPrice. *)
Theorem ensure_table_columns (s t : string) (w : @World driver)
    (Hs : is_word s = true) (Ht : is_word t = true)
    (Hlive : aborted (db w) = false)
    (Hschema : has_schema s (working (db w)) = true)
    (Hnew : find_table s t (working (db w)) = None) :
  fst (create_table_if_not_exists (Some connection) s t w) = Return tt
  /\ find_table s t
       (committed (db (snd (create_table_if_not_exists (Some connection) s t w))))
     = Some (mkTable s t Example.canonical_columns [])
  /\ column_kinds (mkTable s t Example.canonical_columns [])
     = [("InvoiceNo"%string, Some KString); ("StockCode"%string, Some KString);
        ("Description"%string, Some KText); ("Quantity"%string, Some KInteger);
        ("InvoiceDate"%string, Some KTimestamp); ("UnitPrice"%string, Some KFloat);
        ("CustomerID"%string, Some KString); ("Country"%string, Some KString)].
Proof.
  unfold create_table_if_not_exists, execute_query, bind, attempt, conn_cursor,
    cur_execute, conn_commit, record, ret, print. simpl.
  unfold execute. rewrite Hlive, (PgFacts.parse_create_table_query s t Hs Ht).
  simpl. rewrite Hschema, Hnew. simpl. unfold commit. simpl. rewrite Hlive. simpl.
  split; [reflexivity|]. split; [|reflexivity].
  unfold find_table in *. simpl. now apply LoaderFacts.find_table_new.
Qed.

Lemma ensure_table_columns_witness :
  has_schema "retail" (working (db (Example.world Example.schema_only []))) = true
  /\ find_table "retail" "online_retail"
       (committed (db (snd (create_table_if_not_exists (D := driver)
                              (Some connection) "retail" "online_retail"
                              (Example.world Example.schema_only [])))))
     = Some (mkTable "retail" "online_retail" Example.canonical_columns []).
Proof.
  split; [reflexivity|].
  exact (proj1 (proj2 (ensure_table_columns "retail" "online_retail"
                         (Example.world Example.schema_only [])
                         eq_refl eq_refl eq_refl eq_refl eq_refl))).
Defined.

(** C9 as stated fails: the column UnitPrice of the created table is
    declared FLOAT, a floating-point type, not a decimal type. *)
Lemma unit_price_is_declared_float :
  option_map (column_kind "UnitPrice")
    (find_table "retail" "online_retail"
       (committed (db (snd (create_table_if_not_exists (D := driver)
                              (Some connection) "retail" "online_retail"
                              (Example.world Example.schema_only []))))))
    = Some (Some KFloat)
  /\ Some KFloat <> Some KDecimal.
Proof. split; [reflexivity | discriminate]. Qed.

End LoaderClaims.

(** * Properties of pipeline.py *)

(** ** Grouping *)

Section GroupByFacts.

Context {K V : Type} (eqb : K -> K -> bool).
Hypothesis eqb_spec : forall x y, eqb x y = true <-> x = y.
Variable key : V -> K.

Local Open Scope list_scope.

Local Notation "'group_insert'" := (Spark.group_insert eqb).
Local Notation "'group_by'" := (Spark.group_by eqb key).
Local Notation "'group_of'" := (Spark.group_of eqb).
Local Notation "'rows_with'" := (Spark.rows_with eqb key).

Lemma eqb_refl (k : K) : eqb k k = true.
Proof. now apply eqb_spec. Qed.

Lemma eqb_neq (k k' : K) : k <> k' -> eqb k k' = false.
Proof.
  intros N. destruct (eqb k k') eqn:E; [|reflexivity].
  apply eqb_spec in E. contradiction.
Qed.

Lemma group_of_insert (k k' : K) (v : V) (groups : list (K * list V)) :
  group_of k' (group_insert k v groups)
  = if eqb k k'
    then Some (match group_of k groups with Some vs => vs ++ [v] | None => [v] end)
    else group_of k' groups.
Proof.
  induction groups as [|[k0 vs] more IH]; simpl.
  - destruct (eqb k k'); reflexivity.
  - destruct (eqb k0 k) eqn:E0; simpl.
    + apply eqb_spec in E0. subst k0.
      destruct (eqb k k'); reflexivity.
    + rewrite IH. destruct (eqb k k') eqn:E.
      * apply eqb_spec in E. subst k'. now rewrite E0.
      * reflexivity.
Qed.

Lemma keys_insert (k : K) (v : V) (groups : list (K * list V)) :
  map fst (group_insert k v groups)
  = if existsb (fun k' => eqb k' k) (map fst groups)
    then map fst groups else map fst groups ++ [k].
Proof.
  induction groups as [|[k0 vs] more IH]; simpl; [reflexivity|].
  destruct (eqb k0 k) eqn:E0; simpl; [reflexivity|].
  rewrite IH. now destruct (existsb _ (map fst more)).
Qed.

Lemma group_by_snoc (rows : list V) (v : V) :
  group_by (rows ++ [v]) = group_insert (key v) v (group_by rows).
Proof. unfold Spark.group_by. now rewrite fold_left_app. Qed.

(** The group of a key holds the rows with that key, in their order. *)
Lemma group_of_group_by (k : K) (rows : list V) :
  group_of k (group_by rows)
  = match rows_with k rows with [] => None | vs => Some vs end.
Proof.
  induction rows as [|v rows IH] using rev_ind; [reflexivity|].
  rewrite group_by_snoc, group_of_insert. unfold Spark.rows_with in *.
  rewrite filter_app. simpl.
  destruct (eqb (key v) k) eqn:E.
  - apply eqb_spec in E. subst k. rewrite IH.
    destruct (filter _ rows); reflexivity.
  - rewrite IH, app_nil_r. reflexivity.
Qed.

Lemma existsb_keys (k : K) (ks : list K) :
  existsb (fun k' => eqb k' k) ks = true <-> In k ks.
Proof.
  rewrite existsb_exists. split.
  - intros [k' [Hin E]]. apply eqb_spec in E. now subst.
  - intros Hin. exists k. split; [exact Hin | apply eqb_refl].
Qed.

Lemma group_by_keys_nodup (rows : list V) : NoDup (map fst (group_by rows)).
Proof.
  induction rows as [|v rows IH] using rev_ind; [constructor|].
  rewrite group_by_snoc, keys_insert.
  destruct (existsb _ (map fst (group_by rows))) eqn:E; [exact IH|].
  apply NoDup_app; [exact IH | repeat constructor; intros [] | ].
  intros k Hin [<-|[]].
  apply existsb_keys in Hin. congruence.
Qed.

Lemma group_of_in (k : K) (vs : list V) (groups : list (K * list V)) :
  group_of k groups = Some vs -> In (k, vs) groups.
Proof.
  induction groups as [|[k0 vs0] more IH]; simpl; [discriminate|].
  destruct (eqb k0 k) eqn:E.
  - apply eqb_spec in E. subst. intros [= ->]. now left.
  - intros H. right. now apply IH.
Qed.

Lemma in_group_of (k : K) (vs : list V) (groups : list (K * list V)) :
  NoDup (map fst groups) -> In (k, vs) groups -> group_of k groups = Some vs.
Proof.
  induction groups as [|[k0 vs0] more IH]; simpl; [contradiction|].
  intros ND [E|Hin].
  - injection E as -> ->. now rewrite eqb_refl.
  - inversion ND as [|? ? Hnot ND']; subst.
    destruct (eqb k0 k) eqn:E.
    + apply eqb_spec in E. subst k0. exfalso. apply Hnot.
      apply in_map_iff. now exists (k, vs).
    + now apply IH.
Qed.

(** The groups of a DataFrame: one for each key that occurs, holding the
    rows with that key in their order. *)
Lemma in_group_by (k : K) (vs : list V) (rows : list V) :
  In (k, vs) (group_by rows) <-> vs <> [] /\ vs = rows_with k rows.
Proof.
  split.
  - intros Hin.
    apply in_group_of in Hin; [|apply group_by_keys_nodup].
    rewrite group_of_group_by in Hin.
    destruct (rows_with k rows); [discriminate|].
    injection Hin as <-. split; [discriminate | reflexivity].
  - intros [NE ->]. apply group_of_in. rewrite group_of_group_by.
    destruct (rows_with k rows); [congruence | reflexivity].
Qed.


End GroupByFacts.

(** ** Keys, distinct counts and descending order *)

Module SparkFacts.
Import Spark Calendar.
Local Open Scope list_scope.

Lemma option_eqb_spec {A} (eqb : A -> A -> bool) :
  (forall x y, eqb x y = true <-> x = y) ->
  forall x y, option_eqb eqb x y = true <-> x = y.
Proof.
  intros H [a|] [b|]; simpl; split; try discriminate; try reflexivity.
  - intros E. apply H in E. now subst.
  - intros [= ->]. now apply H.
Qed.

Lemma date_eqb_spec (d1 d2 : Date) : date_eqb d1 d2 = true <-> d1 = d2.
Proof.
  destruct d1 as [[y1 m1] d1], d2 as [[y2 m2] d2]. unfold date_eqb.
  rewrite !andb_true_iff, !Z.eqb_eq. split.
  - intros [[-> ->] ->]. reflexivity.
  - intros [= -> -> ->]. auto.
Qed.

Lemma day_eqb_spec (x y : option Date) : option_eqb date_eqb x y = true <-> x = y.
Proof. apply option_eqb_spec, date_eqb_spec. Qed.


(** The set built by [countDistinct] holds each value once. *)
Lemma add_distinct_fold (xs : list (option string)) :
  forall seen,
    NoDup seen ->
    NoDup (fold_left add_distinct xs seen)
    /\ (forall v, In v (fold_left add_distinct xs seen) <-> In v seen \/ In (Some v) xs).
Proof.
  induction xs as [|x xs IH]; intros seen ND; simpl.
  - split; [exact ND | intros v; tauto].
  - assert (ND' : NoDup (add_distinct seen x)).
    { destruct x as [v|]; simpl; [|exact ND].
      destruct (existsb (String.eqb v) seen) eqn:E; [exact ND|].
      apply NoDup_app; [exact ND | repeat constructor; intros [] |].
      intros u Hu [<-|[]].
      assert (existsb (String.eqb v) seen = true)
        by (apply existsb_exists; exists v; split; [exact Hu | apply String.eqb_refl]).
      congruence. }
    destruct (IH _ ND') as [N I]. split; [exact N|].
    intros v. rewrite I. destruct x as [u|]; simpl.
    + destruct (existsb (String.eqb u) seen) eqn:E.
      * apply existsb_exists in E as [u' [Hu' E]]. apply String.eqb_eq in E. subst u'.
        split; [intros [H|H]; auto|].
        intros [H|[[= ->]|H]]; auto.
      * rewrite in_app_iff. simpl.
        split; [intros [[H|[->|[]]]|H]; auto|].
        intros [H|[[= ->]|H]]; auto.
    + split; [intros [H|H]; auto | intros [H|[H|H]]; auto; discriminate].
Qed.



Section Order.
Context {K : Type}.




Lemma in_firstn {A} (n : nat) (l : list A) (x : A) : In x (firstn n l) -> In x l.
Proof.
  revert l. induction n as [|n IH]; intros [|a l]; simpl; try tauto.
  intros [H|H]; [now left | right; now apply IH].
Qed.

End Order.

End SparkFacts.

(** ** The aggregates *)

Section AggregateFacts.
Import Spark Calendar SparkFacts.
Local Open Scope list_scope.


Lemma in_aggregate {K V W} (f : list V -> W) (groups : list (K * list V))
    (k : K) (w : W) :
  In (k, w) (map (fun '(k, rows) => (k, f rows)) groups)
  <-> exists rows, In (k, rows) groups /\ w = f rows.
Proof.
  rewrite in_map_iff. split.
  - intros [[k' rows] [E Hin]]. injection E as -> <-. eauto.
  - intros [rows [Hin ->]]. now exists (k, rows).
Qed.

(** Grouping by no column puts all the rows into one group. *)
Lemma group_by_nothing {V} (rows : list V) :
  rows <> [] ->
  group_by (fun _ _ : unit => true) (fun _ => tt) rows = [(tt, rows)].
Proof.
  induction rows as [|v rows IH] using rev_ind; [congruence|]. intros _.
  unfold group_by in *. rewrite fold_left_app. simpl.
  destruct rows as [|u rows]; [reflexivity|].
  rewrite IH by discriminate. reflexivity.
Qed.

Lemma total_sales_is_sum (df : DataFrame) :
  total_sales df = cast_decimal_26_2 (sum (map line_total df)).
Proof.
  unfold total_sales. destruct df as [|r df]; [reflexivity|].
  rewrite group_by_nothing by discriminate. reflexivity.
Qed.

Lemma nodup_firstn {A} (n : nat) (l : list A) : NoDup l -> NoDup (firstn n l).
Proof.
  intros ND. rewrite <- (firstn_skipn n l) in ND.
  now apply NoDup_app_remove_r in ND.
Qed.




Lemma day_rows (date : option Date) (rows : list Row) (df : DataFrame) :
  In (date, rows)
    (group_by (option_eqb date_eqb) (fun r => to_date (InvoiceDate r)) df)
  <-> rows <> [] /\ rows = rows_of_day date df.
Proof. apply in_group_by, day_eqb_spec. Qed.



End AggregateFacts.

Section AggregateClaims.
Import Spark Calendar SparkFacts.
Local Open Scope list_scope.






End AggregateClaims.

(** * Properties of the normalisers *)

(** ** Regular expressions *)

Module RegexFacts.
Import Regex.
Local Open Scope list_scope.

Lemma append_assoc (a b c : string) : ((a ++ b) ++ c = a ++ (b ++ c))%string.
Proof. induction a as [|x a IH]; simpl; [reflexivity | now rewrite IH]. Qed.

Lemma length_append (a b : string) :
  String.length (a ++ b) = (String.length a + String.length b)%nat.
Proof. induction a as [|x a IH]; simpl; [reflexivity | now rewrite IH]. Qed.

Lemma substring_all (a b : string) : substring 0 (String.length a) (a ++ b) = a.
Proof. induction a as [|x a IH]; simpl; [now destruct b | now rewrite IH]. Qed.

Lemma consumed_text (used rest : string) :
  substring 0 (String.length (used ++ rest) - String.length rest) (used ++ rest) = used.
Proof.
  rewrite length_append.
  replace (String.length used + String.length rest - String.length rest)%nat
    with (String.length used) by lia.
  apply substring_all.
Qed.

Lemma after_spaces_sound (s rest : string) :
  In rest (after_spaces s) ->
  exists used, s = (used ++ rest)%string /\ used <> EmptyString
               /\ PyStr.all_chars PyStr.isspace used = true.
Proof.
  induction s as [|a s IH]; simpl; [contradiction|].
  destruct (PyStr.isspace a) eqn:E; [|contradiction].
  intros Hin. apply in_app_or in Hin as [Hin|[<-|[]]].
  - destruct (IH Hin) as (used & -> & _ & A).
    exists (String a used). simpl. rewrite E, A. repeat split. discriminate.
  - exists (String a EmptyString). simpl. rewrite E. repeat split. discriminate.
Qed.

Lemma one_char_sound (p : ascii -> bool) (s : string) (caps : Captures) (rest : string) :
  In (caps, rest) (one_char p s) ->
  exists a, s = String a rest /\ p a = true /\ caps = [].
Proof.
  destruct s as [|a s]; simpl; [contradiction|].
  destruct (p a) eqn:E; [|contradiction].
  intros [[= <- <-]|[]]. eauto.
Qed.

(** What the matcher finds is matched by the expression. *)
Lemma run_sound (r : Re) :
  forall s caps rest,
    In (caps, rest) (run r s) ->
    exists used, s = (used ++ rest)%string /\ matches r used caps.
Proof.
  induction r as [| a | lo hi | | | r1 IH1 r2 IH2 | r1 IH1 r2 IH2 | name r IH];
    intros s caps rest Hin; simpl in Hin.
  - destruct Hin as [[= <- <-]|[]]. exists EmptyString. split; [reflexivity | constructor].
  - apply one_char_sound in Hin as (b & -> & E & ->).
    apply Ascii.eqb_eq in E. subst b.
    exists (String a EmptyString). split; [reflexivity | constructor].
  - apply one_char_sound in Hin as (b & -> & E & ->).
    exists (String b EmptyString). split; [reflexivity | now constructor].
  - apply one_char_sound in Hin as (b & -> & E & ->).
    exists (String b EmptyString). split; [reflexivity | now constructor].
  - apply in_map_iff in Hin as [rest' [[= <- <-] Hin]].
    apply after_spaces_sound in Hin as (used & -> & NE & A).
    exists used. split; [reflexivity | now constructor].
  - apply in_flat_map in Hin as [[c1 rest1] [H1 Hin]].
    apply in_map_iff in Hin as [[c2 rest2] [[= <- <-] H2]].
    apply IH1 in H1 as (u1 & -> & M1). apply IH2 in H2 as (u2 & -> & M2).
    exists (u1 ++ u2)%string. split; [now rewrite append_assoc | now constructor].
  - apply in_app_or in Hin as [Hin|Hin].
    + apply IH1 in Hin as (u & -> & M). exists u. split; [reflexivity|].
      now apply matches_alt_left.
    + apply IH2 in Hin as (u & -> & M). exists u. split; [reflexivity|].
      now apply matches_alt_right.
  - apply in_map_iff in Hin as [[c rest'] [[= <- <-] Hin]].
    apply IH in Hin as (u & -> & M). exists u. split; [reflexivity|].
    rewrite consumed_text. now constructor.
Qed.

Lemma re_match_sound (r : Re) (s : string) (caps : Captures) (rest : string) :
  re_match r s = Some (caps, rest) ->
  exists used, s = (used ++ rest)%string /\ matches r used caps.
Proof.
  unfold re_match. intros H. apply run_sound.
  destruct (run r s) as [|x l]; [discriminate|].
  injection H as ->. now left.
Qed.

End RegexFacts.

(** ** The integer part of a double *)

Module Float64Facts.
Local Open Scope Z_scope.



End Float64Facts.

(** ** The pandas calls *)

Module PandasFacts.
Import Pandas Calendar.
Local Open Scope list_scope.




(** *** The numbers of the fields of a date *)

Lemma range_bounds (lo hi a : ascii) :
  Regex.in_range lo hi a = true ->
  (nat_of_ascii lo <= nat_of_ascii a <= nat_of_ascii hi)%nat.
Proof.
  unfold Regex.in_range. intros H. apply andb_true_iff in H as [H1 H2].
  apply Nat.leb_le in H1, H2. lia.
Qed.

Lemma digit_bounds (a : ascii) :
  PyStr.isdigit a = true -> (48 <= nat_of_ascii a <= 57)%nat.
Proof.
  unfold PyStr.isdigit. intros H. apply andb_true_iff in H as [H1 H2].
  apply Nat.leb_le in H1, H2. lia.
Qed.

Lemma bounds_digit (a : ascii) :
  (48 <= nat_of_ascii a <= 57)%nat -> PyStr.isdigit a = true.
Proof.
  unfold PyStr.isdigit. intros H. apply andb_true_iff.
  split; apply Nat.leb_le; lia.
Qed.

Lemma not_space (a : ascii) : (33 <= nat_of_ascii a)%nat -> PyStr.isspace a = false.
Proof.
  unfold PyStr.isspace. intros H.
  repeat (apply orb_false_iff; split);
    try (apply andb_false_iff; right; apply Nat.leb_gt; lia).
  apply Nat.eqb_neq. lia.
Qed.

Lemma int_of_1 (a : ascii) :
  (33 <= nat_of_ascii a)%nat ->
  int_of (String a EmptyString) = PyStr.digit_value a.
Proof.
  intros Ha. unfold int_of, PyStr.strip.
  cbn [PyStr.lstrip PyStr.rstrip]. rewrite (not_space a Ha).
  cbn [PyStr.lstrip PyStr.rstrip]. rewrite (not_space a Ha).
  cbn [PyStr.digits_value]. lia.
Qed.

Lemma int_of_2 (a b : ascii) :
  (33 <= nat_of_ascii a)%nat -> (33 <= nat_of_ascii b)%nat ->
  int_of (String a (String b EmptyString))
  = (10 * PyStr.digit_value a + PyStr.digit_value b)%Z.
Proof.
  intros Ha Hb. unfold int_of, PyStr.strip.
  cbn [PyStr.lstrip PyStr.rstrip]. rewrite (not_space a Ha).
  cbn [PyStr.lstrip PyStr.rstrip]. rewrite (not_space b Hb).
  cbn [PyStr.digits_value]. lia.
Qed.

Lemma int_of_blank (b : ascii) :
  (33 <= nat_of_ascii b)%nat ->
  int_of (String " " (String b EmptyString)) = PyStr.digit_value b.
Proof.
  intros Hb. unfold int_of, PyStr.strip.
  change (PyStr.lstrip (String " " (String b EmptyString)))
    with (PyStr.lstrip (String b EmptyString)).
  cbn [PyStr.lstrip PyStr.rstrip]. rewrite (not_space b Hb).
  cbn [PyStr.lstrip PyStr.rstrip]. rewrite (not_space b Hb).
  cbn [PyStr.digits_value]. lia.
Qed.

Lemma int_of_4 (a b c d : ascii) :
  (33 <= nat_of_ascii a)%nat -> (33 <= nat_of_ascii b)%nat ->
  (33 <= nat_of_ascii c)%nat -> (33 <= nat_of_ascii d)%nat ->
  int_of (String a (String b (String c (String d EmptyString))))
  = (1000 * PyStr.digit_value a + 100 * PyStr.digit_value b
     + 10 * PyStr.digit_value c + PyStr.digit_value d)%Z.
Proof.
  intros Ha Hb Hc Hd. unfold int_of, PyStr.strip.
  cbn [PyStr.lstrip PyStr.rstrip]. rewrite (not_space a Ha).
  cbn [PyStr.lstrip PyStr.rstrip]. rewrite (not_space d Hd).
  cbn [PyStr.digits_value]. lia.
Qed.

Ltac invert_matches :=
  repeat match goal with
         | H : Regex.matches (Regex.Seq _ _) _ _ |- _ => inversion H; subst; clear H
         | H : Regex.matches (Regex.Alt _ _) _ _ |- _ => inversion H; subst; clear H
         | H : Regex.matches (Regex.Lit _) _ _ |- _ => inversion H; subst; clear H
         | H : Regex.matches (Regex.Range _ _) _ _ |- _ => inversion H; subst; clear H
         | H : Regex.matches Regex.Digit _ _ |- _ => inversion H; subst; clear H
         | H : Regex.matches Regex.Empty _ _ |- _ => inversion H; subst; clear H
         end.

(** The codes of the characters written in a goal. *)
Ltac char_codes :=
  repeat match goal with
         | |- context [nat_of_ascii (Ascii ?b0 ?b1 ?b2 ?b3 ?b4 ?b5 ?b6 ?b7)] =>
             let v := eval vm_compute in
                        (nat_of_ascii (Ascii b0 b1 b2 b3 b4 b5 b6 b7)) in
             change (nat_of_ascii (Ascii b0 b1 b2 b3 b4 b5 b6 b7)) with v
         | H : context [nat_of_ascii (Ascii ?b0 ?b1 ?b2 ?b3 ?b4 ?b5 ?b6 ?b7)] |- _ =>
             let v := eval vm_compute in
                        (nat_of_ascii (Ascii b0 b1 b2 b3 b4 b5 b6 b7)) in
             change (nat_of_ascii (Ascii b0 b1 b2 b3 b4 b5 b6 b7)) with v in H
         end.

Ltac char_bounds :=
  repeat match goal with
         | H : Regex.in_range _ _ _ = true |- _ => apply range_bounds in H
         | H : PyStr.isdigit _ = true |- _ => apply digit_bounds in H
         end;
  char_codes.

Ltac field_value :=
  cbn [append];
  first [ rewrite int_of_4 by (char_codes; lia)
        | rewrite int_of_blank by (char_codes; lia)
        | rewrite int_of_2 by (char_codes; lia)
        | rewrite int_of_1 by (char_codes; lia) ];
  unfold PyStr.digit_value; char_codes; lia.

Lemma month_field (r : Regex.Re) (s : string) (c : Regex.Captures) :
  directive "m" = Some r -> Regex.matches r s c ->
  c = [] /\ (1 <= int_of s <= 12)%Z.
Proof.
  intros [= <-] M. invert_matches; char_bounds; (split; [reflexivity | field_value]).
Qed.

Lemma day_field (r : Regex.Re) (s : string) (c : Regex.Captures) :
  directive "d" = Some r -> Regex.matches r s c ->
  c = [] /\ (1 <= int_of s <= 31)%Z.
Proof.
  intros [= <-] M. invert_matches; char_bounds; (split; [reflexivity | field_value]).
Qed.

Lemma year_field (r : Regex.Re) (s : string) (c : Regex.Captures) :
  directive "Y" = Some r -> Regex.matches r s c ->
  c = [] /\ String.length s = 4%nat /\ (0 <= int_of s <= 9999)%Z.
Proof.
  intros [= <-] M. invert_matches; char_bounds.
  split; [reflexivity|]. split; [reflexivity | field_value].
Qed.

Lemma hour_field (r : Regex.Re) (s : string) (c : Regex.Captures) :
  directive "H" = Some r -> Regex.matches r s c ->
  c = [] /\ (0 <= int_of s <= 23)%Z.
Proof.
  intros [= <-] M. invert_matches; char_bounds; (split; [reflexivity | field_value]).
Qed.

Lemma minute_field (r : Regex.Re) (s : string) (c : Regex.Captures) :
  directive "M" = Some r -> Regex.matches r s c ->
  c = [] /\ (0 <= int_of s <= 59)%Z.
Proof.
  intros [= <-] M. invert_matches; char_bounds; (split; [reflexivity | field_value]).
Qed.

Ltac invert_format :=
  repeat match goal with
         | H : Regex.matches (Regex.Seq (Regex.Group _ _) _) _ _ |- _ =>
             inversion H; subst; clear H
         | H : Regex.matches (Regex.Seq (Regex.Lit _) _) _ _ |- _ =>
             inversion H; subst; clear H
         | H : Regex.matches (Regex.Seq Regex.Spaces _) _ _ |- _ =>
             inversion H; subst; clear H
         | H : Regex.matches (Regex.Group _ _) _ _ |- _ => inversion H; subst; clear H
         | H : Regex.matches (Regex.Lit _) _ _ |- _ => inversion H; subst; clear H
         | H : Regex.matches Regex.Spaces _ _ |- _ => inversion H; subst; clear H
         | H : Regex.matches Regex.Empty _ _ |- _ => inversion H; subst; clear H
         end.

Lemma valid_date_inv (y m d : Z) :
  valid_date y m d = true ->
  (1 <= y <= 9999 /\ 1 <= m <= 12 /\ 1 <= d <= days_in_month y m)%Z.
Proof.
  unfold valid_date. rewrite !andb_true_iff, !Z.leb_le. lia.
Qed.

(** A text that [strptime] accepts under the format of the invoice
    dates has the form month/day/year hour:minute, and the timestamp
    holds the numbers of its parts. *)
Lemma strptime_shape (s : string) (t : Timestamp) :
  strptime s "%m/%d/%Y %H:%M" = Return t ->
  month_day_year_hour_minute s t /\ in_bounds t = true.
Proof.
  unfold strptime.
  change (pattern false "%m/%d/%Y %H:%M") with (Some invoice_date_regex).
  cbv beta iota.
  destruct (Regex.re_match invoice_date_regex s) as [[found rest]|] eqn:M;
    cbv beta iota; [|discriminate].
  destruct rest as [|a rest]; cbn [PyStr.truthy]; cbv beta iota; [|discriminate].
  destruct (valid_date _ _ _) eqn:V; cbn [negb]; cbv beta iota; [|discriminate].
  destruct (in_bounds _) eqn:B; cbn [negb]; cbv beta iota; [|discriminate].
  intros [= <-]. split; [|exact B].
  apply RegexFacts.re_match_sound in M as (used & -> & Hm).
  rewrite PgFacts.append_empty. clear B.
  unfold invoice_date_regex in Hm. invert_format.
  repeat match goal with
         | H : Regex.matches _ _ _ |- _ =>
             first [ apply (month_field _ _ _ eq_refl) in H as [-> ?]
                   | apply (day_field _ _ _ eq_refl) in H as [-> ?]
                   | apply (year_field _ _ _ eq_refl) in H as (-> & ? & ?)
                   | apply (hour_field _ _ _ eq_refl) in H as [-> ?]
                   | apply (minute_field _ _ _ eq_refl) in H as [-> ?] ]
         end.
  cbn [app field Regex.capture String.eqb Ascii.eqb Bool.eqb] in V |- *.
  apply valid_date_inv in V. cbn [year month day] in V.
  match goal with
  | |- month_day_year_hour_minute (?mo ++ _ ++ ?d ++ _ ++ ?y ++ ?gap ++ ?h ++ _ ++ ?mi ++ _) _ =>
      exists mo, d, y, gap, h, mi
  end.
  rewrite PgFacts.append_empty. cbn [year month day hour minute second].
  repeat split; try assumption; try reflexivity; try lia.
Qed.

(** *** The form of the text written *)

Lemma two_digits_inv (s : string) :
  two_digits s = true ->
  exists a b, s = String a (String b EmptyString)
              /\ PyStr.isdigit a = true /\ PyStr.isdigit b = true.
Proof.
  destruct s as [|a [|b [|c s]]]; try discriminate. simpl.
  intros H. apply andb_true_iff in H as [Ha Hb]. eauto.
Qed.

Lemma four_digits_inv (s : string) :
  four_digits s = true ->
  exists a b c d, s = String a (String b (String c (String d EmptyString)))
                  /\ PyStr.isdigit a = true /\ PyStr.isdigit b = true
                  /\ PyStr.isdigit c = true /\ PyStr.isdigit d = true.
Proof.
  destruct s as [|a [|b [|c [|d [|e s]]]]]; try discriminate. simpl.
  intros H. rewrite !andb_true_iff in H. destruct H as [[[Ha Hb] Hc] Hd].
  exists a, b, c, d. auto.
Qed.

(** A check that holds on a range of numbers holds on each of them. *)
Lemma on_range (p : Z -> bool) (lo : Z) (len : nat) :
  forallb (fun k => p (lo + Z.of_nat k)%Z) (seq 0 len) = true ->
  forall n, (lo <= n < lo + Z.of_nat len)%Z -> p n = true.
Proof.
  intros H n Hn. rewrite forallb_forall in H.
  replace n with (lo + Z.of_nat (Z.to_nat (n - lo)))%Z by lia.
  apply H. apply in_seq. lia.
Qed.

Lemma pad_2 (n : Z) : (0 <= n <= 99)%Z -> two_digits (pad 2 n) = true.
Proof.
  intros Hn. apply (on_range (fun n => two_digits (pad 2 n)) 0 100); [|lia].
  vm_compute. reflexivity.
Qed.

Lemma pad_4 (n : Z) : (1677 <= n <= 2262)%Z -> four_digits (pad 4 n) = true.
Proof.
  intros Hn. apply (on_range (fun n => four_digits (pad 4 n)) 1677 586); [|lia].
  vm_compute. reflexivity.
Qed.

Lemma canonical_text_form (t : Timestamp) :
  (1677 <= year t <= 2262)%Z -> (0 <= month t <= 99)%Z -> (0 <= day t <= 99)%Z ->
  (0 <= hour t <= 99)%Z -> (0 <= minute t <= 99)%Z -> (0 <= second t <= 99)%Z ->
  is_canonical_text (canonical_text t) = true.
Proof.
  intros Hy Hm Hd Hh Hmi Hs. unfold canonical_text.
  destruct (four_digits_inv _ (pad_4 _ Hy)) as (y1 & y2 & y3 & y4 & -> & ? & ? & ? & ?).
  destruct (two_digits_inv _ (pad_2 _ Hm)) as (m1 & m2 & -> & ? & ?).
  destruct (two_digits_inv _ (pad_2 _ Hd)) as (d1 & d2 & -> & ? & ?).
  destruct (two_digits_inv _ (pad_2 _ Hh)) as (h1 & h2 & -> & ? & ?).
  destruct (two_digits_inv _ (pad_2 _ Hmi)) as (n1 & n2 & -> & ? & ?).
  destruct (two_digits_inv _ (pad_2 _ Hs)) as (c1 & c2 & -> & ? & ?).
  cbn [append is_canonical_text list_ascii_of_string forallb].
  repeat match goal with H : PyStr.isdigit _ = true |- _ => rewrite H; clear H end.
  reflexivity.
Qed.

Lemma in_bounds_year (t : Timestamp) :
  in_bounds t = true ->
  (0 <= month t <= 99)%Z -> (0 <= day t <= 99)%Z ->
  (0 <= hour t <= 99)%Z -> (0 <= minute t <= 99)%Z ->
  (1677 <= year t <= 2262)%Z.
Proof.
  unfold in_bounds, minutes_key. rewrite andb_true_iff, !Z.leb_le. lia.
Qed.

(** The text written for a text that [strptime] accepts has the form
    [dddd-dd-dd dd:dd:dd]. *)
Lemma accepted_text_form (s : string) (t : Timestamp) :
  strptime s "%m/%d/%Y %H:%M" = Return t ->
  is_canonical_text (canonical_text t) = true.
Proof.
  intros H. destruct (strptime_shape s t H) as [F B].
  destruct F as (mo & d & y & gap & h & mi & _ & _ & _ & _ & _ & _ & _ & _ & _
                 & Hs & Hm & Hd & Hh & Hmi).
  assert (Hd' : (1 <= day t <= 31)%Z).
  { split; [lia|]. destruct Hd as [_ Hd]. revert Hd. unfold days_in_month.
    repeat match goal with |- context [if ?c then _ else _] => destruct c end; lia. }
  pose proof (in_bounds_year t B ltac:(lia) ltac:(lia) ltac:(lia) ltac:(lia)).
  apply canonical_text_form; lia.
Qed.



End PandasFacts.

Section NormaliserClaims.
Import Pandas Calendar PandasFacts.
Local Open Scope list_scope.







End NormaliserClaims.

(** * Further properties of analysis.py *)

(** ** The calls of [execute_query] *)

Section QueryDiscipline.

Local Open Scope list_scope.

(** X1.  Whatever the driver does, [execute_query] opens at most one
    cursor, sends at most its one statement and commits at most once, in
    this order; it commits only after the statement succeeded; it never
    rolls back and never closes the cursor; without a connection it
    calls nothing; and it leaves the files alone. *)
Theorem execute_query_discipline (D : Driver) (conn : option Connection)
    (query : string) (fetch_result : bool) (w : World) :
  exists sent,
    calls (snd (execute_query conn query fetch_result w)) = calls w ++ sent
    /\ (sent = [] \/ sent = [CCursor] \/ sent = [CCursor; CExecute query]
        \/ sent = [CCursor; CExecute query; CCommit])
    /\ (In CCommit sent ->
        exists d result, drv_execute (db w) query = (d, inr result))
    /\ (conn = None -> sent = [])
    /\ files (snd (execute_query conn query fetch_result w)) = files w.
Proof.
  unfold execute_query, bind, ret, raise, attempt, print, record, conn_cursor,
    cur_execute, conn_commit, cur_fetchone, an_error_occurred.
  destruct conn as [c|]; simpl.
  - destruct (drv_cursor (db w)) as [pe1|] eqn:E1; simpl.
    + exists [CCursor]. destruct fetch_result; simpl;
        (split; [reflexivity|]); (split; [auto|]);
        (split; [intros [H|[]]; discriminate|]); (split; [discriminate | reflexivity]).
    + destruct (drv_execute (db w) query) as [d [pe2|result]] eqn:E2; simpl.
      * exists [CCursor; CExecute query].
        destruct fetch_result; simpl; rewrite <- app_assoc; simpl;
          (split; [reflexivity|]); (split; [auto|]);
          (split; [intros [H|[H|[]]]; discriminate|]);
          (split; [discriminate | reflexivity]).
      * destruct (drv_commit d) as [d' [pe3|]] eqn:E3; simpl;
          exists [CCursor; CExecute query; CCommit];
          destruct fetch_result; simpl;
          try (destruct result as [[columns rows]|]; simpl);
          rewrite <- !app_assoc; simpl;
          (split; [reflexivity|]); (split; [auto|]);
          (split; [intros _; eauto|]); (split; [discriminate | reflexivity]).
  - exists []. rewrite app_nil_r.
    destruct fetch_result; simpl; rewrite ?app_nil_r;
      (split; [reflexivity|]); (split; [auto|]);
      (split; [intros []|]); (split; reflexivity).
Qed.

End QueryDiscipline.

(** ** Sessions of the server *)

Module SessionFacts.
Import Pg.
Local Open Scope list_scope.





(** A statement that succeeds leaves the transaction healthy. *)
Lemma execute_success (st st' : State) (query : string) (result : option ResultSet) :
  execute st query = (st', inr result) -> aborted st' = false.
Proof.
  unfold execute. destruct (aborted st) eqn:A; [discriminate|].
  destruct (parse query) as [stmt|]; [|discriminate].
  destruct stmt as [s|s t columns|s t|a b|s t]; simpl.
  - destruct (has_schema s (working st)); now intros [= <- _].
  - destruct (has_schema s (working st)); [|discriminate].
    destruct (find_table s t (working st)); now intros [= <- _].
  - destruct (find_table s t (working st)); [now intros [= <- _] | discriminate].
  - destruct (b =? 0)%Z; [discriminate | now intros [= <- _]].
  - discriminate.
Qed.

(** [execute_query] without fetching, on a live connection, for a
    statement that succeeds: the statement is committed. *)
Lemma execute_query_commits (query : string) (w : @World driver) (st : State)
    (result : option ResultSet) :
  execute (db w) query = (st, inr result) ->
  execute_query (D := driver) (Some connection) query false w
  = (Return None,
     @mkWorld driver (settled st) (stdout w) (files w)
       (calls w ++ [CCursor; CExecute query; CCommit])).
Proof.
  intros H. pose proof (execute_success _ _ _ _ H) as A.
  unfold execute_query, bind, attempt, conn_cursor, cur_execute, conn_commit,
    record, ret. simpl.
  rewrite H. simpl. unfold commit. rewrite A. simpl.
  rewrite <- !app_assoc. reflexivity.
Qed.


Lemma has_schema_added (s : string) (names : list string) :
  existsb (String.eqb s) (names ++ [s]) = true.
Proof.
  rewrite existsb_app. simpl. rewrite String.eqb_refl.
  now rewrite orb_true_r.
Qed.

(** The schema step on a live connection. *)
Lemma create_schema_step (s : string) (w : @World driver) :
  is_word s = true -> aborted (db w) = false ->
  create_schema_if_not_exists (D := driver) (Some connection) s w
  = (Return tt,
     @mkWorld driver (settled (fst (run (db w) (CreateSchema s))))
       (stdout w ++ [("Schema " ++ s ++ " created successfully or already exists!")%string])
       (files w)
       (calls w ++ [CCursor; CExecute (create_schema_query s); CCommit])).
Proof.
  intros Hs A. unfold create_schema_if_not_exists, bind.
  assert (E : execute (db w) (create_schema_query s)
              = (fst (run (db w) (CreateSchema s)), inr None)).
  { unfold execute. rewrite A, (PgFacts.parse_create_schema_query s Hs). simpl.
    now destruct (has_schema s (working (db w))). }
  rewrite (execute_query_commits _ w _ _ E). reflexivity.
Qed.

(** The table step on a live connection, in a schema that exists. *)
Lemma create_table_step (s t : string) (w : @World driver) :
  is_word s = true -> is_word t = true -> aborted (db w) = false ->
  has_schema s (working (db w)) = true ->
  create_table_if_not_exists (D := driver) (Some connection) s t w
  = (Return tt,
     @mkWorld driver
       (settled (fst (run (db w) (CreateTable s t Example.canonical_columns))))
       (stdout w ++ [("Table " ++ t ++ " created successfully or already exists!")%string])
       (files w)
       (calls w ++ [CCursor; CExecute (create_table_query s t); CCommit])).
Proof.
  intros Hs Ht A S. unfold create_table_if_not_exists, bind.
  assert (E : execute (db w) (create_table_query s t)
              = (fst (run (db w) (CreateTable s t Example.canonical_columns)),
                 inr None)).
  { unfold execute. rewrite A, (PgFacts.parse_create_table_query s t Hs Ht). simpl.
    rewrite S. now destruct (find_table s t (working (db w))). }
  rewrite (execute_query_commits _ w _ _ E). reflexivity.
Qed.

(** The schema step and the table step in a row, on a live connection:
    the data they leave committed. *)
Lemma ensure_steps_run (s t : string) (Hs : is_word s = true) (Ht : is_word t = true)
    (w0 : @World driver) :
  aborted (db w0) = false ->
  exists d,
    has_schema s d = true
    /\ find_table s t d
       = Some (match find_table s t (working (db w0)) with
               | Some tb => tb
               | None => mkTable s t Example.canonical_columns []
               end)
    /\ (has_schema s (working (db w0)) = true ->
        find_table s t (working (db w0)) <> None ->
        d = working (db w0))
    /\ ensure_schema_and_table (D := driver) (Some connection) s t w0
       = (Return tt,
          @mkWorld driver (mkState (password (db w0)) d d false)
            (stdout w0
               ++ [("Schema " ++ s
                      ++ " created successfully or already exists!")%string;
                   ("Table " ++ t
                      ++ " created successfully or already exists!")%string])
            (files w0)
            (calls w0 ++ [CCursor; CExecute (create_schema_query s); CCommit;
                          CCursor; CExecute (create_table_query s t);
                          CCommit])).
Proof.
  intros A. unfold ensure_schema_and_table, bind.
  rewrite (create_schema_step s w0 Hs A).
  pose (st1 := fst (run (db w0) (CreateSchema s))).
  assert (S1 : has_schema s (working st1) = true).
  { unfold st1. simpl. destruct (has_schema s (working (db w0))) eqn:S0; simpl;
      [exact S0 | apply has_schema_added]. }
  assert (T1 : find_table s t (working st1) = find_table s t (working (db w0))).
  { unfold st1. simpl. now destruct (has_schema s (working (db w0))). }
  assert (P1 : password st1 = password (db w0)).
  { unfold st1. simpl. now destruct (has_schema s (working (db w0))). }
  assert (K1 : has_schema s (working (db w0)) = true -> working st1 = working (db w0)).
  { intros S0. unfold st1. simpl. now rewrite S0. }
  fold st1. clearbody st1.
  match goal with
  | |- context [create_table_if_not_exists _ _ _ ?w1] =>
      rewrite (create_table_step s t w1 Hs Ht eq_refl S1)
  end.
  simpl. rewrite S1, T1.
  destruct (find_table s t (working (db w0))) as [tb|] eqn:T0.
  - exists (working st1). split; [exact S1|]. split; [exact T1|]. split.
    + intros S0 _. now apply K1.
    + simpl. unfold settled. simpl. rewrite P1.
      rewrite <- !app_assoc. reflexivity.
  - exists (mkData (schemas (working st1))
              (tables (working st1) ++ [mkTable s t Example.canonical_columns []])).
    split; [exact S1|]. split.
    + unfold find_table in *. simpl. now apply LoaderFacts.find_table_new.
    + split; [intros _ N; congruence|].
      simpl. unfold settled, with_working. simpl. rewrite P1.
      rewrite <- !app_assoc. reflexivity.
Qed.

End SessionFacts.

Section SessionProperties.

Import Pg.
Local Open Scope list_scope.



(** X3.  On a live connection the schema step followed by the table
    step end normally and leave, committed, the schema and a table of
    that name: the table that was there, with its own columns and its
    rows, or else an empty table with the eight columns.  Running the
    two steps again changes nothing on the server. *)
Theorem ensure_steps_settle (s t : string) (w : @World driver)
    (Hs : is_word s = true) (Ht : is_word t = true)
    (Hlive : aborted (db w) = false) :
  fst (ensure_schema_and_table (D := driver) (Some connection) s t w) = Return tt
  /\ has_schema s
       (committed (db (snd (ensure_schema_and_table (D := driver)
                              (Some connection) s t w))))
     = true
  /\ find_table s t
       (committed (db (snd (ensure_schema_and_table (D := driver)
                              (Some connection) s t w))))
     = Some (match find_table s t (working (db w)) with
             | Some tb => tb
             | None => mkTable s t Example.canonical_columns []
             end)
  /\ db (snd (ensure_schema_and_table (D := driver) (Some connection) s t
                (snd (ensure_schema_and_table (D := driver)
                        (Some connection) s t w))))
     = db (snd (ensure_schema_and_table (D := driver) (Some connection) s t w)).
Proof.
  destruct (SessionFacts.ensure_steps_run s t Hs Ht w Hlive) as (d & S & T & _ & E).
  rewrite E. simpl. split; [reflexivity|]. split; [exact S|]. split; [exact T|].
  match goal with
  | |- db (snd (ensure_schema_and_table _ _ _ ?w1)) = _ =>
      destruct (SessionFacts.ensure_steps_run s t Hs Ht w1 eq_refl)
        as (d' & _ & _ & Same & E')
  end.
  rewrite E'. simpl in *. f_equal; apply Same; try exact S; rewrite T; discriminate.
Qed.

Lemma ensure_steps_settle_witness :
  aborted (db (Example.world Example.no_data [])) = false
  /\ find_table "retail" "online_retail"
       (committed (db (snd (ensure_schema_and_table (D := driver) (Some connection)
                              "retail" "online_retail"
                              (Example.world Example.no_data [])))))
     = Some (mkTable "retail" "online_retail" Example.canonical_columns []).
Proof.
  split; [reflexivity|].
  exact (proj1 (proj2 (proj2 (ensure_steps_settle "retail" "online_retail"
                                (Example.world Example.no_data [])
                                eq_refl eq_refl eq_refl)))).
Defined.

End SessionProperties.

(** ** The loader and the batch runner, further *)

Section RunnerReturns.

Context {D : Driver}.
Local Open Scope list_scope.

(** When every statement of the batch succeeds, the loop ends normally
    with the result sets of the statements that have one. *)
Lemma for_query_in_returns (queries : list string) :
  forall (cur : Cursor) (acc : list ResultSet) (w : World) (d' : DB),
    drv_run (db w) (statement_batch_of queries) = Some d' ->
    for_query_in cur queries acc w
    = (Return (acc ++ batch_results (db w) (statement_batch_of queries)),
       mkWorld d' (stdout w) (files w)
         (calls w ++ map CExecute (statement_batch_of queries))).
Proof.
  induction queries as [|query queries IH]; intros cur acc w d' Hrun.
  - simpl in *. injection Hrun as <-. unfold ret. rewrite !app_nil_r.
    now destruct w.
  - unfold statement_batch_of in *. simpl in *.
    destruct (PyStr.truthy (PyStr.strip query)) eqn:T; [|now apply IH].
    simpl in *. unfold bind, cur_execute, record.
    destruct (drv_execute (db w) (PyStr.strip query)) as [d [pe|result]] eqn:E;
      [discriminate|].
    assert (Next : forall acc',
      for_query_in (mkCursor result) queries acc'
        (mkWorld d (stdout w) (files w) (calls w ++ [CExecute (PyStr.strip query)]))
      = (Return (acc' ++ batch_results d
                           (filter PyStr.truthy (map PyStr.strip queries))),
         mkWorld d' (stdout w) (files w)
           (calls w ++ CExecute (PyStr.strip query)
              :: map CExecute (filter PyStr.truthy (map PyStr.strip queries))))).
    { intros acc'.
      rewrite (IH (mkCursor result) acc'
                 (mkWorld d (stdout w) (files w)
                    (calls w ++ [CExecute (PyStr.strip query)])) d' Hrun).
      simpl. now rewrite <- app_assoc. }
    destruct result as [[[|column columns] rows]|]; simpl;
      unfold cur_description, cur_fetchall, ret; simpl;
      rewrite Next; try reflexivity.
    now rewrite <- app_assoc.
Qed.


End RunnerReturns.

Section LoaderProperties.

Local Open Scope list_scope.

(** X4.  When the probe statement of the loader fails, for whatever
    reason, the loader does not raise the error of the statement, which
    is only printed: it raises the error of the fetch that follows, [no
    results to fetch].  Nothing is transferred and the file is not
    opened. *)
Theorem probe_failure_hides_error (D : Driver) (s t file_path : string) (w : World)
    (d : DB) (pe : PgError)
    (Hcursor : drv_cursor (db w) = None)
    (Hprobe : drv_execute (db w) (test_query s t) = (d, inl pe)) :
  copy_data_from_csv_to_table (Some connection) s t file_path w
  = (Raise (Psycopg2Error (mkPgError "ProgrammingError" "no results to fetch")),
     mkWorld d (stdout w ++ [("An error occurred: " ++ pg_message pe)%string])
       (files w)
       (calls w ++ [CCursor; CExecute (test_query s t)])).
Proof.
  unfold copy_data_from_csv_to_table, execute_query, bind, attempt, conn_cursor,
    cur_execute, cur_fetchone, an_error_occurred, print, record, ret, raise.
  rewrite Hcursor. simpl. rewrite Hprobe. simpl.
  rewrite <- !app_assoc. reflexivity.
Qed.

Lemma probe_failure_hides_error_witness :
  drv_execute (Driver := Pg.driver) (Example.server Example.schema_only)
    (test_query "retail" "online_retail")
    = (Pg.abort (Example.server Example.schema_only),
       inl (Pg.undefined_table "retail" "online_retail"))
  /\ fst (copy_data_from_csv_to_table (D := Pg.driver) (Some connection)
            "retail" "online_retail" "data.csv"
            (Example.world Example.schema_only
               [("data.csv"%string, Example.two_rows)]))
     = Raise (Psycopg2Error (mkPgError "ProgrammingError" "no results to fetch")).
Proof.
  split; [reflexivity|].
  rewrite (probe_failure_hides_error Pg.driver "retail" "online_retail" "data.csv"
             (Example.world Example.schema_only
                [("data.csv"%string, Example.two_rows)])
             (Pg.abort (Example.server Example.schema_only))
             (Pg.undefined_table "retail" "online_retail") eq_refl eq_refl).
  reflexivity.
Defined.

(** X5.  When every statement of the SQL file succeeds, the batch runner
    returns, in the order of the statements, the column names and the
    rows of each statement that has a result set; a statement without
    one gives no entry, so the position of a result need not be the
    position of its statement.  The runner opens one cursor, sends the
    statements, closes the cursor, prints nothing and leaves the server
    as the last statement left it. *)
Theorem runner_returns_result_sets (D : Driver) (path script : string) (w : World)
    (d' : DB)
    (Hfile : lookup_file path (files w) = Some script)
    (Hcursor : drv_cursor (db w) = None)
    (Hrun : drv_run (db w) (statement_batch script) = Some d') :
  execute_sql_file_and_fetch_results (Some connection) path w
  = (Return (batch_results (db w) (statement_batch script)),
     mkWorld d' (stdout w) (files w)
       (calls w ++ [CCursor] ++ map CExecute (statement_batch script) ++ [CClose])).
Proof.
  unfold execute_sql_file_and_fetch_results, bind, open_read, finally,
    conn_cursor, cur_close, record.
  rewrite Hfile, Hcursor.
  rewrite (for_query_in_returns (PyStr.split ";" script) (mkCursor None) []
             (mkWorld (db w) (stdout w) (files w) (calls w ++ [CCursor])) d' Hrun).
  simpl. rewrite <- !app_assoc. reflexivity.
Qed.

Lemma runner_returns_result_sets_witness :
  drv_run (D := Pg.driver) (Example.server Example.loaded_table)
    (statement_batch "CREATE SCHEMA IF NOT EXISTS retail; SELECT 4/2")
    = Some (Example.server Example.loaded_table)
  /\ fst (execute_sql_file_and_fetch_results (D := Pg.driver) (Some connection)
            "sql_queries.sql"
            (Example.world Example.loaded_table
               [("sql_queries.sql"%string,
                 "CREATE SCHEMA IF NOT EXISTS retail; SELECT 4/2"%string)]))
     = Return [(["?column?"%string], [["2"%string]])].
Proof.
  split; [reflexivity|].
  rewrite (runner_returns_result_sets Pg.driver "sql_queries.sql"
             "CREATE SCHEMA IF NOT EXISTS retail; SELECT 4/2"
             (Example.world Example.loaded_table
                [("sql_queries.sql"%string,
                  "CREATE SCHEMA IF NOT EXISTS retail; SELECT 4/2"%string)])
             (Example.server Example.loaded_table) eq_refl eq_refl eq_refl).
  reflexivity.
Defined.

(** X6.  The runner reads the SQL file before it touches the
    connection.  Without the file it raises [FileNotFoundError],
    whatever the connection; with the file and without a connection it
    raises [AttributeError] on [None.cursor].  In both cases nothing is
    printed and nothing is sent to the server. *)
Theorem runner_needs_file_and_connection (D : Driver) (conn : option Connection)
    (path : string) (w : World) :
  (lookup_file path (files w) = None ->
   execute_sql_file_and_fetch_results conn path w
   = (Raise (FileNotFoundError path), w))
  /\ (lookup_file path (files w) <> None ->
      execute_sql_file_and_fetch_results None path w
      = (Raise (AttributeError "'NoneType' object has no attribute 'cursor'"), w)).
Proof.
  unfold execute_sql_file_and_fetch_results, bind, open_read. split.
  - intros ->. reflexivity.
  - destruct (lookup_file path (files w)); [reflexivity | congruence].
Qed.

Lemma runner_needs_file_and_connection_witness :
  lookup_file "sql_queries.sql" (files (Example.world Example.loaded_table [])) = None
  /\ fst (execute_sql_file_and_fetch_results (D := Pg.driver) (Some connection)
            "sql_queries.sql" (Example.world Example.loaded_table []))
     = Raise (FileNotFoundError "sql_queries.sql").
Proof.
  split; [reflexivity|].
  rewrite (proj1 (runner_needs_file_and_connection Pg.driver (Some connection)
                    "sql_queries.sql" (Example.world Example.loaded_table []))
             eq_refl).
  reflexivity.
Defined.

End LoaderProperties.

Module RunnerFactsPg.
Import Pg.
Local Open Scope list_scope.






End RunnerFactsPg.

Section RunnerCommits.

Import Pg.
Local Open Scope list_scope.


End RunnerCommits.

(** ** The database steps of [main] *)

Section MainFacts.

Context {D : Driver}.

Lemma bind_assoc {A B C} (m : M A) (f : A -> M B) (g : B -> M C) (w : World) :
  bind (bind m f) g w = bind m (fun a => bind (f a) g) w.
Proof.
  unfold bind. destruct (m w) as [[a|e] w1]; [|reflexivity].
  now destruct (f a w1) as [[b|e] w2].
Qed.

Lemma bind_ret {A} (m : M A) (w : World) : bind m (fun a => ret a) w = m w.
Proof. unfold bind, ret. now destruct (m w) as [[a|e] w1]. Qed.


End MainFacts.

Module MainFactsPg.
Import Pg.
Local Open Scope list_scope.




End MainFactsPg.

Section MainProperties.

Import Pg.
Local Open Scope list_scope.

(** X8.  When the server refuses the connection, the database steps of
    [main] do not stop there: the schema step and the table step run and
    print their success lines although nothing reaches the server, and
    the run ends in the loader with [UnboundLocalError] on [cur].  The
    only call made on the driver is the failed [connect]; the SQL file
    is never read. *)
Theorem main_without_connection (D : Driver) (config : Config) (w : World)
    (d : DB) (e : Exn)
    (Hrefused : drv_connect config (db w) = (d, Some e)) :
  main_database_steps config w
  = (Raise (UnboundLocalError "cur"),
     mkWorld d
       (stdout w
          ++ [("Error: " ++ exn_str e)%string;
              "Connection to PostgreSQL failed."%string;
              "Schema retail created successfully or already exists!"%string;
              "Connection to PostgreSQL failed."%string;
              "Table online_retail created successfully or already exists!"%string;
              "Connection to PostgreSQL failed."%string])
       (files w)
       (calls w ++ [CConnect])).
Proof.
  unfold main_database_steps, connect, create_schema_if_not_exists,
    create_table_if_not_exists, copy_data_from_csv_to_table, execute_query,
    bind, attempt_any, psycopg2_connect, print, ret, raise, record.
  rewrite Hrefused. simpl. rewrite <- !app_assoc. reflexivity.
Qed.

Lemma main_without_connection_witness :
  drv_connect (Driver := driver) [("password"%string, "wrong"%string)]
    (Example.server Example.no_data)
    = (Example.server Example.no_data, Some (Psycopg2Error authentication_failed))
  /\ fst (main_database_steps (D := driver) [("password"%string, "wrong"%string)]
            (Example.world Example.no_data
               [("data.csv"%string, Example.two_rows)]))
     = Raise (UnboundLocalError "cur").
Proof.
  split; [reflexivity|].
  rewrite (main_without_connection driver [("password"%string, "wrong"%string)]
             (Example.world Example.no_data [("data.csv"%string, Example.two_rows)])
             (Example.server Example.no_data)
             (Psycopg2Error authentication_failed) eq_refl).
  reflexivity.
Defined.



End MainProperties.

(** * Further properties of pipeline.py *)

Module SumFacts.
Import Spark.
Local Open Scope list_scope.

Lemma add_nan_right (x : Float64.double) : Float64.add x S754_nan = S754_nan.
Proof. now destruct x. Qed.

Lemma mul_nan_right (x : Float64.double) : Float64.mul x S754_nan = S754_nan.
Proof. now destruct x. Qed.

(** Once the running sum is NaN it stays NaN. *)
Lemma sum_stays_nan (xs : list (option Float64.double)) :
  fold_left sum_step xs (Some S754_nan) = Some S754_nan.
Proof.
  induction xs as [|[v|] xs IH]; simpl; [reflexivity | | exact IH].
  exact IH.
Qed.

Lemma sum_skips_null (xs ys : list (option Float64.double)) :
  sum (xs ++ None :: ys) = sum (xs ++ ys).
Proof. unfold sum. now rewrite !fold_left_app. Qed.

Lemma sum_of_nulls (xs : list (option Float64.double)) :
  (forall x, In x xs -> x = None) -> sum xs = None.
Proof.
  unfold sum. induction xs as [|x xs IH]; intros H; [reflexivity|].
  rewrite (H x (or_introl eq_refl)). simpl. apply IH.
  intros y Hy. apply H. now right.
Qed.

Lemma sum_with_nan (xs ys : list (option Float64.double)) :
  sum (xs ++ Some S754_nan :: ys) = Some S754_nan.
Proof.
  unfold sum. rewrite fold_left_app. simpl.
  rewrite add_nan_right. apply sum_stays_nan.
Qed.

(** The set of [countDistinct] is no larger than the column. *)
Lemma add_distinct_length (xs : list (option string)) :
  forall seen,
    (List.length (fold_left add_distinct xs seen)
     <= List.length seen + List.length xs)%nat.
Proof.
  induction xs as [|x xs IH]; intros seen; simpl; [lia|].
  specialize (IH (add_distinct seen x)).
  assert (List.length (add_distinct seen x) <= S (List.length seen))%nat.
  { destruct x as [v|]; simpl; [|lia].
    destruct (existsb (String.eqb v) seen); [lia|].
    rewrite length_app. simpl. lia. }
  lia.
Qed.

End SumFacts.

Section AggregateProperties.

Import Spark Calendar SparkFacts.
Local Open Scope list_scope.

(** X10.  A record without a quantity or without a unit price adds
    nothing to the total: the total with the record is the total
    without it.  When every record lacks one of the two, among them
    when there is no record at all, the total is null and the line
    printed ends in [$None]. *)
Theorem missing_values_are_skipped (df1 df2 : DataFrame) (r : Row)
    (Hmissing : Quantity r = None \/ UnitPrice r = None) :
  total_sales (df1 ++ r :: df2) = total_sales (df1 ++ df2)
  /\ calculate_total_sales (df1 ++ r :: df2) = calculate_total_sales (df1 ++ df2)
  /\ ((forall r', In r' (df1 ++ df2) ->
                  Quantity r' = None \/ UnitPrice r' = None) ->
      calculate_total_sales (df1 ++ r :: df2)
      = "Total sales in the period: $None"%string).
Proof.
  assert (L : forall r', Quantity r' = None \/ UnitPrice r' = None ->
                         line_total r' = None).
  { intros r' [H|H]; unfold line_total; rewrite H; [reflexivity|].
    now destruct (Quantity r'). }
  assert (E : total_sales (df1 ++ r :: df2) = total_sales (df1 ++ df2)).
  { rewrite !total_sales_is_sum, !map_app. simpl. rewrite (L r Hmissing).
    now rewrite SumFacts.sum_skips_null. }
  split; [exact E|]. split; [unfold calculate_total_sales; now rewrite E|].
  intros Hall. unfold calculate_total_sales. rewrite E, total_sales_is_sum.
  rewrite SumFacts.sum_of_nulls; [reflexivity|].
  intros x Hx. apply in_map_iff in Hx as [r' [<- Hr']]. apply L, Hall, Hr'.
Qed.

Lemma missing_values_are_skipped_witness :
  UnitPrice (mkRow (Some "536414"%string) (Some "22139"%string) None (Some 56%Z)
               (Some morning) None None (Some "United Kingdom"%string)) = None
  /\ calculate_total_sales
       (three_lines
          ++ [mkRow (Some "536414"%string) (Some "22139"%string) None (Some 56%Z)
                (Some morning) None None (Some "United Kingdom"%string)])
     = "Total sales in the period: $14.00"%string.
Proof.
  split; [reflexivity|].
  rewrite (proj1 (proj2 (missing_values_are_skipped three_lines []
                           (mkRow (Some "536414"%string) (Some "22139"%string) None
                              (Some 56%Z) (Some morning) None None
                              (Some "United Kingdom"%string))
                           (or_intror eq_refl)))).
  reflexivity.
Defined.

(** X11.  One record with a quantity and the unit price NaN voids the
    total: the sum of the doubles is NaN, its cast to a decimal is null,
    and the line printed ends in [$None], whatever the other records
    hold. *)
Theorem nan_price_voids_total (df : DataFrame) (r : Row) (q : Z)
    (Hin : In r df)
    (Hquantity : Quantity r = Some q)
    (Hprice : UnitPrice r = Some S754_nan) :
  sum (map line_total df) = Some S754_nan
  /\ total_sales df = None
  /\ calculate_total_sales df = "Total sales in the period: $None"%string.
Proof.
  assert (S : sum (map line_total df) = Some S754_nan).
  { apply in_split in Hin as (df1 & df2 & ->).
    rewrite map_app. simpl. unfold line_total at 2.
    rewrite Hquantity, Hprice, SumFacts.mul_nan_right.
    apply SumFacts.sum_with_nan. }
  assert (T : total_sales df = None) by (rewrite total_sales_is_sum, S; reflexivity).
  split; [exact S|]. split; [exact T|].
  unfold calculate_total_sales. now rewrite T.
Qed.

Lemma nan_price_voids_total_witness :
  In (line "536367" "C" 1 S754_nan morning)
    (three_lines ++ [line "536367" "C" 1 S754_nan morning])
  /\ calculate_total_sales (three_lines ++ [line "536367" "C" 1 S754_nan morning])
     = "Total sales in the period: $None"%string.
Proof.
  assert (Hin : In (line "536367" "C" 1 S754_nan morning)
                  (three_lines ++ [line "536367" "C" 1 S754_nan morning]))
    by (apply in_or_app; right; left; reflexivity).
  split; [exact Hin|].
  exact (proj2 (proj2 (nan_price_voids_total
                         (three_lines ++ [line "536367" "C" 1 S754_nan morning])
                         (line "536367" "C" 1 S754_nan morning) 1%Z
                         Hin eq_refl eq_refl))).
Defined.

(** X12.  The count of a day in [calculate_transaction_per_day] is at
    most the number of records of that day, and the day has at least one
    record; the count is zero exactly when none of the records of the
    day has an invoice number. *)
Theorem transactions_per_day_bounds (df : DataFrame) (date : option Date) (n : Z)
    (Hin : In (date, n) (calculate_transaction_per_day df)) :
  rows_of_day date df <> []
  /\ (0 <= n <= Z.of_nat (List.length (rows_of_day date df)))%Z
  /\ (n = 0%Z <-> forall r, In r (rows_of_day date df) -> InvoiceNo r = None).
Proof.
  unfold calculate_transaction_per_day in Hin.
  apply in_aggregate in Hin as [rows [Hin ->]].
  apply day_rows in Hin as [NE ->].
  split; [exact NE|]. unfold count_distinct.
  pose proof (SumFacts.add_distinct_length (map InvoiceNo (rows_of_day date df)) [])
    as L.
  rewrite length_map in L. simpl in L.
  split; [lia|].
  destruct (add_distinct_fold (map InvoiceNo (rows_of_day date df)) []
              (NoDup_nil _)) as [_ I].
  split.
  - intros Z0 r Hr.
    destruct (InvoiceNo r) as [i|] eqn:E; [exfalso | reflexivity].
    assert (Hi : In i (fold_left add_distinct
                        (map InvoiceNo (rows_of_day date df)) [])).
    { apply I. right. apply in_map_iff. now exists r. }
    destruct (fold_left add_distinct (map InvoiceNo (rows_of_day date df)) []);
      [contradiction | simpl in Z0; lia].
  - intros Hnone.
    destruct (fold_left add_distinct (map InvoiceNo (rows_of_day date df)) [])
      as [|i seen]; [reflexivity | exfalso].
    destruct (proj1 (I i) (or_introl eq_refl)) as [[]|Hi].
    apply in_map_iff in Hi as [r [E Hr]].
    rewrite (Hnone r Hr) in E. discriminate.
Qed.

Lemma transactions_per_day_bounds_witness :
  In (Some (2010, 12, 1)%Z, 1%Z) (calculate_transaction_per_day one_invoice_two_lines)
  /\ (0 <= 1 <= Z.of_nat (List.length (rows_of_day (Some (2010, 12, 1)%Z)
                                          one_invoice_two_lines)))%Z.
Proof.
  assert (Hin : In (Some (2010, 12, 1)%Z, 1%Z)
                  (calculate_transaction_per_day one_invoice_two_lines))
    by (vm_compute; left; reflexivity).
  split; [exact Hin|].
  exact (proj1 (proj2 (transactions_per_day_bounds one_invoice_two_lines
                         (Some (2010, 12, 1)%Z) 1%Z Hin))).
Defined.

End AggregateProperties.

(** * Properties of the helpers *)

(** ** The connection string and the JDBC writer *)

Module TextFacts.

(** A text cut at the first occurrence of a character: the parts are
    determined by the whole. *)
Lemma cut_at_char (c : ascii) (a a' r r' : string) :
  PyStr.contains c a = false -> PyStr.contains c a' = false ->
  (a ++ String c r = a' ++ String c r')%string ->
  a = a' /\ r = r'.
Proof.
  revert a'. induction a as [|x a IH]; intros [|y a'] Ha Ha' E; simpl in *.
  - injection E as <-. auto.
  - injection E as <- _. rewrite Ascii.eqb_refl in Ha'. discriminate.
  - injection E as -> _. rewrite Ascii.eqb_refl in Ha. discriminate.
  - injection E as <- E.
    apply orb_false_iff in Ha as [_ Ha]. apply orb_false_iff in Ha' as [_ Ha'].
    destruct (IH a' Ha Ha' E) as [-> ->]. auto.
Qed.

End TextFacts.

Section JdbcProperties.

Import Py.
Local Open Scope list_scope.

(** X13.  [create_connection_string] puts the three parts around [:]
    and [/] without escaping.  The parts can be told from the result
    when the host name has no [:] and the port has no [/]; without that
    they cannot: an IPv6 host such as [::1] gives the string of another
    host and port. *)
Theorem connection_string_parts (h p d h' p' d' : string)
    (Hh : PyStr.contains ":" h = false) (Hh' : PyStr.contains ":" h' = false)
    (Hp : PyStr.contains "/" p = false) (Hp' : PyStr.contains "/" p' = false)
    (E : create_connection_string h p d = create_connection_string h' p' d') :
  (h = h' /\ p = p' /\ d = d')
  /\ create_connection_string h p d
     = ("jdbc:postgresql://" ++ h ++ ":" ++ p ++ "/" ++ d)%string
  /\ create_connection_string "::1" "5432" "retail"
     = create_connection_string "" ":1:5432" "retail".
Proof.
  split; [|split; reflexivity].
  unfold create_connection_string in E.
  apply (f_equal (fun s => substring 18 (String.length s - 18) s)) in E.
  assert (Cut : forall x : string,
             substring 18 (String.length ("jdbc:postgresql://" ++ x) - 18)
               ("jdbc:postgresql://" ++ x) = x).
  { intros x. change (String.length ("jdbc:postgresql://" ++ x))
      with (18 + String.length x)%nat.
    replace (18 + String.length x - 18)%nat with (String.length x) by lia.
    change (substring 18 (String.length x) ("jdbc:postgresql://" ++ x))
      with (substring 0 (String.length x) x).
    rewrite <- (PgFacts.append_empty x) at 2.
    apply RegexFacts.substring_all. }
  rewrite !Cut in E.
  destruct (TextFacts.cut_at_char ":" h h' _ _ Hh Hh' E) as [-> E'].
  destruct (TextFacts.cut_at_char "/" p p' _ _ Hp Hp' E') as [-> ->].
  auto.
Qed.

Lemma connection_string_parts_witness :
  create_connection_string "localhost" "5432" "retail"
    = "jdbc:postgresql://localhost:5432/retail"%string
  /\ ("localhost"%string = "localhost"%string /\ "5432"%string = "5432"%string
      /\ "retail"%string = "retail"%string).
Proof.
  split; [reflexivity|].
  exact (proj1 (connection_string_parts "localhost" "5432" "retail"
                  "localhost" "5432" "retail"
                  eq_refl eq_refl eq_refl eq_refl eq_refl)).
Defined.

(** X14.  [write_to_postgres] reads the keys user, password, host, port
    and database of the configuration, in this order, and raises
    [KeyError] for the first of them that is missing, before anything is
    written.  With all five present it makes one call of the JDBC writer
    with the url built from host, port and database, and with the
    properties user, password and the driver [org.postgresql.Driver].
    It reads no other key: two configurations that agree on the five
    keys give the same outcome, so a driver named in the configuration
    is ignored. *)
Theorem write_reads_five_keys {DataFrame : Type} (df : DataFrame) (config : Config)
    (table_name mode : string) :
  match find (fun key => match dict_get key config with
                         | None => true
                         | Some _ => false
                         end) keys_read with
  | Some key => write_to_postgres df config table_name mode = Raised (KeyError key)
  | None =>
      exists user password host port database,
        dict_get "user" config = Some user
        /\ dict_get "password" config = Some password
        /\ dict_get "host" config = Some host
        /\ dict_get "port" config = Some port
        /\ dict_get "database" config = Some database
        /\ write_to_postgres df config table_name mode
           = Ok (jdbc df
                   ("jdbc:postgresql://" ++ host ++ ":" ++ port ++ "/" ++ database)
                   table_name mode
                   [("user"%string, user); ("password"%string, password);
                    ("driver"%string, "org.postgresql.Driver"%string)])
  end
  /\ forall config' : Config,
       (forall key, In key keys_read -> dict_get key config' = dict_get key config) ->
       write_to_postgres df config' table_name mode
       = write_to_postgres df config table_name mode.
Proof.
  split.
  - unfold write_to_postgres, getitem, keys_read. simpl.
    destruct (dict_get "user" config) as [user|]; simpl; [|reflexivity].
    destruct (dict_get "password" config) as [password|]; simpl; [|reflexivity].
    destruct (dict_get "host" config) as [host|]; simpl; [|reflexivity].
    destruct (dict_get "port" config) as [port|]; simpl; [|reflexivity].
    destruct (dict_get "database" config) as [database|]; simpl; [|reflexivity].
    exists user, password, host, port, database. repeat split; reflexivity.
  - intros config' Same. unfold write_to_postgres, getitem.
    rewrite !Same by (unfold keys_read; simpl; auto 10). reflexivity.
Qed.

End JdbcProperties.

(** ** The configuration file *)

Module DictFacts.
Import Py.
Local Open Scope list_scope.

Lemma dict_get_set_same {V} (key : string) (v : V) (d : list (string * V)) :
  dict_get key (dict_set key v d) = Some v.
Proof.
  induction d as [|[k x] d IH]; simpl; [now rewrite String.eqb_refl|].
  destruct (String.eqb k key) eqn:E; simpl; now rewrite E.
Qed.

Lemma dict_get_set_other {V} (key key' : string) (v : V) (d : list (string * V)) :
  key <> key' -> dict_get key' (dict_set key v d) = dict_get key' d.
Proof.
  intros N. induction d as [|[k x] d IH]; simpl.
  - destruct (String.eqb key key') eqn:E; [|reflexivity].
    apply String.eqb_eq in E. congruence.
  - destruct (String.eqb k key) eqn:E; simpl.
    + apply String.eqb_eq in E. subst k.
      destruct (String.eqb key key') eqn:E'; [|reflexivity].
      apply String.eqb_eq in E'. congruence.
    + now rewrite IH.
Qed.

Lemma dict_get_none {V} (key : string) (d : list (string * V)) :
  dict_get key d = None <-> ~ In key (map fst d).
Proof.
  induction d as [|[k x] d IH]; simpl; [tauto|].
  destruct (String.eqb k key) eqn:E.
  - apply String.eqb_eq in E. split; [discriminate | intros H; elim H; auto].
  - apply String.eqb_neq in E. rewrite IH. tauto.
Qed.

(** A new key goes to the end. *)
Lemma dict_set_new {V} (key : string) (v : V) (d : list (string * V)) :
  ~ In key (map fst d) -> dict_set key v d = d ++ [(key, v)].
Proof.
  induction d as [|[k x] d IH]; simpl; intros N; [reflexivity|].
  destruct (String.eqb k key) eqn:E.
  - apply String.eqb_eq in E. elim N. auto.
  - rewrite IH; [reflexivity | tauto].
Qed.

Lemma dict_set_keys {V} (key : string) (v : V) (d : list (string * V)) :
  NoDup (map fst d) -> NoDup (map fst (dict_set key v d)).
Proof.
  intros ND. destruct (dict_get key d) as [x|] eqn:G.
  - assert (K : map fst (dict_set key v d) = map fst d).
    { clear ND. induction d as [|[k y] d IH]; simpl in *; [discriminate|].
      destruct (String.eqb k key) eqn:E; simpl; [reflexivity|].
      now rewrite IH. }
    now rewrite K.
  - apply dict_get_none in G. rewrite (dict_set_new key v d G), map_app. simpl.
    apply NoDup_app; [exact ND | repeat constructor; intros [] |].
    intros k Hk [<-|[]]. contradiction.
Qed.

Lemma dict_get_snoc {V} (key k : string) (v : V) (l : list (string * V)) :
  dict_get key (l ++ [(k, v)])
  = match dict_get key l with
    | Some x => Some x
    | None => if String.eqb k key then Some v else None
    end.
Proof.
  induction l as [|[k' x] l IHl]; simpl; [reflexivity|].
  destruct (String.eqb k' key); [reflexivity | exact IHl].
Qed.

(** The dictionary filled from a list of items: every key once, each
    with the value of its last item. *)
Lemma filled_dict (params : list (string * string)) :
  forall d : Config,
    NoDup (map fst d) ->
    NoDup (map fst (fold_left (fun config param =>
                                 dict_set (fst param) (snd param) config) params d))
    /\ forall key,
         dict_get key (fold_left (fun config param =>
                                    dict_set (fst param) (snd param) config) params d)
         = match dict_get key (rev params) with
           | Some v => Some v
           | None => dict_get key d
           end.
Proof.
  induction params as [|[k v] params IH]; intros d ND; simpl; [now split|].
  destruct (IH (dict_set k v d) (dict_set_keys k v d ND)) as [N G].
  split; [exact N|]. intros key. rewrite G.
  rewrite dict_get_snoc. destruct (dict_get key (rev params)); [reflexivity|].
  destruct (String.eqb k key) eqn:E.
  - apply String.eqb_eq in E. subst k. apply dict_get_set_same.
  - apply String.eqb_neq in E. now apply dict_get_set_other.
Qed.

(** Items with distinct keys fill the dictionary in their order. *)
Lemma filled_in_order (params : list (string * string)) :
  forall d : Config,
    NoDup (map fst (d ++ params)) ->
    fold_left (fun config param => dict_set (fst param) (snd param) config) params d
    = d ++ params.
Proof.
  induction params as [|[k v] params IH]; intros d ND; simpl;
    [now rewrite app_nil_r|].
  rewrite dict_set_new.
  - rewrite IH; rewrite <- app_assoc; [reflexivity | exact ND].
  - rewrite map_app in ND. simpl in ND.
    apply NoDup_remove_2 in ND. intros H. apply ND. apply in_or_app. now left.
Qed.

End DictFacts.

Section ConfigProperties.

Import Py.
Local Open Scope list_scope.

(** X15.  [load_config] does not tell a missing file from a missing
    section.  When the file cannot be opened the parser stays empty, and
    when the file has no section of the name asked for, the function
    raises the same [Exception], [Section ... not found in the ...
    file]; it never returns an empty configuration. *)
Theorem load_config_without_section (P : ConfigParser) (fs : list (string * string))
    (filename section : string) :
  (lookup_file filename fs = None ->
   load_config fs filename section
   = Raised (Exception ("Section " ++ section ++ " not found in the "
                          ++ filename ++ " file")))
  /\ (forall text parser,
        lookup_file filename fs = Some text ->
        parser_read new_parser text = Ok parser ->
        parser_has_section parser section = false ->
        load_config fs filename section
        = Raised (Exception ("Section " ++ section ++ " not found in the "
                               ++ filename ++ " file")))
  /\ (forall config,
        load_config fs filename section = Ok config ->
        exists text parser,
          lookup_file filename fs = Some text
          /\ parser_read new_parser text = Ok parser
          /\ parser_has_section parser section = true).
Proof.
  unfold load_config, section_not_found. split; [|split].
  - intros ->. simpl. now rewrite new_parser_has_no_section.
  - intros text parser -> R H. rewrite R. simpl. now rewrite H.
    - intros config. destruct (lookup_file filename fs) as [text|]; simpl.
    + destruct (parser_read new_parser text) as [parser|e] eqn:R; simpl;
        [|discriminate].
      destruct (parser_has_section parser section) eqn:H; [|discriminate].
      intros _. exists text, parser. auto.
    + rewrite new_parser_has_no_section. discriminate.
Qed.

Lemma load_config_without_section_witness :
  lookup_file "database.ini" [] = None
  /\ load_config (P := PlainIni.parser) [] "database.ini" "postgresql"
     = Raised (Exception "Section postgresql not found in the database.ini file").
Proof.
  split; [reflexivity|].
  exact (proj1 (load_config_without_section PlainIni.parser [] "database.ini"
                  "postgresql") eq_refl).
Defined.

(** X16.  When [load_config] returns, the configuration holds the items
    of the section as the parser lists them: every key once, each with
    the value of its last item, and, the keys of the items being
    distinct, the items themselves in their order. *)
Theorem load_config_items (P : ConfigParser) (fs : list (string * string))
    (filename section : string) (config : Config)
    (H : load_config fs filename section = Ok config) :
  exists text parser params,
    lookup_file filename fs = Some text
    /\ parser_read new_parser text = Ok parser
    /\ parser_items parser section = Ok params
    /\ NoDup (map fst config)
    /\ (forall key, dict_get key config = dict_get key (rev params))
    /\ (NoDup (map fst params) -> config = params).
Proof.
  unfold load_config in H.
  destruct (lookup_file filename fs) as [text|]; simpl in H.
  - destruct (parser_read new_parser text) as [parser|e] eqn:R; simpl in H;
      [|discriminate].
    destruct (parser_has_section parser section); [|discriminate].
    destruct (parser_items parser section) as [params|e] eqn:I; simpl in H;
      [|discriminate].
    injection H as <-. exists text, parser, params.
    destruct (DictFacts.filled_dict params [] (NoDup_nil _)) as [N G].
    repeat split; auto.
    + intros key. rewrite G. now destruct (dict_get key (rev params)).
    + intros ND. now apply (DictFacts.filled_in_order params []).
  - rewrite new_parser_has_no_section in H. discriminate.
Qed.

Lemma load_config_items_witness :
  load_config (P := PlainIni.parser)
    [("database.ini"%string, PlainIni.database_ini)] "database.ini" "postgresql"
    = Ok [("host"%string, "localhost"%string); ("port"%string, "5432"%string);
          ("database"%string, "retail"%string); ("user"%string, "analyst"%string);
          ("password"%string, "secret"%string)]
  /\ NoDup (map fst
              [("host"%string, "localhost"%string); ("port"%string, "5432"%string);
               ("database"%string, "retail"%string); ("user"%string, "analyst"%string);
               ("password"%string, "secret"%string)]).
Proof.
  assert (L : load_config (P := PlainIni.parser)
                [("database.ini"%string, PlainIni.database_ini)]
                "database.ini" "postgresql"
              = Ok [("host"%string, "localhost"%string); ("port"%string, "5432"%string);
                    ("database"%string, "retail"%string);
                    ("user"%string, "analyst"%string);
                    ("password"%string, "secret"%string)])
    by (vm_compute; reflexivity).
  split; [exact L|].
  destruct (load_config_items PlainIni.parser _ _ _ _ L)
    as (text & parser & params & _ & _ & _ & N & _).
  exact N.
Defined.

End ConfigProperties.

(** ** The data of the charts *)

Module ChartFacts.
Import Py.
Local Open Scope list_scope.

Lemma traverse_ok {A B} (f : A -> Result B) (xs : list A) (ys : list B) :
  traverse f xs = Ok ys -> Forall2 (fun x y => f x = Ok y) xs ys.
Proof.
  revert ys. induction xs as [|x xs IH]; simpl; intros ys H.
  - injection H as <-. constructor.
  - destruct (f x) as [y|e] eqn:E; simpl in H; [|discriminate].
    destruct (traverse f xs) as [ys'|e]; simpl in H; [|discriminate].
    injection H as <-. constructor; [exact E | now apply IH].
Qed.

Lemma traverse_all {A B} (f : A -> Result B) (xs : list A) (ys : list B) :
  Forall2 (fun x y => f x = Ok y) xs ys -> traverse f xs = Ok ys.
Proof.
  induction 1 as [|x y xs ys E _ IH]; simpl; [reflexivity|].
  now rewrite E, IH.
Qed.

(** The first two columns of [zip_star]: every record starts with its
    entries in them. *)
Lemma zip_star_columns {Value} (records : list (list Value)) :
  forall (ids amounts : list Value) (more : list (list Value)),
    zip_star records = ids :: amounts :: more ->
    records <> []
    /\ List.length ids = List.length records
    /\ List.length amounts = List.length records
    /\ Forall2 (fun record pair =>
                  exists rest, record = fst pair :: snd pair :: rest)
         records (combine ids amounts).
Proof.
  induction records as [|record records IH]; intros ids amounts more H;
    [discriminate|].
  simpl in H. destruct records as [|next records].
  - destruct record as [|a [|b rest]]; try discriminate.
    simpl in H. injection H as <- <- _.
    split; [discriminate|]. repeat split.
    constructor; [now exists rest | constructor].
  - destruct record as [|a [|b rest]]; try discriminate;
      destruct (zip_star (next :: records)) as [|c1 [|c2 columns]] eqn:Z;
      try discriminate.
    simpl in H. injection H as <- <- _.
    destruct (IH c1 c2 columns eq_refl) as (_ & L1 & L2 & F).
    split; [discriminate|]. simpl. rewrite L1, L2. repeat split.
    constructor; [now exists rest | exact F].
Qed.

(** Records of exactly two entries give the two columns. *)
Lemma zip_star_pairs {Value} (records : list (Value * Value)) :
  records <> [] ->
  zip_star (map (fun p => [fst p; snd p]) records)
  = [map fst records; map snd records].
Proof.
  induction records as [|[a b] records IH]; intros NE; [congruence|].
  destruct records as [|next records]; [reflexivity|].
  change (zip_star (map (fun p => [fst p; snd p]) ((a, b) :: next :: records)))
    with (zip_with cons [a; b]
            (zip_star (map (fun p => [fst p; snd p]) (next :: records)))).
  rewrite IH by discriminate. reflexivity.
Qed.

End ChartFacts.

Section ChartProperties.

Import Py.
Local Open Scope list_scope.

(** X17.  When [prepare_result] returns, there was at least one record;
    the ids and the amounts have one entry for each record, in the order
    of the records; the id of a record is its first value and its amount
    is [float] of its second value.  The headers play no part. *)
Theorem prepare_result_columns {Value : Type} (float : Value -> Result Float64.double)
    (headers : list string) (records : list (list Value))
    (ids : list Value) (amounts : list Float64.double)
    (H : prepare_result float (headers, records) = Ok (ids, amounts)) :
  records <> []
  /\ List.length ids = List.length records
  /\ List.length amounts = List.length records
  /\ Forall2 (fun record pair =>
                exists value rest,
                  record = fst pair :: value :: rest
                  /\ float value = Ok (snd pair))
       records (combine ids amounts)
  /\ forall headers',
       prepare_result float (headers', records) = Ok (ids, amounts).
Proof.
  assert (Hh : forall headers',
             prepare_result float (headers', records)
             = prepare_result float (headers, records)) by reflexivity.
  unfold prepare_result in H.
  destruct (zip_star records) as [|c1 [|c2 [|c3 columns]]] eqn:Z; try discriminate.
  destruct (traverse float c2) as [amount|e] eqn:T; simpl in H; [|discriminate].
  injection H as <- <-.
  destruct (ChartFacts.zip_star_columns records c1 c2 [] Z) as (NE & L1 & L2 & F).
  apply ChartFacts.traverse_ok in T.
  assert (L3 : List.length amount = List.length c2)
    by (symmetry; apply (Forall2_length T)).
  split; [exact NE|]. split; [exact L1|]. split; [congruence|]. split.
  - clear Z NE L1 L2 L3 Hh. revert c1 c2 amount F T.
    induction records as [|record records IH]; intros c1 c2 amount F T.
    + inversion F as [E1 E2|]. destruct c1, c2; try discriminate; try constructor;
        inversion T; subst; simpl; constructor.
    + destruct c1 as [|i c1], c2 as [|v c2]; simpl in F; inversion F; subst.
      inversion T; subst. simpl. constructor.
      * match goal with
        | Hr : exists rest, record = _ |- _ => destruct Hr as [rest ->]
        end.
        simpl. eauto.
      * now apply IH with (c2 := c2).
  - intros headers'. rewrite Hh. unfold prepare_result. rewrite Z.
    rewrite (ChartFacts.traverse_all float c2 amount T). reflexivity.
Qed.

Lemma prepare_result_columns_witness :
  prepare_result (fun n => Ok (Float64.of_Z n))
    (["customerid"%string; "total"%string], [[17850%Z; 5391%Z]; [13047%Z; 3237%Z]])
    = Ok ([17850%Z; 13047%Z], [Float64.of_Z 5391; Float64.of_Z 3237])
  /\ List.length [17850%Z; 13047%Z]
     = List.length [[17850%Z; 5391%Z]; [13047%Z; 3237%Z]].
Proof.
  split; [reflexivity|].
  exact (proj1 (proj2 (prepare_result_columns (fun n => Ok (Float64.of_Z n))
                         ["customerid"%string; "total"%string]
                         [[17850%Z; 5391%Z]; [13047%Z; 3237%Z]]
                         [17850%Z; 13047%Z] [Float64.of_Z 5391; Float64.of_Z 3237]
                         eq_refl))).
Defined.

(** X18.  [prepare_result] fails on a result without rows: it raises
    [ValueError], since there is nothing to unpack, and so does the
    chart that was to show the result.  It also raises [ValueError] when
    the rows have three values or more, and when [float] refuses the
    second value of a row it raises the exception of [float].  On rows
    of exactly two values that [float] accepts it returns. *)
Theorem prepare_result_failures {Value : Type} (float : Value -> Result Float64.double)
    (headers : list string) :
  prepare_result float (headers, [])
    = Raised (ValueError "not enough values to unpack (expected 2, got 0)")
  /\ (forall a b c rest records,
        (forall record, In record records -> (3 <= List.length record)%nat) ->
        prepare_result float (headers, (a :: b :: c :: rest) :: records)
        = Raised (ValueError "too many values to unpack (expected 2)"))
  /\ (forall (records : list (Value * Value)) e,
        records <> [] ->
        traverse float (map snd records) = Raised e ->
        prepare_result float (headers, map (fun p => [fst p; snd p]) records)
        = Raised e)
  /\ (forall (records : list (Value * Value)) amounts,
        records <> [] ->
        traverse float (map snd records) = Ok amounts ->
        prepare_result float (headers, map (fun p => [fst p; snd p]) records)
        = Ok (map fst records, amounts)).
Proof.
  split; [reflexivity|]. split; [|split].
  - intros a b c rest records Long. unfold prepare_result.
    assert (Z : exists c1 c2 c3 columns,
               zip_star ((a :: b :: c :: rest) :: records)
               = c1 :: c2 :: c3 :: columns).
    { revert a b c rest. induction records as [|record records IH];
        intros a b c rest; [simpl; eauto|].
      destruct record as [|a' [|b' [|c' rest']]];
        try (specialize (Long _ (or_introl eq_refl)); simpl in Long; lia).
      destruct (IH (fun r Hr => Long r (or_intror Hr)) a' b' c' rest')
        as (c1 & c2 & c3 & columns & Z).
      change (zip_star ((a :: b :: c :: rest) :: (a' :: b' :: c' :: rest') :: records))
        with (zip_with cons (a :: b :: c :: rest)
                (zip_star ((a' :: b' :: c' :: rest') :: records))).
      rewrite Z. simpl. eauto. }
    destruct Z as (c1 & c2 & c3 & columns & ->). reflexivity.
  - intros records e NE T. unfold prepare_result.
    rewrite (ChartFacts.zip_star_pairs records NE), T. reflexivity.
  - intros records amounts NE T. unfold prepare_result.
    rewrite (ChartFacts.zip_star_pairs records NE), T. reflexivity.
Qed.

End ChartProperties.

(** ** The order of the second chart *)

Module OrderFacts.
Import Py.
Local Open Scope list_scope.

Lemma lt_not_nan (x y : Float64.double) :
  lt x y = true -> x <> S754_nan /\ y <> S754_nan.
Proof. destruct x, y; simpl; try discriminate; split; discriminate. Qed.

(** [lt] is the order of the ranks. *)
Lemma lt_rank (x y : Float64.double) :
  x <> S754_nan -> y <> S754_nan ->
  (lt x y = true <-> rank_lt (rank x) (rank y)).
Proof.
  intros Nx Ny. unfold lt, SFltb, SFcompare, rank, rank_lt.
  destruct x as [sx|sx| |sx mx ex], y as [sy|sy| |sy my ey]; try congruence;
    try destruct sx; try destruct sy;
    try (split; [discriminate | lia]); try (split; [lia | reflexivity]).
  - change (Pos.compare_cont Eq mx my) with (Pos.compare mx my).
    destruct (Z.compare_spec ex ey); destruct (Pos.compare_spec mx my); simpl;
      split; intros; try discriminate; try reflexivity; lia.
  - change (Pos.compare_cont Eq mx my) with (Pos.compare mx my).
    destruct (Z.compare_spec ex ey); destruct (Pos.compare_spec mx my); simpl;
      split; intros; try discriminate; try reflexivity; lia.
Qed.

Lemma lt_asym (x y : Float64.double) : lt x y = true -> lt y x = false.
Proof.
  intros H. destruct (lt_not_nan x y H) as [Nx Ny].
  destruct (lt y x) eqn:E; [|reflexivity].
  apply (lt_rank x y Nx Ny) in H. apply (lt_rank y x Ny Nx) in E.
  unfold rank_lt in *.
  destruct (rank x) as [[a1 a2] a3], (rank y) as [[b1 b2] b3]. lia.
Qed.

Lemma lt_neg_trans (x y z : Float64.double) :
  y <> S754_nan -> lt x y = false -> lt y z = false -> lt x z = false.
Proof.
  intros Ny Hxy Hyz. destruct (lt x z) eqn:E; [|reflexivity].
  destruct (lt_not_nan x z E) as [Nx Nz].
  apply (lt_rank x z Nx Nz) in E.
  assert (Rxy : ~ rank_lt (rank x) (rank y))
    by (intros R; apply (lt_rank x y Nx Ny) in R; congruence).
  assert (Ryz : ~ rank_lt (rank y) (rank z))
    by (intros R; apply (lt_rank y z Ny Nz) in R; congruence).
  unfold rank_lt in *.
  destruct (rank x) as [[a1 a2] a3], (rank y) as [[b1 b2] b3],
    (rank z) as [[c1 c2] c3]. lia.
Qed.

Lemma insert_reverse_perm {A} (x : A * Float64.double) (l : list (A * Float64.double)) :
  Permutation (insert_reverse x l) (x :: l).
Proof.
  induction l as [|y l IH]; simpl; [reflexivity|].
  destruct (lt (snd x) (snd y)); [|reflexivity].
  rewrite IH. apply perm_swap.
Qed.

Lemma insert_reverse_sorted (x : nat * Float64.double)
    (l : list (nat * Float64.double)) :
  (forall y, In y l -> snd y <> S754_nan) ->
  (forall y, In y l -> (fst x < fst y)%nat) ->
  StronglySorted keeps_order l ->
  StronglySorted keeps_order (insert_reverse x l).
Proof.
  intros Nan First S. induction S as [|y l S IH F]; simpl.
  - constructor; constructor.
  - destruct (lt (snd x) (snd y)) eqn:E.
    + constructor.
      * apply IH; intros z Hz; [apply Nan | apply First]; now right.
      * apply (Permutation_Forall (Permutation_sym (insert_reverse_perm x l))).
        constructor; [|exact F].
        split; [now apply lt_asym | congruence].
    + constructor; [now constructor|].
      constructor.
      * split; [exact E | intros _; apply First; now left].
      * rewrite Forall_forall in *. intros z Hz. split.
        -- apply (lt_neg_trans (snd x) (snd y) (snd z));
             [apply Nan; now left | exact E | apply (F z Hz)].
        -- intros _. apply First. now right.
Qed.

(** The stable descending sort of items that stand in the order of
    their indices. *)
Lemma sort_reverse_sorted (pairs : list (nat * Float64.double)) :
  (forall p, In p pairs -> snd p <> S754_nan) ->
  StronglySorted (fun p q => (fst p < fst q)%nat) pairs ->
  Permutation (fold_right insert_reverse [] pairs) pairs
  /\ StronglySorted keeps_order (fold_right insert_reverse [] pairs).
Proof.
  intros Nan S. induction S as [|p pairs S IH F]; simpl.
  - split; [reflexivity | constructor].
  - destruct IH as [P Sorted]; [intros q Hq; apply Nan; now right|].
    split.
    + rewrite insert_reverse_perm. now constructor.
    + apply insert_reverse_sorted; [| |exact Sorted].
      * intros y Hy. apply Nan. right. now apply (Permutation_in _ P).
      * intros y Hy. rewrite Forall_forall in F. apply F.
        now apply (Permutation_in _ P).
Qed.

(** A sorted list cut in two: the first part is sorted and stands
    before the rest. *)
Lemma sorted_cut {A} (R : A -> A -> Prop) (n : nat) (l : list A) :
  StronglySorted R l ->
  StronglySorted R (firstn n l)
  /\ forall x y, In x (firstn n l) -> In y (skipn n l) -> R x y.
Proof.
  intros S. revert n. induction S as [|a l S IH F]; intros n.
  - rewrite firstn_nil, skipn_nil. split; [constructor | intros x y []].
  - destruct n as [|n]; simpl; [split; [constructor | intros x y []]|].
    destruct (IH n) as [S' B]. split.
    + constructor; [exact S'|].
      rewrite Forall_forall in *. intros x Hx. apply F.
      rewrite <- (firstn_skipn n l). apply in_or_app. now left.
    + intros x y [<-|Hx] Hy.
      * rewrite Forall_forall in F. apply F.
        rewrite <- (firstn_skipn n l). apply in_or_app. now right.
      * now apply B.
Qed.

Lemma sorted_map {A B} (R : A -> A -> Prop) (R' : B -> B -> Prop) (f : A -> B)
    (l : list A) :
  (forall x y, In x l -> In y l -> R x y -> R' (f x) (f y)) ->
  StronglySorted R l -> StronglySorted R' (map f l).
Proof.
  intros H S. induction S as [|a l S IH F]; simpl; constructor.
  - apply IH. intros x y Hx Hy. apply H; now right.
  - rewrite Forall_forall in *. intros b Hb.
    apply in_map_iff in Hb as [x [<- Hx]].
    apply H; [now left | now right | now apply F].
Qed.

(** The items of an enumerated list. *)
Lemma enumerated {A} (l : list A) :
  forall (a i : nat) (x : A),
    In (i, x) (combine (seq a (List.length l)) l)
    <-> (a <= i)%nat /\ nth_error l (i - a) = Some x.
Proof.
  induction l as [|y l IH]; intros a i x; simpl.
  - split; [intros [] | intros [_ H]]. now destruct (i - a)%nat.
  - rewrite IH. split.
    + intros [[= <- <-]|[L N]].
      * rewrite Nat.sub_diag. auto.
      * split; [lia|]. replace (i - a)%nat with (S (i - S a)) by lia. exact N.
    + intros [L N]. destruct (i - a)%nat as [|k] eqn:E.
      * left. injection N as <-. f_equal. lia.
      * right. split; [lia|]. replace (i - S a)%nat with k by lia. exact N.
Qed.

Lemma enumerated_sorted {A} (l : list A) :
  forall a : nat,
    StronglySorted (fun p q : nat * A => (fst p < fst q)%nat)
      (combine (seq a (List.length l)) l).
Proof.
  induction l as [|y l IH]; intros a; simpl; constructor; [apply IH|].
  apply Forall_forall. intros [i x] H. apply enumerated in H. simpl. lia.
Qed.

Lemma enumerated_indices {A} (l : list A) (a : nat) :
  map fst (combine (seq a (List.length l)) l) = seq a (List.length l).
Proof.
  revert a. induction l as [|y l IH]; intros a; simpl; [reflexivity|].
  now rewrite IH.
Qed.

(** [l[i]] for every [i] of [range(len(l))] gives [l]. *)
Lemma traverse_index_range {A} (l : list A) :
  forall pre : list A,
    traverse (index (pre ++ l)) (seq (List.length pre) (List.length l)) = Ok l.
Proof.
  induction l as [|x l IH]; intros pre; simpl; [reflexivity|].
  unfold index at 1. rewrite nth_error_app2 by lia. rewrite Nat.sub_diag. simpl.
  specialize (IH (pre ++ [x])). rewrite <- app_assoc, length_app in IH. simpl in IH.
  replace (List.length pre + 1)%nat with (S (List.length pre)) in IH by lia.
  now rewrite IH.
Qed.

Lemma traverse_index_in_range {A} (l : list A) (indices : list nat) :
  (forall i, In i indices -> (i < List.length l)%nat) ->
  exists xs,
    traverse (index l) indices = Ok xs
    /\ Forall2 (fun i x => nth_error l i = Some x) indices xs.
Proof.
  induction indices as [|i indices IH]; intros H; simpl.
  - exists []. split; [reflexivity | constructor].
  - destruct IH as (xs & T & F); [intros j Hj; apply H; now right|].
    destruct (nth_error l i) as [x|] eqn:N.
    + exists (x :: xs). unfold index at 1. rewrite N, T. simpl.
      split; [reflexivity | now constructor].
    + apply nth_error_None in N. specialize (H i (or_introl eq_refl)). lia.
Qed.

End OrderFacts.

Section OrderProperties.

Import Py.
Local Open Scope list_scope.

(** X19.  For stock codes and orders of the same number, none of the
    orders NaN, the part of [generate_visualizations] that picks the
    data of the second figure raises nothing and picks the ten largest
    orders, or all of them when there are fewer: the indices it picks
    are distinct; the stock code and the order shown at a place are the
    ones found at the index picked for that place; the orders shown
    descend, equal orders in the order of the result; and nothing left
    out is larger than anything shown. *)
Theorem top_orders_selection {Value : Type} (stock_codes : list Value)
    (total_orders : list Float64.double)
    (Hsame : List.length stock_codes = List.length total_orders)
    (Hnan : ~ In S754_nan total_orders) :
  exists top_indices top_stock_codes top_total_orders,
    top_of_orders stock_codes total_orders = Ok (top_stock_codes, top_total_orders)
    /\ List.length top_indices = Nat.min top_n (List.length total_orders)
    /\ NoDup top_indices
    /\ Forall2 (fun i code => nth_error stock_codes i = Some code)
         top_indices top_stock_codes
    /\ Forall2 (fun i order => nth_error total_orders i = Some order)
         top_indices top_total_orders
    /\ StronglySorted (stands_before total_orders) top_indices
    /\ forall i j,
         In i top_indices -> (j < List.length total_orders)%nat ->
         ~ In j top_indices -> stands_before total_orders i j.
Proof.
  set (pairs := combine (seq 0 (List.length total_orders)) total_orders).
  set (sorted := fold_right insert_reverse [] pairs).
  assert (InPairs : forall i x, In (i, x) pairs <-> nth_error total_orders i = Some x).
  { intros i x. unfold pairs. rewrite OrderFacts.enumerated.
    rewrite Nat.sub_0_r. split; [tauto | split; [lia | assumption]]. }
  assert (NoNan : forall p, In p pairs -> snd p <> S754_nan).
  { intros [i x] Hp E. simpl in E. subst x. apply InPairs in Hp.
    apply Hnan. now apply (nth_error_In _ i). }
  destruct (OrderFacts.sort_reverse_sorted pairs NoNan
              (OrderFacts.enumerated_sorted total_orders 0)) as [P S].
  fold sorted in P, S.
  assert (Indices : Permutation (map fst sorted) (seq 0 (List.length total_orders))).
  { rewrite (Permutation_map fst P). unfold pairs.
    now rewrite OrderFacts.enumerated_indices. }
  destruct (OrderFacts.sorted_cut keeps_order top_n sorted S) as [Stop Cut].
  assert (Related : forall p q, In p sorted -> In q sorted -> keeps_order p q ->
                                stands_before total_orders (fst p) (fst q)).
  { intros [i x] [j y] Hp Hq [K1 K2].
    apply (Permutation_in _ P), InPairs in Hp.
    apply (Permutation_in _ P), InPairs in Hq.
    exists x, y. auto. }
  set (top_indices := firstn top_n (map fst sorted)).
  assert (InRange : forall i, In i top_indices -> (i < List.length total_orders)%nat).
  { intros i Hi. apply SparkFacts.in_firstn in Hi.
    apply (Permutation_in _ Indices), in_seq in Hi. lia. }
  destruct (OrderFacts.traverse_index_in_range stock_codes top_indices)
    as (codes & Tc & Fc); [intros i Hi; rewrite Hsame; now apply InRange|].
  destruct (OrderFacts.traverse_index_in_range total_orders top_indices InRange)
    as (orders & To & Fo).
  exists top_indices, codes, orders.
  split.
  { unfold top_of_orders, sorted_reverse, range.
    pose proof (OrderFacts.traverse_index_range total_orders []) as Keys.
    simpl in Keys. rewrite Keys. cbn [bind].
    fold pairs. fold sorted. fold top_indices. rewrite Tc. cbn [bind].
    rewrite To. reflexivity. }
  split.
  { unfold top_indices. rewrite length_firstn, length_map.
    rewrite (Permutation_length P). unfold pairs.
    rewrite length_combine, length_seq. lia. }
  split.
  { apply nodup_firstn.
    apply (Permutation_NoDup (Permutation_sym Indices)), seq_NoDup. }
  split; [exact Fc|]. split; [exact Fo|]. split.
  { unfold top_indices. rewrite firstn_map.
    apply (OrderFacts.sorted_map keeps_order); [|exact Stop].
    intros p q Hp Hq. apply Related; now apply (SparkFacts.in_firstn top_n). }
  intros i j Hi Hj Hout.
  unfold top_indices in Hi, Hout. rewrite firstn_map in Hi, Hout.
  apply in_map_iff in Hi as [p [<- Hp]].
  destruct (nth_error total_orders j) as [y|] eqn:N;
    [|apply nth_error_None in N; lia].
  assert (Hq : In (j, y) sorted)
    by (apply (Permutation_in _ (Permutation_sym P)); now apply InPairs).
  rewrite <- (firstn_skipn top_n sorted) in Hq.
  apply in_app_or in Hq as [Hq|Hq].
  - elim Hout. apply in_map_iff. now exists (j, y).
  - apply (Related p (j, y)).
    + now apply (SparkFacts.in_firstn top_n).
    + rewrite <- (firstn_skipn top_n sorted). apply in_or_app. now right.
    + now apply Cut.
Qed.

Lemma top_orders_selection_witness :
  top_of_orders ["22423"%string; "85123A"%string; "47566"%string]
    [Float64.of_Z 5; Float64.of_Z 9; Float64.of_Z 5]
    = Ok (["85123A"%string; "22423"%string; "47566"%string],
          [Float64.of_Z 9; Float64.of_Z 5; Float64.of_Z 5])
  /\ exists (top_indices : list nat) top_stock_codes top_total_orders,
       top_of_orders ["22423"%string; "85123A"%string; "47566"%string]
         [Float64.of_Z 5; Float64.of_Z 9; Float64.of_Z 5]
       = Ok (top_stock_codes, top_total_orders)
       /\ List.length top_indices = 3%nat.
Proof.
  split; [reflexivity|].
  destruct (top_orders_selection ["22423"%string; "85123A"%string; "47566"%string]
              [Float64.of_Z 5; Float64.of_Z 9; Float64.of_Z 5] eq_refl
              ltac:(vm_compute; intros [H|[H|[H|[]]]]; discriminate))
    as (indices & codes & orders & E & L & _).
  exists indices, codes, orders. split; [exact E | exact L].
Defined.

End OrderProperties.

(** ** [main] of pipeline.py *)

Section PipelineProperties.

Import Py.
Local Open Scope list_scope.

(** X20.  [main] of pipeline.py computes and prints before it reads the
    configuration: without the file [database.ini] it ends with the
    exception of [load_config] after the total was printed, and nothing
    is written.  What it writes, when it writes, is the DataFrame as
    [read_csv_file] returned it, to the table [sales] in mode
    [overwrite]: none of the three aggregates is written. *)
Theorem pipeline_writes_rows_read (P : ConfigParser) (fs : list (string * string))
    (file : Spark.RawFrame) :
  fst (pipeline_main fs file)
    = [Spark.calculate_total_sales (Spark.read_csv_file file)]
  /\ (lookup_file "database.ini" fs = None ->
      snd (pipeline_main fs file)
      = Raised (Exception "Section postgresql not found in the database.ini file"))
  /\ (forall call,
        snd (pipeline_main fs file) = Ok call ->
        exists config user password host port database,
          load_config fs "database.ini" "postgresql" = Ok config
          /\ dict_get "user" config = Some user
          /\ dict_get "password" config = Some password
          /\ dict_get "host" config = Some host
          /\ dict_get "port" config = Some port
          /\ dict_get "database" config = Some database
          /\ call = jdbc (Spark.read_csv_file file)
                      (create_connection_string host port database)
                      "sales" "overwrite"
                      [("user"%string, user); ("password"%string, password);
                       ("driver"%string, "org.postgresql.Driver"%string)]).
Proof.
  split; [reflexivity|]. split.
  - intros Hfile. unfold pipeline_main, load_config. simpl snd.
    rewrite Hfile. simpl. now rewrite new_parser_has_no_section.
  - intros call. unfold pipeline_main. simpl snd.
    destruct (load_config fs "database.ini" "postgresql") as [config|e] eqn:L;
      [|discriminate].
    cbn [bind]. unfold write_to_postgres, getitem.
    destruct (dict_get "user" config) as [user|] eqn:G1; [|discriminate].
    destruct (dict_get "password" config) as [password|] eqn:G2; [|discriminate].
    destruct (dict_get "host" config) as [host|] eqn:G3; [|discriminate].
    destruct (dict_get "port" config) as [port|] eqn:G4; [|discriminate].
    destruct (dict_get "database" config) as [database|] eqn:G5; [|discriminate].
    cbn [bind]. intros [= <-].
    exists config, user, password, host, port, database. repeat split; auto.
Qed.

Lemma pipeline_writes_rows_read_witness :
  lookup_file "database.ini" [] = None
  /\ pipeline_main (P := PlainIni.parser) []
       (Spark.mkRawFrame Spark.TInt
          [Spark.raw_line (Some (Spark.CString "12/1/2010 8:26"))
             (Some (Spark.CInt 17850))])
     = (["Total sales in the period: $15.30"%string],
        Raised (Exception "Section postgresql not found in the database.ini file")).
Proof.
  split; [reflexivity|].
  destruct (pipeline_writes_rows_read PlainIni.parser []
              (Spark.mkRawFrame Spark.TInt
                 [Spark.raw_line (Some (Spark.CString "12/1/2010 8:26"))
                    (Some (Spark.CInt 17850))])) as (Hprinted & Hmissing & _).
  rewrite (surjective_pairing (pipeline_main _ _)), Hprinted, (Hmissing eq_refl).
  reflexivity.
Defined.

End PipelineProperties.

(** * Further properties of the normaliser of analysis.py *)

Section NormaliserProperties.

Import Pandas Calendar PandasFacts.
Local Open Scope list_scope.



End NormaliserProperties.

(** * The dataset file and the loader *)

Module CsvFacts.
Import Csv.
Local Open Scope list_scope.

Lemma special_inv (a : ascii) :
  special a = false ->
  Ascii.eqb a "," = false /\ Ascii.eqb a double_quote = false
  /\ Ascii.eqb a line_feed = false.
Proof.
  unfold special. intros H.
  apply orb_false_iff in H as [H H3]. apply orb_false_iff in H as [H1 H2]. auto.
Qed.

(** A field that needs no quotes counts for nothing by itself. *)
Lemma count_plain (field rest : string) (quoted : bool) :
  needs_quotes field = false ->
  Pg.count_fields quoted (field ++ rest) = Pg.count_fields quoted rest.
Proof.
  induction field as [|a field IH]; simpl; intros H; [reflexivity|].
  apply orb_false_iff in H as [Ha Hf].
  destruct (special_inv a Ha) as (C & Q & _).
  change (ascii_of_nat 34) with double_quote. rewrite Q, C. simpl. now apply IH.
Qed.

(** Between quotes nothing separates, and a doubled quote leaves the
    reader between quotes. *)
Lemma count_doubled (field rest : string) :
  Pg.count_fields true (doubled field ++ rest) = Pg.count_fields true rest.
Proof.
  induction field as [|a field IH]; simpl; [reflexivity|].
  destruct (Ascii.eqb a double_quote) eqn:Q; simpl;
    change (ascii_of_nat 34) with double_quote; rewrite ?Q; simpl.
  - exact IH.
  - rewrite andb_false_r. exact IH.
Qed.

Lemma count_written_field (field rest : string) :
  Pg.count_fields false (write_field field ++ rest) = Pg.count_fields false rest.
Proof.
  unfold write_field. destruct (needs_quotes field) eqn:N.
  - simpl. rewrite RegexFacts.append_assoc, count_doubled. reflexivity.
  - now apply count_plain.
Qed.

(** The reader of the server finds in a written row the fields that were
    written. *)
Lemma count_written_fields (fields : list string) :
  fields <> [] ->
  Pg.count_fields false (PyStr.join "," (map write_field fields))
  = List.length fields.
Proof.
  induction fields as [|f fields IH]; intros NE; [congruence|].
  destruct fields as [|g fields].
  - simpl. rewrite <- (PgFacts.append_empty (write_field f)).
    now rewrite count_written_field.
  - change (PyStr.join "," (map write_field (f :: g :: fields)))
      with (write_field f ++ String "," (PyStr.join "," (map write_field (g :: fields))))%string.
    rewrite count_written_field.
    change (Pg.count_fields false
              (String "," (PyStr.join "," (map write_field (g :: fields)))))
      with (S (Pg.count_fields false (PyStr.join "," (map write_field (g :: fields))))).
    rewrite IH by discriminate. reflexivity.
Qed.

Lemma write_row_many (f g : string) (fields : list string) :
  write_row (f :: g :: fields) = PyStr.join "," (map write_field (f :: g :: fields)).
Proof. now destruct f. Qed.

Lemma contains_append (c : ascii) (a b : string) :
  PyStr.contains c (a ++ b) = PyStr.contains c a || PyStr.contains c b.
Proof.
  induction a as [|x a IH]; simpl; [reflexivity|].
  now rewrite IH, orb_assoc.
Qed.

Lemma contains_doubled (field : string) :
  PyStr.contains line_feed (doubled field) = PyStr.contains line_feed field.
Proof.
  induction field as [|a field IH]; [reflexivity|].
  cbn [doubled]. destruct (Ascii.eqb a double_quote) eqn:Q;
    cbn [PyStr.contains]; rewrite IH; [|reflexivity].
  now destruct (Ascii.eqb line_feed a).
Qed.

Lemma one_line_inv (field : string) :
  one_line field = true -> PyStr.contains line_feed field = false.
Proof.
  unfold one_line. intros H. apply andb_true_iff in H as [H _].
  now apply negb_true_iff.
Qed.

Lemma written_field_one_line (field : string) :
  one_line field = true -> PyStr.contains line_feed (write_field field) = false.
Proof.
  intros H. apply one_line_inv in H. unfold write_field.
  destruct (needs_quotes field); [|exact H].
  simpl. rewrite contains_append, contains_doubled, H. reflexivity.
Qed.

Lemma written_row_one_line (fields : list string) :
  forallb one_line fields = true ->
  PyStr.contains line_feed (write_row fields) = false.
Proof.
  intros H.
  assert (J : PyStr.contains line_feed (PyStr.join "," (map write_field fields))
              = false).
  { induction fields as [|f fields IH]; [reflexivity|].
    simpl in H. apply andb_true_iff in H as [Hf Hfs].
    destruct fields as [|g fields]; [now apply written_field_one_line|].
    change (PyStr.join "," (map write_field (f :: g :: fields)))
      with (write_field f
              ++ String "," (PyStr.join "," (map write_field (g :: fields))))%string.
    rewrite contains_append, (written_field_one_line f Hf). simpl.
    now apply IH. }
  unfold write_row. destruct fields as [|[|a f] [|g fields]]; exact J.
Qed.

(** A text cut at the first separator. *)
Lemma split_first (c : ascii) (a rest : string) :
  PyStr.contains c a = false ->
  PyStr.split c (a ++ String c rest) = a :: PyStr.split c rest.
Proof.
  induction a as [|x a IH]; simpl; intros H.
  - now rewrite Ascii.eqb_refl.
  - apply orb_false_iff in H as [Hx Ha]. rewrite Ascii.eqb_sym, Hx.
    now rewrite (IH Ha).
Qed.

(** The lines of what the writer wrote are the rows it wrote. *)
Lemma split_written_rows (rows : list (list string)) :
  Forall (fun row => forallb one_line row = true) rows ->
  PyStr.split line_feed (write_rows rows) = map write_row rows ++ [EmptyString].
Proof.
  induction 1 as [|row rows Hrow _ IH]; [reflexivity|].
  simpl. rewrite (split_first line_feed _ _ (written_row_one_line row Hrow)).
  now rewrite IH.
Qed.

Lemma drop_final_empty_last (lines : list string) :
  Pg.drop_final_empty (lines ++ [EmptyString]) = lines.
Proof.
  induction lines as [|line lines IH]; [reflexivity|].
  simpl. destruct (lines ++ [EmptyString]) as [|next more] eqn:E.
  - destruct lines; discriminate.
  - destruct line; now rewrite IH.
Qed.

Lemma frame_rows_width (df : Pandas.Frame) :
  Forall (fun row => List.length row = 8%nat) (frame_rows df).
Proof.
  unfold frame_rows. apply Forall_forall. intros row H.
  apply in_map_iff in H as [[a [b [c [d [e [f [g h]]]]]]] [<- _]]. reflexivity.
Qed.




End CsvFacts.

Section DatasetFileFacts.

Import Pg.
Local Open Scope list_scope.


End DatasetFileFacts.

Section DatasetFileProperties.

Import Pg.
Local Open Scope list_scope.

(** X22.  The file that [create_csv_file] writes is one that the loader
    can copy.  For a frame whose values hold no line break, the data
    lines that the server reads from the file are the rows of the frame
    as the writer wrote them, one line for each row in the order of the
    rows, and in each of them the server finds eight fields, whatever
    commas and double quotes the values hold: a table of eight columns
    accepts them all. *)
Theorem dataset_file_is_loadable (df : Pandas.Frame) (tb : Table)
    (Hcolumns : List.length (t_columns tb) = 8%nat)
    (Hlines : Forall (fun row => forallb Csv.one_line row = true) (frame_rows df)) :
  data_lines (to_csv df) = map Csv.write_row (frame_rows df)
  /\ List.length (data_lines (to_csv df)) = List.length (frame_rows df)
  /\ Forall (fun line => count_fields false line = 8%nat) (data_lines (to_csv df))
  /\ forallb (accepts tb) (data_lines (to_csv df)) = true.
Proof.
  assert (E : data_lines (to_csv df) = map Csv.write_row (frame_rows df)).
  { unfold data_lines, to_csv.
    change newline with Csv.line_feed.
    rewrite CsvFacts.split_written_rows.
    - simpl tl. apply CsvFacts.drop_final_empty_last.
    - constructor; [reflexivity | exact Hlines]. }
  assert (C : Forall (fun line => count_fields false line = 8%nat)
                (map Csv.write_row (frame_rows df))).
  { apply Forall_forall. intros line Hin.
    apply in_map_iff in Hin as [row [<- Hrow]].
    pose proof (CsvFacts.frame_rows_width df) as W.
    rewrite Forall_forall in W. specialize (W row Hrow).
    destruct row as [|f [|g row]]; try discriminate W.
    rewrite CsvFacts.write_row_many, CsvFacts.count_written_fields by discriminate.
    exact W. }
  rewrite E. split; [reflexivity|]. split; [apply length_map|].
  split; [exact C|].
  apply forallb_forall. intros line Hin. rewrite Forall_forall in C.
  unfold accepts. rewrite (C line Hin), Hcolumns. reflexivity.
Qed.

Lemma dataset_file_is_loadable_witness :
  to_csv (Pandas.mkFrame ["536365"%string] ["85123A"%string]
            [Pandas.OStr "HOLDER, WHITE"] [6%Z] [Some "2010-12-01 08:26:00"%string]
            [Float64.of_decimal 255 2] ["17850"%string] ["United Kingdom"%string])
    = (Example.header ++ Example.nl
         ++ "536365,85123A," ++ dquote ++ "HOLDER, WHITE" ++ dquote
         ++ ",6,2010-12-01 08:26:00,2.55,17850,United Kingdom" ++ Example.nl)%string
  /\ forallb (accepts (mkTable "retail" "online_retail" Example.canonical_columns []))
       (data_lines
          (to_csv (Pandas.mkFrame ["536365"%string] ["85123A"%string]
                     [Pandas.OStr "HOLDER, WHITE"] [6%Z]
                     [Some "2010-12-01 08:26:00"%string]
                     [Float64.of_decimal 255 2] ["17850"%string]
                     ["United Kingdom"%string])))
     = true.
Proof.
  split; [reflexivity|].
  exact (proj2 (proj2 (proj2
           (dataset_file_is_loadable
              (Pandas.mkFrame ["536365"%string] ["85123A"%string]
                 [Pandas.OStr "HOLDER, WHITE"] [6%Z]
                 [Some "2010-12-01 08:26:00"%string]
                 [Float64.of_decimal 255 2] ["17850"%string]
                 ["United Kingdom"%string])
              (mkTable "retail" "online_retail" Example.canonical_columns [])
              eq_refl
              ltac:(repeat constructor))))).
Defined.




(** X25.  The pattern of [read_csv_file], [M/d/yyyy H:mm], does not read
    the dates that analysis.py writes.  For every text of the form
    [dddd-dd-dd dd:dd:dd], and so for the text written for every date
    that the normaliser accepts, [to_timestamp] gives null when the
    column holds texts; the dates of such a file survive only in a
    column that Spark has read as timestamps, which [to_timestamp]
    passes through. *)
Theorem pattern_rejects_written_dates (s : string)
    (Hform : Pandas.is_canonical_text s = true) :
  Spark.parse_timestamp "M/d/yyyy H:mm" s = None
  /\ Spark.to_timestamp "M/d/yyyy H:mm" (Some (Spark.CString s)) = None
  /\ (forall text t,
        Pandas.strptime text "%m/%d/%Y %H:%M" = Return t ->
        Spark.to_timestamp "M/d/yyyy H:mm"
          (Some (Spark.CString (Pandas.canonical_text t))) = None)
  /\ (forall t,
        Spark.to_timestamp "M/d/yyyy H:mm" (Some (Spark.CTimestamp t)) = Some t).
Proof.
  assert (Reject : forall s', Pandas.is_canonical_text s' = true ->
                              Spark.parse_timestamp "M/d/yyyy H:mm" s' = None).
  { clear s Hform. intros s H. unfold Pandas.is_canonical_text in H.
    rewrite <- (string_of_list_ascii_of_string s).
    destruct (list_ascii_of_string s)
      as [|y1 [|y2 [|y3 [|y4 [|s1 [|m1 [|m2 [|s2 [|d1 [|d2 [|s3 [|h1 [|h2 [|s4
            [|n1 [|n2 [|s5 [|c1 [|c2 [|extra l]]]]]]]]]]]]]]]]]]]];
      try discriminate H.
    rewrite !andb_true_iff in H.
    destruct H as [[[[[D S1] _] _] _] _].
    simpl in D. rewrite !andb_true_iff in D.
    destruct D as (Y1 & Y2 & Y3 & Y4 & _).
    apply Ascii.eqb_eq in S1. subst s1.
    unfold Spark.parse_timestamp.
    change (Spark.compile "M/d/yyyy H:mm")
      with [Spark.Letters "M" 1; Spark.Literal "/"; Spark.Letters "d" 1;
            Spark.Literal "/"; Spark.Letters "y" 4; Spark.Literal " ";
            Spark.Letters "H" 1; Spark.Literal ":"; Spark.Letters "m" 2].
    cbn [string_of_list_ascii Spark.parse_items Spark.widths Nat.eqb
           Spark.take_digits].
    rewrite Y1, Y2, Y3, Y4.
    change (PyStr.isdigit "-") with false. cbn iota. reflexivity. }
  split; [now apply Reject|]. split; [now apply Reject|]. split; [|reflexivity].
  intros text t H. apply Reject. apply (PandasFacts.accepted_text_form text t H).
Qed.

Lemma pattern_rejects_written_dates_witness :
  Pandas.is_canonical_text "2010-12-01 08:26:00" = true
  /\ Spark.to_timestamp "M/d/yyyy H:mm"
       (Some (Spark.CString "2010-12-01 08:26:00")) = None.
Proof.
  split; [reflexivity|].
  exact (proj1 (proj2 (pattern_rejects_written_dates "2010-12-01 08:26:00" eq_refl))).
Defined.

End DatasetFileProperties.
